(** * BeamerPresenter: the page cache and its scheduler

    A shallow embedding of the cache management of BeamerPresenter:
    - the per-widget image cache of [PageLabel] (src/pagelabel.cpp), a
      [QMap<int, QByteArray const*>] from page index to PNG bytes;
    - the cache scheduler of [ControlScreen]
      (src/screens/controlscreen.cpp): [renderPage], [updateCache],
      [updateCacheStep], [freeCachePage], [cachePage], [setCacheNumber],
      [setCacheSize], [cacheThreadFinished];
    - the page change of [PresentationScreen] (src/unnamed/part_000, the
      implementation of presentationscreen.h).

    C++ [int] and [qint64] values are integers of [Z]; signed overflow is
    undefined in C++ and no wrap-around is modelled: page numbers are bounded
    by the length of the document and sizes by the memory of the machine.
    Integer division [/] truncates, which is [Z.quot]. *)

From Stdlib Require Import ZArith Lia Bool.
From stdpp Require Import base option gmap fin_maps list.

Local Open Scope Z_scope.

(** ** Byte arrays *)

(** A [QByteArray] holding a compressed image. The cache logic only looks at
    whether it is empty and at its size. *)
Abbreviation QByteArray := (list Byte.byte).

Definition byteSize (b : QByteArray) : Z := Z.of_nat (length b).

Definition isEmpty (b : QByteArray) : bool :=
  match b with [] => true | _ => false end.

(** The map from page index to image, [QMap<int, QByteArray const*>]. *)
Abbreviation PageMap := (gmap Z QByteArray).

(** Sum of the sizes of all entries, as the loops of [getCacheSize] compute. *)
Definition sumBytes (m : PageMap) : Z :=
  map_fold (λ (_ : Z) (b : QByteArray) (acc : Z), acc + byteSize b) 0 m.

Definition contains (m : PageMap) (index : Z) : bool :=
  match m !! index with Some _ => true | None => false end.

(** ** PageLabel: the cache of one widget (src/pagelabel.cpp) *)

Module PageLabel.

(** [PagePart] of the widget: the rendered image is cut to one half when
    notes and slides share a page. *)
Inductive PagePart := FullPage | LeftHalf | RightHalf.

Record t := mk {
  pageIndex : Z;
  cache : PageMap;
  useCache : bool;
  pagePart : PagePart
}.

Definition set_cache (c : PageMap) (l : t) : t :=
  mk (pageIndex l) c (useCache l) (pagePart l).

Definition set_pageIndex (i : Z) (l : t) : t :=
  mk i (cache l) (useCache l) (pagePart l).

Definition pageNumber (l : t) : Z := pageIndex l.

(** [PageLabel::getCacheSize] *)
Definition getCacheSize (l : t) : Z := sumBytes (cache l).

(** [PageLabel::clearCache] *)
Definition clearCache (l : t) : t := set_cache ∅ l.

(** [PageLabel::clearCachePage]: removes the page and returns its size, 0
    when the page is not cached. *)
Definition clearCachePage (index : Z) (l : t) : t * Z :=
  match cache l !! index with
  | Some b => (set_cache (delete index (cache l)) l, byteSize b)
  | None => (l, 0)
  end.

(** [PageLabel::updateCache(QByteArray const* bytes, int index)]: [None] is
    the null pointer. An existing entry is replaced. *)
Definition updateCache_bytes (bytes : option QByteArray) (index : Z) (l : t)
  : t * Z :=
  match bytes with
  | None => (l, 0)
  | Some b =>
      if isEmpty b then (l, 0)
      else (set_cache (<[index := b]> (cache l)) l, byteSize b)
  end.

Section Rendering.
(** The renderer is external: [renderToImage] is Poppler's rendering of
    a page, [copyLeft] and [copyRight] cut the image in halves, [savePNG]
    compresses it, and [isNull] is [QPixmap::isNull] of the image as a
    pixmap (Poppler gives a null image when it cannot render). *)
Context {Image : Type}.
Variable renderToImage : Z → Image.
Variables copyLeft copyRight : Image → Image.
Variable savePNG : Image → QByteArray.
Variable isNull : Image → bool.

Definition renderPart (part : PagePart) (index : Z) : Image :=
  let image := renderToImage index in
  match part with
  | FullPage => image
  | LeftHalf => copyLeft image
  | RightHalf => copyRight image
  end.

(** [PageLabel::updateCache(Poppler::Page const* cachePage)], with
    [index = cachePage->index()]. Rendering takes time: [during] is what
    happens to the cache of this label while the image is rendered (the
    identity when nothing else touches the cache). The presence check is
    repeated after the rendering. *)
Definition updateCache_page (index : Z) (during : PageMap → PageMap)
    (l : t) : t * Z :=
  if contains (cache l) index then (l, 0)
  else
    let image := renderPart (pagePart l) index in
    let l1 := set_cache (during (cache l)) l in
    if contains (cache l1) index then (l1, 0)
    else
      let bytes := savePNG image in
      (set_cache (<[index := bytes]> (cache l1)) l1, byteSize bytes).

(** [PageLabel::updateCache(QPixmap const* pixmap, int index)]: compress
    and store; [None] is the null pointer. Nothing is stored for a null
    pointer or a null pixmap. *)
Definition updateCache_pixmap (pixmap : option Image) (index : Z) (l : t)
  : t * Z :=
  match pixmap with
  | None => (l, 0)
  | Some image =>
      if isNull image then (l, 0)
      else
        let bytes := savePNG image in
        (set_cache (<[index := bytes]> (cache l)) l, byteSize bytes)
  end.

(** [PageLabel::renderPage(Poppler::Page* page, ...)] as far as the page
    index and the cache are concerned: [page] is the index of the page
    object, [None] the null pointer; [resized] is [size() != oldSize];
    [pixmap] is the optional pixmap handed in by the caller. *)
Definition renderPage (page : option Z) (resized : bool)
    (pixmap : option Image) (l : t) : t :=
  match page with
  | None => l
  | Some index =>
      let l1 := if resized then clearCache l else l in
      let l2 := set_pageIndex index l1 in
      match pixmap with
      | Some _ => l2
      | None =>
          if contains (cache l2) index then l2
          else if useCache l2
               then fst (updateCache_pixmap
                           (Some (renderPart (pagePart l2) index)) index l2)
               else l2
      end
  end.
End Rendering.

(** A label that shows page 0 and has nothing cached. *)
Definition blank : t := mk 0 ∅ true FullPage.

End PageLabel.

(** ** CacheMap: the cache of one widget with its render thread *)

Module CacheMap.

(** Modelled from the spec: CacheMap (cachemap.cpp and cachemap.h are not
    among the sources; controlscreen.cpp only calls it). It is the
    ImageStore of the specification with its RenderWorker: [data] maps page
    index to image, [thread] is the page the render thread is working on,
    [None] when it is idle. *)
Record t := mk {
  data : PageMap;
  thread : option Z
}.

Definition empty : t := mk ∅ None.

(** Modelled from the spec: CacheMap::length, the [count()] of the store. *)
Definition length (c : t) : Z := Z.of_nat (size (data c)).

(** Modelled from the spec: CacheMap::getSizeBytes, the [sizeBytes()] of
    the store. *)
Definition getSizeBytes (c : t) : Z := sumBytes (data c).

(** Modelled from the spec: CacheMap::clearCache, [evictAll()]: clears all
    entries. *)
Definition clearCache (c : t) : t := mk ∅ (thread c).

(** Modelled from the spec: CacheMap::clearPage, [evict(index)]: removes
    the entry and returns its size; 0 if absent. *)
Definition clearPage (page : Z) (c : t) : t * Z :=
  match data c !! page with
  | Some b => (mk (delete page (data c)) (thread c), byteSize b)
  | None => (c, 0)
  end.

(** Modelled from the spec: CacheMap::updateCache(page),
    [requestRender]: rejected when the store already contains the page or
    the worker is rendering; otherwise the worker starts on the page. The
    result tells whether a thread was started. *)
Definition updateCache (page : Z) (c : t) : t * bool :=
  if contains (data c) page then (c, false)
  else match thread c with
       | Some _ => (c, false)
       | None => (mk (data c) (Some page), true)
       end.

(** Modelled from the spec: the completion of a render job, [insert(index,
    blob)]: nothing is stored (0 bytes added) when the blob is empty or the
    store already holds the page; the worker is idle again. *)
Definition receiveBytes (page : Z) (bytes : QByteArray) (c : t) : t * Z :=
  if isEmpty bytes || contains (data c) page then (mk (data c) None, 0)
  else (mk (<[page := bytes]> (data c)) None, byteSize bytes).

End CacheMap.

(** ** ControlScreen: the scheduler (src/screens/controlscreen.cpp) *)

Module ControlScreen.

(** The members of [ControlScreen] that the cache management reads and
    writes. [presentationCache] is
    [presentationScreen->slide->getCacheMap()], [notesCache] is
    [ui->notes_widget->getCacheMap()]; [previewCacheX] and [drawSlideCache]
    are pointers that may be null ([None]). [cacheTimer] tells whether the
    timer that calls [updateCacheStep] is active. *)
Record t := mk {
  numberOfPages : Z;
  currentPageNumber : Z;
  maxCacheNumber : Z;
  maxCacheSize : Z;
  cacheSize : Z;
  first_cached : Z;
  last_cached : Z;
  first_delete : Z;
  last_delete : Z;
  presentationCache : CacheMap.t;
  notesCache : CacheMap.t;
  previewCache : CacheMap.t;
  previewCacheX : option CacheMap.t;
  drawSlideCache : option CacheMap.t;
  cacheTimer : bool;
  cacheThreadsRunning : Z
}.

(** *** Assignments to single members *)

Definition set_currentPageNumber (v : Z) (s : t) : t :=
  mk (numberOfPages s) v (maxCacheNumber s) (maxCacheSize s) (cacheSize s)
     (first_cached s) (last_cached s) (first_delete s) (last_delete s)
     (presentationCache s) (notesCache s) (previewCache s) (previewCacheX s)
     (drawSlideCache s) (cacheTimer s) (cacheThreadsRunning s).

Definition set_maxCacheNumber (v : Z) (s : t) : t :=
  mk (numberOfPages s) (currentPageNumber s) v (maxCacheSize s) (cacheSize s)
     (first_cached s) (last_cached s) (first_delete s) (last_delete s)
     (presentationCache s) (notesCache s) (previewCache s) (previewCacheX s)
     (drawSlideCache s) (cacheTimer s) (cacheThreadsRunning s).

Definition set_maxCacheSize (v : Z) (s : t) : t :=
  mk (numberOfPages s) (currentPageNumber s) (maxCacheNumber s) v (cacheSize s)
     (first_cached s) (last_cached s) (first_delete s) (last_delete s)
     (presentationCache s) (notesCache s) (previewCache s) (previewCacheX s)
     (drawSlideCache s) (cacheTimer s) (cacheThreadsRunning s).

Definition set_cacheSize (v : Z) (s : t) : t :=
  mk (numberOfPages s) (currentPageNumber s) (maxCacheNumber s) (maxCacheSize s) v
     (first_cached s) (last_cached s) (first_delete s) (last_delete s)
     (presentationCache s) (notesCache s) (previewCache s) (previewCacheX s)
     (drawSlideCache s) (cacheTimer s) (cacheThreadsRunning s).

Definition set_first_cached (v : Z) (s : t) : t :=
  mk (numberOfPages s) (currentPageNumber s) (maxCacheNumber s) (maxCacheSize s)
     (cacheSize s) v (last_cached s) (first_delete s) (last_delete s)
     (presentationCache s) (notesCache s) (previewCache s) (previewCacheX s)
     (drawSlideCache s) (cacheTimer s) (cacheThreadsRunning s).

Definition set_last_cached (v : Z) (s : t) : t :=
  mk (numberOfPages s) (currentPageNumber s) (maxCacheNumber s) (maxCacheSize s)
     (cacheSize s) (first_cached s) v (first_delete s) (last_delete s)
     (presentationCache s) (notesCache s) (previewCache s) (previewCacheX s)
     (drawSlideCache s) (cacheTimer s) (cacheThreadsRunning s).

Definition set_first_delete (v : Z) (s : t) : t :=
  mk (numberOfPages s) (currentPageNumber s) (maxCacheNumber s) (maxCacheSize s)
     (cacheSize s) (first_cached s) (last_cached s) v (last_delete s)
     (presentationCache s) (notesCache s) (previewCache s) (previewCacheX s)
     (drawSlideCache s) (cacheTimer s) (cacheThreadsRunning s).

Definition set_last_delete (v : Z) (s : t) : t :=
  mk (numberOfPages s) (currentPageNumber s) (maxCacheNumber s) (maxCacheSize s)
     (cacheSize s) (first_cached s) (last_cached s) (first_delete s) v
     (presentationCache s) (notesCache s) (previewCache s) (previewCacheX s)
     (drawSlideCache s) (cacheTimer s) (cacheThreadsRunning s).

Definition set_presentationCache (c : CacheMap.t) (s : t) : t :=
  mk (numberOfPages s) (currentPageNumber s) (maxCacheNumber s) (maxCacheSize s)
     (cacheSize s) (first_cached s) (last_cached s) (first_delete s) (last_delete s)
     c (notesCache s) (previewCache s) (previewCacheX s)
     (drawSlideCache s) (cacheTimer s) (cacheThreadsRunning s).

Definition set_notesCache (c : CacheMap.t) (s : t) : t :=
  mk (numberOfPages s) (currentPageNumber s) (maxCacheNumber s) (maxCacheSize s)
     (cacheSize s) (first_cached s) (last_cached s) (first_delete s) (last_delete s)
     (presentationCache s) c (previewCache s) (previewCacheX s)
     (drawSlideCache s) (cacheTimer s) (cacheThreadsRunning s).

Definition set_previewCache (c : CacheMap.t) (s : t) : t :=
  mk (numberOfPages s) (currentPageNumber s) (maxCacheNumber s) (maxCacheSize s)
     (cacheSize s) (first_cached s) (last_cached s) (first_delete s) (last_delete s)
     (presentationCache s) (notesCache s) c (previewCacheX s)
     (drawSlideCache s) (cacheTimer s) (cacheThreadsRunning s).

Definition set_previewCacheX (c : option CacheMap.t) (s : t) : t :=
  mk (numberOfPages s) (currentPageNumber s) (maxCacheNumber s) (maxCacheSize s)
     (cacheSize s) (first_cached s) (last_cached s) (first_delete s) (last_delete s)
     (presentationCache s) (notesCache s) (previewCache s) c
     (drawSlideCache s) (cacheTimer s) (cacheThreadsRunning s).

Definition set_drawSlideCache (c : option CacheMap.t) (s : t) : t :=
  mk (numberOfPages s) (currentPageNumber s) (maxCacheNumber s) (maxCacheSize s)
     (cacheSize s) (first_cached s) (last_cached s) (first_delete s) (last_delete s)
     (presentationCache s) (notesCache s) (previewCache s) (previewCacheX s)
     c (cacheTimer s) (cacheThreadsRunning s).

Definition set_cacheTimer (b : bool) (s : t) : t :=
  mk (numberOfPages s) (currentPageNumber s) (maxCacheNumber s) (maxCacheSize s)
     (cacheSize s) (first_cached s) (last_cached s) (first_delete s) (last_delete s)
     (presentationCache s) (notesCache s) (previewCache s) (previewCacheX s)
     (drawSlideCache s) b (cacheThreadsRunning s).

Definition set_cacheThreadsRunning (v : Z) (s : t) : t :=
  mk (numberOfPages s) (currentPageNumber s) (maxCacheNumber s) (maxCacheSize s)
     (cacheSize s) (first_cached s) (last_cached s) (first_delete s) (last_delete s)
     (presentationCache s) (notesCache s) (previewCache s) (previewCacheX s)
     (drawSlideCache s) (cacheTimer s) v.

(** [cacheTimer->stop()] and [cacheTimer->start()] *)
Definition stopTimer : t → t := set_cacheTimer false.
Definition startTimer : t → t := set_cacheTimer true.

(** *** Queries over the stores *)

(** The test "all slides are cached" of [updateCache] and
    [updateCacheStep]. *)
Definition allCached (s : t) : bool :=
  (CacheMap.length (presentationCache s) =? numberOfPages s)
  && (CacheMap.length (notesCache s) =? numberOfPages s)
  && (CacheMap.length (previewCache s) =? numberOfPages s)
  && match drawSlideCache s with
     | None => true
     | Some c => CacheMap.length c =? numberOfPages s
     end
  && match previewCacheX s with
     | None => true
     | Some c => CacheMap.length c =? numberOfPages s
     end.

(** The sum that [updateCache] assigns to [cacheSize]. *)
Definition totalBytes (s : t) : Z :=
  let size := CacheMap.getSizeBytes (presentationCache s)
              + CacheMap.getSizeBytes (notesCache s)
              + CacheMap.getSizeBytes (previewCache s) in
  let size := match previewCacheX s with
              | Some c => size + CacheMap.getSizeBytes c
              | None => size
              end in
  match drawSlideCache s with
  | Some c => size + CacheMap.getSizeBytes c
  | None => size
  end.

(** [clearCache] on every store, as the first branch of [updateCache]. *)
Definition clearAllCaches (s : t) : t :=
  let s := set_presentationCache (CacheMap.clearCache (presentationCache s)) s in
  let s := set_notesCache (CacheMap.clearCache (notesCache s)) s in
  let s := set_previewCache (CacheMap.clearCache (previewCache s)) s in
  let s := set_previewCacheX (CacheMap.clearCache <$> previewCacheX s) s in
  set_drawSlideCache (CacheMap.clearCache <$> drawSlideCache s) s.

(** The value that stands for "unlimited" in [cacheSize]: -8GiB. *)
Definition minusInfinity : Z := -8589934591.

(** *** ControlScreen::renderPage *)

(** The first statement of [renderPage]: out-of-range page numbers go to
    the last page. *)
Definition clampPage (s : t) (pageNumber : Z) : Z :=
  if (pageNumber <? 0) || (pageNumber >=? numberOfPages s)
  then numberOfPages s - 1
  else pageNumber.

(** [recalcLayout] as far as the caches are concerned: when the size of
    the window has changed, the preview caches are cleared. *)
Definition recalcLayout (sizeChanged : bool) (s : t) : t :=
  if sizeChanged then
    let s := set_previewCache (CacheMap.clearCache (previewCache s)) s in
    let s := set_previewCacheX (CacheMap.clearCache <$> previewCacheX s) s in
    set_drawSlideCache (CacheMap.clearCache <$> drawSlideCache s) s
  else s.

(** [ControlScreen::renderPage(pageNumber, full)]: the page number and
    the recalculation of the layout. [visible] is [isVisible()],
    [sizeChanged] is [size() != oldSize] of the window. The slide widgets are
    then redrawn by their own [renderPage], which is not part of this
    definition: a widget whose own size has changed clears its cache map
    there (previewslide.cpp, "Old cached images are useless if the label
    size has changed"), which takes pages out of a store. *)
Definition renderPage (pageNumber : Z) (full visible sizeChanged : bool)
    (s : t) : t :=
  let s := set_currentPageNumber (clampPage s pageNumber) s in
  if negb visible then s
  else if full && sizeChanged then recalcLayout sizeChanged s
  else s.

(** *** ControlScreen::updateCache *)

(** "Reset cache numbers and start a new simply connected region, which
    is initially empty." *)
Definition resetRegion (s : t) : t :=
  let s := set_first_cached (currentPageNumber s) s in
  let s := set_last_cached (currentPageNumber s - 1) s in
  let s := set_first_delete 0 s in
  set_last_delete (numberOfPages s - 1) s.

(** The other branch: deleting starts outside the cached region. *)
Definition widenDeleteRegion (cacheNumber : Z) (s : t) : t :=
  let s := set_last_delete
             (if last_delete s >? currentPageNumber s + cacheNumber
              then last_delete s else currentPageNumber s + cacheNumber) s in
  let s := set_last_delete
             (if last_delete s >=? numberOfPages s
              then numberOfPages s - 1 else last_delete s) s in
  let s := set_first_delete
             (if first_delete s >? currentPageNumber s - Z.quot cacheNumber 2
              then currentPageNumber s - Z.quot cacheNumber 2
              else first_delete s) s in
  set_first_delete (if first_delete s <? 0 then 0 else first_delete s) s.

Definition updateCache (s : t) : t :=
  if (maxCacheSize s =? 0) || (maxCacheNumber s =? 0) then clearAllCaches s
  else
    let s := stopTimer s in
    let cacheNumber := CacheMap.length (presentationCache s) in
    if allCached s then s
    else
      let s := if maxCacheSize s >? 0
               then set_cacheSize (totalBytes s) s
               else set_cacheSize minusInfinity s in
      let s := if (first_cached s >? currentPageNumber s)
                  || (last_cached s <? currentPageNumber s)
               then resetRegion s
               else widenDeleteRegion cacheNumber s in
      if (last_cached s <? numberOfPages s - 1) || (first_cached s >? 0)
      then startTimer s
      else s.

(** [ControlScreen::receiveNewPageNumber] *)
Definition receiveNewPageNumber (pageNumber : Z) (visible sizeChanged : bool)
    (s : t) : t :=
  updateCache (renderPage pageNumber true visible sizeChanged s).


(** *** ControlScreen::freeCachePage *)

(** The test after each deletion in [freeCachePage]:
    [cacheSize <= maxCacheSize && (maxCacheNumber >= numberOfPages ||
    length() <= maxCacheNumber)]. *)
Definition budgetSatisfied (s : t) : bool :=
  (cacheSize s <=? maxCacheSize s)
  && ((maxCacheNumber s >=? numberOfPages s)
      || (CacheMap.length (presentationCache s) <=? maxCacheNumber s)).

(** [cacheSize -= cache->clearPage(page)] for each of the stores. *)
Definition freeIn_drawSlideCache (page : Z) (s : t) : t :=
  match drawSlideCache s with
  | Some c =>
      let '(c', freed) := CacheMap.clearPage page c in
      set_cacheSize (cacheSize s - freed) (set_drawSlideCache (Some c') s)
  | None => s
  end.

Definition freeIn_notesCache (page : Z) (s : t) : t :=
  let '(c', freed) := CacheMap.clearPage page (notesCache s) in
  set_cacheSize (cacheSize s - freed) (set_notesCache c' s).

Definition freeIn_previewCacheX (page : Z) (s : t) : t :=
  match previewCacheX s with
  | Some c =>
      let '(c', freed) := CacheMap.clearPage page c in
      set_cacheSize (cacheSize s - freed) (set_previewCacheX (Some c') s)
  | None => s
  end.

Definition freeIn_previewCache (page : Z) (s : t) : t :=
  let '(c', freed) := CacheMap.clearPage page (previewCache s) in
  set_cacheSize (cacheSize s - freed) (set_previewCache c' s).

Definition freeIn_presentationCache (page : Z) (s : t) : t :=
  let '(c', freed) := CacheMap.clearPage page (presentationCache s) in
  set_cacheSize (cacheSize s - freed) (set_presentationCache c' s).

(** [freeCachePage(page)]: the result is [true] when the budget was met
    before the page was deleted from all stores. *)
Definition freeCachePage (page : Z) (s : t) : t * bool :=
  let s1 := freeIn_drawSlideCache page s in
  if bool_decide (is_Some (drawSlideCache s)) && budgetSatisfied s1
  then (s1, true)
  else
    let s2 := freeIn_notesCache page s1 in
    if budgetSatisfied s2 then (s2, true)
    else
      let s3 := freeIn_previewCacheX page s2 in
      let s4 := freeIn_previewCache page s3 in
      if budgetSatisfied s4 then (s4, true)
      else (freeIn_presentationCache page s4, false).

(** *** ControlScreen::cachePage *)

Definition dispatch_presentationCache (page : Z) (s : t) : t :=
  let '(c', started) := CacheMap.updateCache page (presentationCache s) in
  let s := set_presentationCache c' s in
  if started then set_cacheThreadsRunning (cacheThreadsRunning s + 1) s else s.

Definition dispatch_notesCache (page : Z) (s : t) : t :=
  let '(c', started) := CacheMap.updateCache page (notesCache s) in
  let s := set_notesCache c' s in
  if started then set_cacheThreadsRunning (cacheThreadsRunning s + 1) s else s.

Definition dispatch_previewCache (page : Z) (s : t) : t :=
  let '(c', started) := CacheMap.updateCache page (previewCache s) in
  let s := set_previewCache c' s in
  if started then set_cacheThreadsRunning (cacheThreadsRunning s + 1) s else s.

Definition dispatch_drawSlideCache (page : Z) (s : t) : t :=
  match drawSlideCache s with
  | Some c =>
      let '(c', started) := CacheMap.updateCache page c in
      let s := set_drawSlideCache (Some c') s in
      if started then set_cacheThreadsRunning (cacheThreadsRunning s + 1) s else s
  | None => s
  end.

Definition dispatch_previewCacheX (page : Z) (s : t) : t :=
  match previewCacheX s with
  | Some c =>
      let '(c', started) := CacheMap.updateCache page c in
      let s := set_previewCacheX (Some c') s in
      if started then set_cacheThreadsRunning (cacheThreadsRunning s + 1) s else s
  | None => s
  end.

Definition cachePage (page : Z) (s : t) : t :=
  let s := stopTimer s in
  let s := set_cacheThreadsRunning 0 s in
  let s := dispatch_presentationCache page s in
  let s := dispatch_notesCache page s in
  let s := dispatch_previewCache page s in
  let s := dispatch_drawSlideCache page s in
  let s := dispatch_previewCacheX page s in
  if cacheThreadsRunning s =? 0 then startTimer s else s.

(** *** ControlScreen::updateCacheStep *)

(** The second test of [updateCacheStep]: the region does not fit the
    delete boundaries or the current page. *)
Definition regionInconsistent (s : t) : bool :=
  (last_cached s >? last_delete s)
  || (first_cached s <? first_delete s)
  || (first_cached s >? currentPageNumber s)
  || (last_cached s <? currentPageNumber s - 1).

(** The condition of the [while] loop. *)
Definition overBudget (s : t) : bool :=
  (cacheSize s >? maxCacheSize s)
  || ((maxCacheNumber s <? numberOfPages s)
      && (CacheMap.length (presentationCache s) >? maxCacheNumber s)).

(** "Start deleting later slides if less than 1/4 of the caches slides are
    previous slides" *)
Definition deleteLater (s : t) : bool :=
  last_delete s >? 4 * currentPageNumber s - 3 * first_delete s.

(** How one pass through the body of the loop ends: at the end of the
    body, by [break], or by [return]. *)
Inductive LoopControl := Continue | Break | Return.

(** The test at the end of the loop body. *)
Definition regionCheck (s : t) : t * LoopControl :=
  if (last_cached s >? last_delete s) || (first_cached s <? first_delete s)
  then (stopTimer s, Return)
  else (s, Continue).

(** The body of the [while] loop. *)
Definition evictBody (s : t) : t * LoopControl :=
  if deleteLater s then
    let '(s1, satisfied) := freeCachePage (last_delete s) s in
    if satisfied then (s1, Break)
    else
      let s2 := set_last_delete (last_delete s1 - 1) s1 in
      let s3 := set_last_cached
                  (if last_delete s2 >? last_cached s2
                   then last_cached s2 else last_delete s2) s2 in
      regionCheck s3
  else
    let '(s1, satisfied) := freeCachePage (first_delete s) s in
    if satisfied then (s1, Break)
    else
      let s2 := set_first_delete (first_delete s1 + 1) s1 in
      let s3 := set_first_cached
                  (if first_cached s2 >? first_delete s2
                   then first_cached s2 else first_delete s2) s2 in
      regionCheck s3.

(** The [while] loop "Free space if necessary". The loop has no bound in
    the source; [fuel] bounds the number of passes and [None] means that
    the fuel did not suffice. The boolean of the result tells whether the
    loop was left by [return] (the step is over). *)
Fixpoint evictLoop (fuel : nat) (s : t) : option (t * bool) :=
  match fuel with
  | O => None
  | S fuel' =>
      if overBudget s then
        match evictBody s with
        | (s', Continue) => evictLoop fuel' s'
        | (s', Break) => Some (s', false)
        | (s', Return) => Some (s', true)
        end
      else Some (s, false)
  end.

(** The tests of the thrash guard, in the order of the source. Here and
    in [choosePage] the products are exact; the source computes them in
    [qint64] and [int], where they must not overflow ([choiceInRange]
    below). *)
Definition mostSpaceUsed (s : t) : bool :=
  2 * maxCacheSize s <? 3 * cacheSize s.

Definition enoughSlidesAhead (s : t) : bool :=
  (last_cached s =? numberOfPages s)
  || (3 * (last_cached s - currentPageNumber s) * cacheSize s
      >? 2 * CacheMap.length (presentationCache s) * maxCacheSize s).

Definition littleSpaceLeft (s : t) : bool :=
  (maxCacheSize s - cacheSize s) * CacheMap.length (presentationCache s)
  <? 2 * cacheSize s.

(** The part of [updateCacheStep] after the loop: choose the page to
    render. *)
Definition choosePage (s : t) : t :=
  if last_cached s + 1 =? numberOfPages s then
    if (first_cached s >? first_delete s)
       && (2 * maxCacheSize s >? 3 * cacheSize s)
       && ((maxCacheNumber s =? numberOfPages s)
           || (2 * maxCacheNumber s
               >? 3 * CacheMap.length (presentationCache s)))
    then
      let s := set_first_cached (first_cached s - 1) s in
      cachePage (first_cached s) s
    else stopTimer s
  else if mostSpaceUsed s && enoughSlidesAhead s && littleSpaceLeft s
  then stopTimer s
  else
    let s := set_last_cached (last_cached s + 1) s in
    cachePage (last_cached s) s.

Definition updateCacheStep (fuel : nat) (s : t) : option t :=
  if allCached s then Some (stopTimer s)
  else if regionInconsistent s then Some (stopTimer s)
  else
    match evictLoop fuel s with
    | None => None
    | Some (s', true) => Some s'
    | Some (s', false) => Some (choosePage s')
    end.

(** *** Setters of the budget and thread bookkeeping *)

(** [interruptCacheProcesses]: stops the timer and asks the threads to
    stop; the caches are not touched. *)
Definition interruptCacheProcesses (s : t) : t := stopTimer s.

Definition setCacheNumber (number : Z) (s : t) : t :=
  if number <? 0 then set_maxCacheNumber (numberOfPages s) s
  else if number =? 0 then set_maxCacheNumber 0 (interruptCacheProcesses s)
  else set_maxCacheNumber number s.

(** The test of [setCacheSize] reads the member [cacheSize], not the
    argument. *)
Definition setCacheSize (size : Z) (s : t) : t :=
  let s := if cacheSize s =? 0 then interruptCacheProcesses s else s in
  set_maxCacheSize size s.

Definition cacheThreadFinished (s : t) : t :=
  let s := set_cacheThreadsRunning (cacheThreadsRunning s - 1) s in
  if cacheThreadsRunning s =? 0 then startTimer s else s.


(** *** The events that drive the scheduler *)

(** The stores that [ControlScreen] manages. *)
Inductive Store :=
  PresentationStore | NotesStore | PreviewStore | PreviewXStore | DrawSlideStore.

(** Modelled from the spec: ControlScreen::updateCacheSize (defined in
    controlscreen.h, which is not among the sources), the slot connected to
    [CacheMap::cacheSizeChanged]: the bytes added to a store are added to
    [cacheSize]. *)
Definition updateCacheSize (diff : Z) (s : t) : t :=
  set_cacheSize (cacheSize s + diff) s.

(** Modelled from the spec: the completion of a render job in CacheMap
    (cachemap.cpp is not among the sources). The store takes [bytes] for the
    page its thread was working on; nothing happens when the thread is
    idle. *)
Definition storeReceives (bytes : QByteArray) (c : CacheMap.t)
  : option (CacheMap.t * Z) :=
  match CacheMap.thread c with
  | Some page => Some (CacheMap.receiveBytes page bytes c)
  | None => None
  end.

(** Modelled from the spec: what reaches [ControlScreen] when the render
    thread of store [st] delivers [bytes]. The store reports the change of
    its size ([cacheSizeChanged], connected to [updateCacheSize]) and the end
    of the thread ([cacheThreadFinished], connected to the slot of that
    name). Nothing happens when the store does not exist. *)
Definition threadResult (st : Store) (bytes : QByteArray) (s : t) : t :=
  let finish (r : option (t * Z)) :=
    match r with
    | Some (s', added) => cacheThreadFinished (updateCacheSize added s')
    | None => s
    end in
  finish
    match st with
    | PresentationStore =>
        '(c, added) ← storeReceives bytes (presentationCache s);
        Some (set_presentationCache c s, added)
    | NotesStore =>
        '(c, added) ← storeReceives bytes (notesCache s);
        Some (set_notesCache c s, added)
    | PreviewStore =>
        '(c, added) ← storeReceives bytes (previewCache s);
        Some (set_previewCache c s, added)
    | PreviewXStore =>
        c0 ← previewCacheX s;
        '(c, added) ← storeReceives bytes c0;
        Some (set_previewCacheX (Some c) s, added)
    | DrawSlideStore =>
        c0 ← drawSlideCache s;
        '(c, added) ← storeReceives bytes c0;
        Some (set_drawSlideCache (Some c) s, added)
    end.

(** What can happen to the scheduler: [updateCacheStep] is called (by the
    timer; the model lets it be called at any time), a render thread
    delivers its result, or the page changes ([receiveNewPageNumber]). *)
Inductive Event :=
| Tick (fuel : nat)
| ThreadResult (st : Store) (bytes : QByteArray)
| NewPageNumber (pageNumber : Z) (visible sizeChanged : bool).

Definition handle (e : Event) (s : t) : option t :=
  match e with
  | Tick fuel => updateCacheStep fuel s
  | ThreadResult st bytes => Some (threadResult st bytes s)
  | NewPageNumber pageNumber visible sizeChanged =>
      Some (receiveNewPageNumber pageNumber visible sizeChanged s)
  end.

(** A sequence of events, from left to right; [None] when a step ran out
    of fuel. *)
Fixpoint run (events : list Event) (s : t) : option t :=
  match events with
  | [] => Some s
  | e :: events' =>
      match handle e s with
      | Some s' => run events' s'
      | None => None
      end
  end.

(** The bookkeeping of [cacheSize] is sound when it does not fall below the
    bytes that the stores really hold; it matters only for a byte budget
    that is not negative (a negative [maxCacheSize] means unlimited). *)
Definition accounted (s : t) : Prop :=
  0 ≤ maxCacheSize s → totalBytes s ≤ cacheSize s.

(** The entry of page [q] in a store, [None] also when the store does not
    exist. *)
Definition pageIn (st : Store) (s : t) (q : Z) : option QByteArray :=
  match st with
  | PresentationStore => CacheMap.data (presentationCache s) !! q
  | NotesStore => CacheMap.data (notesCache s) !! q
  | PreviewStore => CacheMap.data (previewCache s) !! q
  | PreviewXStore => c ← previewCacheX s; CacheMap.data c !! q
  | DrawSlideStore => c ← drawSlideCache s; CacheMap.data c !! q
  end.

(** The number of pages in a store, 0 when the store does not exist. *)
Definition storeCount (st : Store) (s : t) : Z :=
  match st with
  | PresentationStore => CacheMap.length (presentationCache s)
  | NotesStore => CacheMap.length (notesCache s)
  | PreviewStore => CacheMap.length (previewCache s)
  | PreviewXStore => from_option CacheMap.length 0 (previewCacheX s)
  | DrawSlideStore => from_option CacheMap.length 0 (drawSlideCache s)
  end.

(** The store that [freeCachePage] deletes from first. *)
Definition firstStore (s : t) : Store :=
  match drawSlideCache s with
  | Some _ => DrawSlideStore
  | None => NotesStore
  end.

(** Between [s] and [s'] page [page] was the victim: it is gone from the
    first store, and no store has changed at another page. *)
Definition evicts (page : Z) (s s' : t) : Prop :=
  pageIn (firstStore s) s' page = None
  ∧ ∀ st q, q ≠ page → pageIn st s' q = pageIn st s q.

(** Stores change from [s] to [s'] by deleting [page] at most. *)
Definition deletesAtMost (page : Z) (s s' : t) : Prop :=
  ∀ st q, pageIn st s' q = pageIn st s q
          ∨ (q = page ∧ pageIn st s' q = None).

(** The bookkeeping of the cached region, in the order of the debug
    output of the source. *)
Definition window (s : t) : Z * Z * Z * Z * Z :=
  (first_delete s, first_cached s, currentPageNumber s, last_cached s,
   last_delete s).

(** The page that a pass through the loop body hands to [freeCachePage]. *)
Definition victim (s : t) : Z :=
  if deleteLater s then last_delete s else first_delete s.

(** From [s] to [s'] the delete boundary on the side of the victim has
    moved by one, the other one has stayed, and the cached region has been
    cut to the boundaries. *)
Definition advancedAndClamped (s s' : t) : Prop :=
  (if deleteLater s
   then last_delete s' = last_delete s - 1 ∧ first_delete s' = first_delete s
   else first_delete s' = first_delete s + 1 ∧ last_delete s' = last_delete s)
  ∧ last_cached s' = Z.min (last_cached s) (last_delete s')
  ∧ first_cached s' = Z.max (first_cached s) (first_delete s').

(** How far [cacheSize] is above the bytes held. *)
Definition slack (s : t) : Z := cacheSize s - totalBytes s.

(** What the loop condition reads besides the stores and [cacheSize],
    together with the slack: deleting pages keeps all of it. *)
Definition budgetView (s : t) : Z * Z * Z * Z :=
  (numberOfPages s, maxCacheSize s, maxCacheNumber s, slack s).

(** [deleteLater] tests whether this number is positive. *)
Definition skew (s : t) : Z :=
  last_delete s + 3 * first_delete s - 4 * currentPageNumber s.

(** A bound on the passes that the loop can still make before every page
    between [lo] and [hi] has been handed to [freeCachePage]: the pages that
    the tail and the head still have to visit, and the passes that the other
    side takes in between according to [skew]. *)
Definition passesLeft (lo hi : Z) (s : t) : Z :=
  let tail := Z.max 0 (last_delete s - lo + 1) in
  let head := Z.max 0 (hi - first_delete s + 1) in
  6 * tail + 6 * head
  + (if 0 <? head then Z.max 0 (skew s) else 0)
  + (if 0 <? tail then Z.max 0 (1 - skew s) else 0).

(** The loop started in [s0] ends in [s] without leaving the step. *)
Definition evictionEndsIn (s0 s : t) : Prop :=
  ∃ fuel, evictLoop fuel s0 = Some (s, false).

(** The step started in [s0] returns with the state [s']. *)
Definition stepReturns (s0 s' : t) : Prop :=
  ∃ fuel, updateCacheStep fuel s0 = Some s'.

(** The state of a new [ControlScreen] for a document of [n] pages with
    byte budget [maxSize]: nothing is cached and the cached region is
    empty; the page budget is the number of pages and [last_delete] is the
    last page, as the constructor sets them. *)
Definition fresh (n maxSize : Z) : t :=
  mk n 0 n maxSize 0 0 (-1) 0 (n - 1)
     CacheMap.empty CacheMap.empty CacheMap.empty None None false 0.

(** *** What it means that the step renders a page *)






(** *** The range of the machine integers *)

(** The values of an [int] and of a [qint64]. *)
Definition inInt (x : Z) : Prop := - 2 ^ 31 ≤ x < 2 ^ 31.
Definition inQint64 (x : Z) : Prop := - 2 ^ 63 ≤ x < 2 ^ 63.

(** The products, sums and differences that [updateCacheStep] computes
    after the loop to choose a page stay in the range of their types. The
    definitions above compute them exactly; in the source they are [int]
    ([last_cached], [currentPageNumber], [maxCacheNumber], [length()]) and
    [qint64] ([cacheSize], [maxCacheSize]) and an overflow is undefined. *)
Definition choiceInRange (s : t) : Prop :=
  let count := CacheMap.length (presentationCache s) in
  inInt (last_cached s + 1)
  ∧ inQint64 (2 * maxCacheSize s) ∧ inQint64 (3 * cacheSize s)
  ∧ inInt (2 * maxCacheNumber s) ∧ inInt (3 * count)
  ∧ inInt (last_cached s - currentPageNumber s)
  ∧ inInt (3 * (last_cached s - currentPageNumber s))
  ∧ inQint64 (3 * (last_cached s - currentPageNumber s) * cacheSize s)
  ∧ inInt (2 * count) ∧ inQint64 (2 * count * maxCacheSize s)
  ∧ inQint64 (maxCacheSize s - cacheSize s)
  ∧ inQint64 ((maxCacheSize s - cacheSize s) * count)
  ∧ inQint64 (2 * cacheSize s).

End ControlScreen.

(** ** PresentationScreen (src/unnamed/part_000) *)

Module PresentationScreen.

Record t := mk {
  label : PageLabel.t;
  numPages : Z
}.

Section Document.
Context {Image : Type}.
Variable renderToImage : Z → Image.
Variables copyLeft copyRight : Image → Image.
Variable savePNG : Image → QByteArray.
Variable isNull : Image → bool.
(** [presentation->getPage(i)] of [PdfDoc], which is not among the
    sources: the page object of index [i], as its index, or [None] for
    the null pointer. *)
Variable getPage : Z → option Z.

Definition getPageNumber (s : t) : Z := PageLabel.pageNumber (label s).

(** [PresentationScreen::renderPage]; [resized] is the [size() !=
    oldSize] of the label. *)
Definition renderPage (pageNumber : Z) (resized : bool) (s : t) : t :=
  let show (page : option Z) :=
    mk (PageLabel.renderPage renderToImage copyLeft copyRight savePNG isNull
          page resized None (label s))
       (numPages s) in
  if (pageNumber <? 0) || (pageNumber >=? numPages s)
  then show (getPage (numPages s - 1))
  else show (getPage pageNumber).

(** [PresentationScreen::updateCache]: render the next page to the cache
    of the label. *)
Definition updateCache (during : PageMap → PageMap) (s : t) : t :=
  let pageNumber := PageLabel.pageNumber (label s) + 1 in
  if pageNumber <? numPages s then
    match getPage pageNumber with
    | Some index =>
        mk (fst (PageLabel.updateCache_page renderToImage copyLeft copyRight
                   savePNG index during (label s)))
           (numPages s)
    | None => s
    end
  else s.
End Document.

End PresentationScreen.

(** ** Sample states *)

Module Samples.
Import ControlScreen.

(** An image of [n] bytes. *)
Definition img (n : nat) : QByteArray := replicate n Byte.x2a.

(** A store that holds pages 0, 1 and 2 with [n] bytes each. *)
Definition store3 (n : nat) : CacheMap.t :=
  CacheMap.mk (<[0 := img n]> (<[1 := img n]> (<[2 := img n]> ∅))) None.

(** Ten pages, page 0 shown, pages 0 to 2 cached in three stores with one
    byte each, a byte budget of 4 and no limit on the number of pages:
    5 bytes have to go. *)
Definition tight : t :=
  mk 10 0 10 4 9 0 2 0 9 (store3 1) (store3 1) (store3 1) None None true 0.

(** Four pages of which pages 0 to 2 are cached in three stores, 9
    bytes held and a budget of 8: deleting one page from one store is
    enough. *)
Definition nearlyFits : t :=
  mk 4 0 4 8 9 0 2 0 2 (store3 1) (store3 1) (store3 1) None None true 0.

(** The same with a budget of 4: page 2 has to go from every store. *)
Definition overfull : t :=
  mk 4 0 4 4 9 0 2 0 2 (store3 1) (store3 1) (store3 1) None None true 0.

(** A store that holds pages 2 to 9 with [n] bytes each. *)
Definition store2to9 (n : nat) : CacheMap.t :=
  CacheMap.mk (list_to_map ((λ q, (q, img n)) <$> [2; 3; 4; 5; 6; 7; 8; 9]))
    None.

(** Ten pages, of which pages 2 to 9 are cached, page 5 shown, plenty of
    bytes left, after [setCacheNumber(11)]: more pages allowed than the
    document has. *)
Definition generous : t :=
  mk 10 5 11 100 24 2 9 0 9 (store2to9 1) (store2to9 1) (store2to9 1)
     None None true 0.

(** The same after [setCacheNumber(10)]. *)
Definition exactBudget : t :=
  mk 10 5 10 100 24 2 9 0 9 (store2to9 1) (store2to9 1) (store2to9 1)
     None None true 0.

(** Caching switched off by a byte budget of 0 while pages 0 to 2 are
    cached and page 5 is shown. *)
Definition disabled : t :=
  mk 10 5 10 0 9 0 2 0 9 (store3 1) (store3 1) (store3 1) None None true 0.

(** Page 5 shown, pages 0 to 2 cached, budgets not exceeded. *)
Definition jumped : t :=
  mk 10 5 10 100 9 0 2 0 9 (store3 1) (store3 1) (store3 1) None None false 0.

(** A store that holds page 2 only. *)
Definition storeLast (n : nat) : CacheMap.t :=
  CacheMap.mk (<[2 := img n]> ∅) None.

(** Three pages, the last one shown and cached, plenty of room. *)
Definition atEnd : t :=
  mk 3 2 3 100 3 2 2 0 2 (storeLast 1) (storeLast 1) (storeLast 1)
     None None true 0.

(** A renderer whose images are their own PNG bytes: every page renders
    to one byte, and cutting and compressing change nothing. *)
Definition render (index : Z) : QByteArray := img 1.
Definition whole (image : QByteArray) : QByteArray := image.
(** An image of that renderer is null when it has no bytes. *)
Definition null (image : QByteArray) : bool := isEmpty image.

(** A document of 10 pages: [getPage] finds the pages 0 to 9. *)
Definition getPage10 (i : Z) : option Z :=
  if (0 <=? i) && (i <? 10) then Some i else None.

(** The presentation screen of that document, showing page 4. *)
Definition showing4 : PresentationScreen.t :=
  PresentationScreen.mk (PageLabel.mk 4 ∅ true PageLabel.FullPage) 10.

(** The state in which the loop leaves [s], [s] itself when the fuel does
    not suffice. *)
Definition evicted (fuel : nat) (s : t) : t :=
  match evictLoop fuel s with
  | Some (s', _) => s'
  | None => s
  end.
End Samples.

(** ** More of the page cache of a label (src/pagelabel.cpp) *)

Module PageLabelCache.

(** [PageLabel::getCachedBytes]: the bytes cached for the page, a new empty
    array when the page is not cached. *)
Definition getCachedBytes (index : Z) (l : PageLabel.t) : QByteArray :=
  match PageLabel.cache l !! index with
  | Some bytes => bytes
  | None => []
  end.

End PageLabelCache.

(** ** PreviewSlide (src/previewslide.cpp) *)

Module PreviewSlide.

(** The first statements of [PreviewSlide::renderPage]: the page that the
    widget shows afterwards ([pageIndex]) in a document of [numPages] pages.
    Numbers below 0 go to the first page here. *)
Definition renderPage (numPages pageNumber : Z) : Z :=
  if pageNumber <? 0 then 0
  else if pageNumber >=? numPages then numPages - 1
  else pageNumber.

(** The link actions of Poppler that [PreviewSlide::mouseReleaseEvent]
    tells apart. *)
Inductive LinkAction :=
| Quit | Close | Print | GoToPage | PageNext | PagePrev | PageFirst | PageLast
| Find | Presentation | EndPresentation | HistoryBack | HistoryForward.

(** The page number that [mouseReleaseEvent] sends with
    [sendNewPageNumber] for a link of type [Action] on a widget showing
    [pageIndex]; [None] when the action sends no page number. *)
Definition linkActionPage (action : LinkAction) (pageIndex : Z) : option Z :=
  match action with
  | PageNext => Some (pageIndex + 1)
  | PagePrev => Some (pageIndex - 1)
  | PageFirst => Some 0
  | PageLast => Some (-1)
  | _ => None
  end.

End PreviewSlide.

(** ** Events of ControlScreen besides the scheduler *)

Module ControlScreenEvents.
Import ControlScreen.

(** The pages that [ControlScreen::renderPage] hands to the two preview
    widgets [current_slide] and [next_slide] when the window is visible, as
    those widgets show them: the current and the next page, or the next two
    pages when a draw slide is shown ([drawSlide != nullptr]). *)
Definition previewPages (drawSlideShown : bool) (s : t) : Z * Z :=
  if drawSlideShown
  then (PreviewSlide.renderPage (numberOfPages s) (currentPageNumber s + 1),
        PreviewSlide.renderPage (numberOfPages s) (currentPageNumber s + 2))
  else (PreviewSlide.renderPage (numberOfPages s) (currentPageNumber s),
        PreviewSlide.renderPage (numberOfPages s) (currentPageNumber s + 1)).

(** [ControlScreen::resizeEvent] as far as the caches and their bookkeeping
    go: [presentationPage] is [presentationScreen->getPageNumber()],
    [sizeChanged] the test [size() != oldSize] of [recalcLayout]. *)
Definition resizeEvent (presentationPage : Z) (sizeChanged : bool) (s : t) : t :=
  let s := interruptCacheProcesses s in
  let s := recalcLayout sizeChanged s in
  let s := set_first_cached presentationPage s in
  let s := set_last_cached (first_cached s - 1) s in
  let s := set_first_delete 0 s in
  let s := set_last_delete (numberOfPages s - 1) s in
  let s := set_notesCache (CacheMap.clearCache (notesCache s)) s in
  let s := set_previewCache (CacheMap.clearCache (previewCache s)) s in
  let s := set_previewCacheX (CacheMap.clearCache <$> previewCacheX s) s in
  set_drawSlideCache (CacheMap.clearCache <$> drawSlideCache s) s.

(** [ControlScreen::presentationResized], the bookkeeping of the region. *)
Definition presentationResized (presentationPage : Z) (s : t) : t :=
  let s := stopTimer s in
  let s := set_first_cached presentationPage s in
  let s := set_last_cached (first_cached s - 1) s in
  let s := set_first_delete 0 s in
  set_last_delete (numberOfPages s - 1) s.

(** The members that [wheelEvent] uses for scrolling. *)
Record Wheel := mkWheel {
  scrollState : Z;
  scrollDelta : Z;
  forceIsTouchpad : bool
}.

(** Scrolling by touch pad: the distance is added to [scrollState] and
    whole pages are taken out of it. The source divides by [scrollDelta]
    without a test: with [scrollDelta = 0] the division is undefined and
    there is no result ([None]). *)
Definition touchpadPages (delta : Z) (w : Wheel) : option (Wheel * Z) :=
  let state := scrollState w + delta in
  if scrollDelta w =? 0 then None
  else
    let deltaPages := Z.quot state (scrollDelta w) in
    let deltaPages := if deltaPages <? 0 then deltaPages + 1 else deltaPages in
    Some (mkWheel (state - scrollDelta w * deltaPages) (scrollDelta w)
            (forceIsTouchpad w),
          deltaPages).

(** Scrolling by mouse wheel: one page for every 120 units of angle, and
    at least one. *)
Definition mousePages (deltaAngle : Z) : Z :=
  if deltaAngle >? 120 then Z.quot deltaAngle 120
  else if deltaAngle >? 0 then 1
  else if deltaAngle <? -120 then - Z.quot (- deltaAngle) 120
  else if deltaAngle <? 0 then -1
  else 0.

(** The first part of [ControlScreen::wheelEvent]: the number of pages to
    move. [pixelDeltaY] and [angleDeltaY] are [event->pixelDelta().y()] and
    [event->angleDelta().y()]; their signs are changed first. *)
Definition wheelPages (pixelDeltaY angleDeltaY : Z) (w : Wheel)
  : option (Wheel * Z) :=
  let deltaPix := - pixelDeltaY in
  let deltaAngle := - angleDeltaY in
  if negb (deltaPix =? 0) then touchpadPages deltaPix w
  else if forceIsTouchpad w then touchpadPages deltaAngle w
  else Some (w, mousePages deltaAngle).

(** [ControlScreen::wheelEvent]. [full] is the default argument of
    [renderPage] in controlscreen.h, which is not among the sources. There
    is no result when [wheelPages] has none. *)
Definition wheelEvent (pixelDeltaY angleDeltaY : Z)
    (full visible sizeChanged : bool) (w : Wheel) (s : t)
  : option (Wheel * t) :=
  '(w', deltaPages) ← wheelPages pixelDeltaY angleDeltaY w;
  Some
    (if deltaPages + currentPageNumber s <? 0 then
       if negb (currentPageNumber s =? 0)
       then (w', renderPage 0 full visible sizeChanged s)
       else (w', s)
     else if negb (deltaPages =? 0) then
       (w', updateCache
              (renderPage (currentPageNumber s + deltaPages) full visible
                 sizeChanged s))
     else (w', s)).

(** [handleKeyAction(KeyAction::NextNotes)]. [tocVisible] and
    [overviewVisible] are [tocBox->isVisible()] and
    [overviewBox->isVisible()]. With the table of contents shown the action
    falls through to the main switch; otherwise, with the overview shown, it
    only moves the focus in the overview and the function returns. In the
    main switch: [renderPage(++currentPageNumber)] when the window is
    visible. *)
Definition keyNextNotes (tocVisible overviewVisible : bool)
    (full visible sizeChanged : bool) (s : t) : t :=
  if negb tocVisible && overviewVisible then s
  else if visible then
    let s := set_currentPageNumber (currentPageNumber s + 1) s in
    renderPage (currentPageNumber s) full visible sizeChanged s
  else s.

(** [handleKeyAction(KeyAction::PreviousNotes)], with the same two tests
    before the main switch. *)
Definition keyPreviousNotes (tocVisible overviewVisible : bool)
    (full visible sizeChanged : bool) (s : t) : t :=
  if negb tocVisible && overviewVisible then s
  else if visible then
    if currentPageNumber s >? 0 then
      let s := set_currentPageNumber (currentPageNumber s - 1) s in
      renderPage (currentPageNumber s) full visible sizeChanged s
    else s
  else s.

(** A click on a link of type [Action] in a preview widget that shows
    [pageIndex]: [sendNewPageNumber] is connected to
    [receiveNewPageNumber]. *)
Definition linkActionClicked (action : PreviewSlide.LinkAction) (pageIndex : Z)
    (visible sizeChanged : bool) (s : t) : t :=
  match PreviewSlide.linkActionPage action pageIndex with
  | Some pageNumber => receiveNewPageNumber pageNumber visible sizeChanged s
  | None => s
  end.

(** [ControlScreen::receiveDest] as far as the page and the caches go:
    [pageNumber] is [presentation->destToSlide(dest)] of [PdfDoc], which is
    not among the sources; [full] is the default argument of [renderPage]. *)
Definition receiveDest (pageNumber : Z) (full visible sizeChanged : bool)
    (s : t) : t :=
  if (pageNumber >=? 0) && (pageNumber <? numberOfPages s)
  then updateCache (renderPage pageNumber full visible sizeChanged s)
  else s.

(** What one call of [CacheMap::updateCache] from [cachePage] may do
    between [s] and [s']: at most one more thread is counted; the pages, the
    timer, the region and the existence of the optional stores are as
    before. *)
Definition dispatched (s s' : t) : Prop :=
  cacheThreadsRunning s ≤ cacheThreadsRunning s' ≤ cacheThreadsRunning s + 1
  ∧ (∀ st q, pageIn st s' q = pageIn st s q)
  ∧ cacheTimer s' = cacheTimer s
  ∧ window s' = window s.

(** From [s] to [s'] the page shown has stayed, the delete boundaries have
    not moved outwards, and no store has gained or changed a page. *)
Definition onlyDeletes (s s' : t) : Prop :=
  currentPageNumber s' = currentPageNumber s
  ∧ first_delete s ≤ first_delete s'
  ∧ last_delete s' ≤ last_delete s
  ∧ ∀ st q, pageIn st s' q = pageIn st s q ∨ pageIn st s' q = None.

(** [cacheThreadFinished] called [n] times. *)
Definition threadsFinished (n : nat) (s : t) : t :=
  Nat.iter n cacheThreadFinished s.

End ControlScreenEvents.

(** ** Keys of PresentationScreen (src/unnamed/part_000) *)

Module PresentationScreenKeys.

(** The keys with which [PresentationScreen::keyPressEvent] changes the
    page: Right, Down and PageDown; Left, Up and PageUp; Space. For the key
    O and for every other key the function only emits a signal
    ([togglePointerVisibilitySignal], [sendKeyEvent]) whose receivers are
    outside this class; those keys are not part of this model. *)
Inductive Key := KeyForward | KeyBackward | KeySpace.

Section Document.
Context {Image : Type}.
Variable renderToImage : Z → Image.
Variables copyLeft copyRight : Image → Image.
Variable savePNG : Image → QByteArray.
Variable isNull : Image → bool.
Variable getPage : Z → option Z.

Let renderPage := PresentationScreen.renderPage renderToImage copyLeft
                    copyRight savePNG isNull getPage.
Let updateCache := PresentationScreen.updateCache renderToImage copyLeft
                     copyRight savePNG getPage.

(** [PresentationScreen::keyPressEvent] for the keys that change the
    page, as far as the label goes: the page is changed and the next page is
    rendered to the cache. [resized] and [during] are those of [renderPage]
    and [updateCache]. The signals [sendPageShift] and [sendUpdateCache]
    emitted in between have no receiver that acts on the label. *)
Definition keyPressEvent (key : Key) (resized : bool)
    (during : PageMap → PageMap) (s : PresentationScreen.t)
  : PresentationScreen.t :=
  let pageNumber := PageLabel.pageNumber (PresentationScreen.label s) in
  match key with
  | KeyForward => updateCache during (renderPage (pageNumber + 1) resized s)
  | KeyBackward => updateCache during (renderPage (pageNumber - 1) resized s)
  | KeySpace => updateCache during (renderPage pageNumber resized s)
  end.

(** [PresentationScreen::receiveTimeoutSignal]: on to the next page. *)
Definition receiveTimeoutSignal (resized : bool) (s : PresentationScreen.t)
  : PresentationScreen.t :=
  renderPage (PageLabel.pageNumber (PresentationScreen.label s) + 1) resized s.

(** One [receiveTimeoutSignal] after the other, one for each element of
    [resized], which tells whether the label was resized before it. *)
Definition timeouts (resized : list bool) (s : PresentationScreen.t)
  : PresentationScreen.t :=
  foldl (λ s r, receiveTimeoutSignal r s) s resized.
End Document.

End PresentationScreenKeys.

(** ** More sample states *)

Module MoreSamples.
Import ControlScreen ControlScreenEvents.

(** A touch pad that has scrolled 10 pixels towards the next page, 30 of
    which make a page. *)
Definition wheel10 : Wheel := mkWheel 10 30 false.

(** Page 1 of 10 shown, nothing cached, budgets without limit. *)
Definition onPage1 : t :=
  mk 10 1 10 (-1) 0 1 0 0 9
     CacheMap.empty CacheMap.empty CacheMap.empty None None false 0.
End MoreSamples.

(** * Properties *)

(** ** Sizes of page maps *)

Section PageMapFacts.
Implicit Types (m : PageMap) (b : QByteArray) (i : Z).

Lemma byteSize_nonneg b : 0 ≤ byteSize b.
Proof. unfold byteSize. lia. Qed.

Lemma sumBytes_empty : sumBytes ∅ = 0.
Proof. unfold sumBytes. apply map_fold_empty. Qed.

Lemma sumBytes_insert m i b :
  m !! i = None → sumBytes (<[i := b]> m) = sumBytes m + byteSize b.
Proof.
  intros Hi. unfold sumBytes.
  rewrite map_fold_insert_L; [done | | done].
  intros. lia.
Qed.

Lemma sumBytes_delete m i b :
  m !! i = Some b → sumBytes (delete i m) = sumBytes m - byteSize b.
Proof.
  intros Hi.
  rewrite <- (insert_delete_id m i b Hi) at 2.
  rewrite sumBytes_insert by apply lookup_delete_eq. lia.
Qed.

Lemma sumBytes_nonneg m : 0 ≤ sumBytes m.
Proof.
  induction m as [| i b m Hi IH] using map_ind.
  - rewrite sumBytes_empty. lia.
  - rewrite sumBytes_insert by done. pose proof (byteSize_nonneg b). lia.
Qed.

Lemma contains_true m i : contains m i = true ↔ is_Some (m !! i).
Proof.
  unfold contains. rewrite <- not_eq_None_Some.
  destruct (m !! i); split; congruence.
Qed.

Lemma contains_false m i : contains m i = false ↔ m !! i = None.
Proof. unfold contains. by destruct (m !! i). Qed.
End PageMapFacts.

(** ** The stores under deletion *)

Section CacheMapFacts.
Implicit Types (c : CacheMap.t) (page : Z).

Lemma clearPage_bytes page c :
  CacheMap.getSizeBytes (CacheMap.clearPage page c).1
  = CacheMap.getSizeBytes c - (CacheMap.clearPage page c).2.
Proof.
  unfold CacheMap.clearPage, CacheMap.getSizeBytes.
  destruct (CacheMap.data c !! page) as [b|] eqn:Hp; simpl.
  - by apply sumBytes_delete.
  - lia.
Qed.

Lemma clearPage_lookup page c :
  CacheMap.data (CacheMap.clearPage page c).1 = delete page (CacheMap.data c).
Proof.
  unfold CacheMap.clearPage.
  destruct (CacheMap.data c !! page) as [b|] eqn:Hp; simpl; [done |].
  symmetry. by apply delete_id.
Qed.

Lemma clearCache_bytes c : CacheMap.getSizeBytes (CacheMap.clearCache c) = 0.
Proof. apply sumBytes_empty. Qed.

Lemma clearCache_length c : CacheMap.length (CacheMap.clearCache c) = 0.
Proof. unfold CacheMap.length. simpl. by rewrite map_size_empty. Qed.

Lemma getSizeBytes_nonneg c : 0 ≤ CacheMap.getSizeBytes c.
Proof. apply sumBytes_nonneg. Qed.

Lemma updateCache_data page c :
  CacheMap.data (CacheMap.updateCache page c).1 = CacheMap.data c.
Proof.
  unfold CacheMap.updateCache.
  destruct (contains _ _); [done |]. by destruct (CacheMap.thread c).
Qed.

Lemma receiveBytes_bytes page bytes c :
  CacheMap.getSizeBytes (CacheMap.receiveBytes page bytes c).1
  = CacheMap.getSizeBytes c + (CacheMap.receiveBytes page bytes c).2.
Proof.
  unfold CacheMap.receiveBytes, CacheMap.getSizeBytes.
  destruct (isEmpty bytes); simpl; [lia |].
  destruct (contains _ _) eqn:Hc; simpl; [lia |].
  apply sumBytes_insert. by apply contains_false.
Qed.
End CacheMapFacts.

(** ** The eviction loop keeps the books *)

Section EvictionFacts.
Import ControlScreen.
Implicit Types (s : ControlScreen.t) (page : Z).

Lemma freeIn_drawSlideCache_view page s :
  budgetView (freeIn_drawSlideCache page s) = budgetView s.
Proof.
  unfold freeIn_drawSlideCache, budgetView, slack, totalBytes.
  destruct (drawSlideCache s) as [c|] eqn:Hc; [| by rewrite Hc].
  pose proof (clearPage_bytes page c) as Hb.
  destruct (CacheMap.clearPage page c) as [c' freed]. simpl in *.
  f_equal. destruct (previewCacheX s); lia.
Qed.

Lemma freeIn_notesCache_view page s :
  budgetView (freeIn_notesCache page s) = budgetView s.
Proof.
  unfold freeIn_notesCache, budgetView, slack, totalBytes.
  pose proof (clearPage_bytes page (notesCache s)) as Hb.
  destruct (CacheMap.clearPage page (notesCache s)) as [c' freed]. simpl in *.
  f_equal. destruct (previewCacheX s), (drawSlideCache s); lia.
Qed.

Lemma freeIn_previewCacheX_view page s :
  budgetView (freeIn_previewCacheX page s) = budgetView s.
Proof.
  unfold freeIn_previewCacheX, budgetView, slack, totalBytes.
  destruct (previewCacheX s) as [c|] eqn:Hc; [| by rewrite Hc].
  pose proof (clearPage_bytes page c) as Hb.
  destruct (CacheMap.clearPage page c) as [c' freed]. simpl in *.
  f_equal. destruct (drawSlideCache s); lia.
Qed.

Lemma freeIn_previewCache_view page s :
  budgetView (freeIn_previewCache page s) = budgetView s.
Proof.
  unfold freeIn_previewCache, budgetView, slack, totalBytes.
  pose proof (clearPage_bytes page (previewCache s)) as Hb.
  destruct (CacheMap.clearPage page (previewCache s)) as [c' freed]. simpl in *.
  f_equal. destruct (previewCacheX s), (drawSlideCache s); lia.
Qed.

Lemma freeIn_presentationCache_view page s :
  budgetView (freeIn_presentationCache page s) = budgetView s.
Proof.
  unfold freeIn_presentationCache, budgetView, slack, totalBytes.
  pose proof (clearPage_bytes page (presentationCache s)) as Hb.
  destruct (CacheMap.clearPage page (presentationCache s)) as [c' freed]. simpl in *.
  f_equal. destruct (previewCacheX s), (drawSlideCache s); lia.
Qed.

Lemma freeCachePage_view page s :
  budgetView (freeCachePage page s).1 = budgetView s.
Proof.
  unfold freeCachePage.
  repeat match goal with
         | |- context [if ?b then _ else _] => destruct b
         end; simpl;
    rewrite ?freeIn_presentationCache_view, ?freeIn_previewCache_view,
      ?freeIn_previewCacheX_view, ?freeIn_notesCache_view,
      ?freeIn_drawSlideCache_view; done.
Qed.

Lemma freeCachePage_satisfied page s :
  (freeCachePage page s).2 = true →
  budgetSatisfied (freeCachePage page s).1 = true.
Proof.
  unfold freeCachePage.
  destruct (bool_decide _ && budgetSatisfied _) eqn:H1; simpl.
  { intros _. by apply andb_prop in H1 as [_ ?]. }
  destruct (budgetSatisfied (freeIn_notesCache _ _)) eqn:H2; simpl; [done |].
  destruct (budgetSatisfied (freeIn_previewCache _ _)) eqn:H3; simpl; done.
Qed.

Lemma overBudget_budgetSatisfied s : overBudget s = negb (budgetSatisfied s).
Proof.
  unfold overBudget, budgetSatisfied.
  rewrite !Z.gtb_ltb, Z.geb_leb, negb_andb, negb_orb, <- !Z.ltb_antisym.
  done.
Qed.

Lemma regionCheck_view s : budgetView (regionCheck s).1 = budgetView s.
Proof. unfold regionCheck. by destruct (_ || _). Qed.

Lemma evictBody_view s : budgetView (evictBody s).1 = budgetView s.
Proof.
  unfold evictBody.
  destruct (deleteLater s);
    match goal with
    | |- context [freeCachePage ?p s] =>
        pose proof (freeCachePage_view p s) as Hv;
        destruct (freeCachePage p s) as [s1 [|]]
    end; simpl in *; try done;
    by rewrite regionCheck_view.
Qed.

Lemma evictBody_break s :
  (evictBody s).2 = Break → budgetSatisfied (evictBody s).1 = true.
Proof.
  unfold evictBody.
  destruct (deleteLater s);
    match goal with
    | |- context [freeCachePage ?p s] =>
        pose proof (freeCachePage_satisfied p s) as Hv;
        destruct (freeCachePage p s) as [s1 [|]]
    end; simpl in *; auto;
    unfold regionCheck; by destruct (_ || _).
Qed.

(** The loop never changes the budget or the number of pages, and it
    subtracts from [cacheSize] exactly what it deletes. *)
Lemma evictLoop_view fuel s s' r :
  evictLoop fuel s = Some (s', r) → budgetView s' = budgetView s.
Proof.
  revert s. induction fuel as [| fuel IH]; intros s; simpl; [done |].
  destruct (overBudget s); [| by intros [= <- _]].
  pose proof (evictBody_view s) as Hv.
  destruct (evictBody s) as [s1 [| |]]; simpl in Hv.
  - intros H. apply IH in H. congruence.
  - by intros [= <- _].
  - by intros [= <- _].
Qed.

(** A loop that is left at its end or by [break] has met the budget. *)
Lemma evictLoop_satisfied fuel s s' :
  evictLoop fuel s = Some (s', false) → budgetSatisfied s' = true.
Proof.
  revert s. induction fuel as [| fuel IH]; intros s; simpl; [done |].
  destruct (overBudget s) eqn:Hover.
  - pose proof (evictBody_break s) as Hb.
    destruct (evictBody s) as [s1 [| |]]; simpl in Hb.
    + apply IH.
    + intros [= <-]. by apply Hb.
    + done.
  - intros [= <-]. rewrite overBudget_budgetSatisfied in Hover.
    by destruct (budgetSatisfied s).
Qed.

Lemma accounted_view s s' :
  budgetView s' = budgetView s → accounted s → accounted s'.
Proof.
  unfold budgetView, accounted, slack. intros [= HN Hsize Hnum Hslack] Hacc.
  rewrite Hsize. lia.
Qed.

Lemma totalBytes_nonneg s : 0 ≤ totalBytes s.
Proof.
  unfold totalBytes.
  pose proof (getSizeBytes_nonneg (presentationCache s)).
  pose proof (getSizeBytes_nonneg (notesCache s)).
  pose proof (getSizeBytes_nonneg (previewCache s)).
  destruct (previewCacheX s) as [cx|], (drawSlideCache s) as [cd|];
    try pose proof (getSizeBytes_nonneg cx);
    try pose proof (getSizeBytes_nonneg cd); lia.
Qed.
End EvictionFacts.

(** ** The events keep the books *)

Section SchedulerFacts.
Import ControlScreen.
Implicit Types (s : ControlScreen.t) (page : Z).

Lemma updateCache_bytes page (c : CacheMap.t) :
  CacheMap.getSizeBytes (CacheMap.updateCache page c).1 = CacheMap.getSizeBytes c.
Proof. unfold CacheMap.getSizeBytes. by rewrite updateCache_data. Qed.

Local Ltac dispatch_view page c :=
  pose proof (updateCache_bytes page c) as Hb;
  destruct (CacheMap.updateCache _ c) as [c' [|]]; simpl in *;
  unfold budgetView, slack, totalBytes; simpl; rewrite Hb; done.

Lemma dispatch_presentationCache_view page s :
  budgetView (dispatch_presentationCache page s) = budgetView s.
Proof. unfold dispatch_presentationCache. dispatch_view page (presentationCache s). Qed.

Lemma dispatch_notesCache_view page s :
  budgetView (dispatch_notesCache page s) = budgetView s.
Proof. unfold dispatch_notesCache. dispatch_view page (notesCache s). Qed.

Lemma dispatch_previewCache_view page s :
  budgetView (dispatch_previewCache page s) = budgetView s.
Proof. unfold dispatch_previewCache. dispatch_view page (previewCache s). Qed.

Lemma dispatch_drawSlideCache_view page s :
  budgetView (dispatch_drawSlideCache page s) = budgetView s.
Proof.
  unfold dispatch_drawSlideCache.
  destruct (drawSlideCache s) as [c|] eqn:Hc; [| done].
  pose proof (updateCache_bytes page c) as Hb;
  destruct (CacheMap.updateCache _ c) as [c' [|]]; simpl in *;
  unfold budgetView, slack, totalBytes; simpl; rewrite Hc, Hb; done.
Qed.

Lemma dispatch_previewCacheX_view page s :
  budgetView (dispatch_previewCacheX page s) = budgetView s.
Proof.
  unfold dispatch_previewCacheX.
  destruct (previewCacheX s) as [c|] eqn:Hc; [| done].
  pose proof (updateCache_bytes page c) as Hb;
  destruct (CacheMap.updateCache _ c) as [c' [|]]; simpl in *;
  unfold budgetView, slack, totalBytes; simpl; rewrite Hc, Hb; done.
Qed.

Lemma restart_view s :
  budgetView (if cacheThreadsRunning s =? 0 then startTimer s else s)
  = budgetView s.
Proof. by destruct (_ =? _). Qed.

Lemma cachePage_view page s : budgetView (cachePage page s) = budgetView s.
Proof.
  unfold cachePage. cbv zeta.
  rewrite restart_view, dispatch_previewCacheX_view, dispatch_drawSlideCache_view,
    dispatch_previewCache_view, dispatch_notesCache_view,
    dispatch_presentationCache_view.
  reflexivity.
Qed.

Lemma choosePage_view s : budgetView (choosePage s) = budgetView s.
Proof.
  unfold choosePage.
  repeat match goal with |- context [if ?b then _ else _] => destruct b end;
    by rewrite ?cachePage_view.
Qed.

Lemma updateCacheStep_view fuel s s' :
  updateCacheStep fuel s = Some s' → budgetView s' = budgetView s.
Proof.
  unfold updateCacheStep.
  destruct (allCached s); [by intros [= <-] |].
  destruct (regionInconsistent s); [by intros [= <-] |].
  destruct (evictLoop fuel s) as [[s1 [|]]|] eqn:Hloop; [| | done];
    intros [= <-]; apply evictLoop_view in Hloop;
    by rewrite ?choosePage_view.
Qed.

Lemma cacheThreadFinished_view s :
  budgetView (cacheThreadFinished s) = budgetView s.
Proof. unfold cacheThreadFinished. by destruct (_ =? _). Qed.

Lemma threadResult_view st bytes s :
  budgetView (threadResult st bytes s) = budgetView s.
Proof.
  unfold threadResult, storeReceives.
  destruct st; simpl;
    repeat match goal with
           | |- context [previewCacheX s] =>
               destruct (previewCacheX s) as [c0|] eqn:Hx; simpl; [| done]
           | |- context [drawSlideCache s] =>
               destruct (drawSlideCache s) as [c0|] eqn:Hd; simpl; [| done]
           end;
    match goal with
    | |- context [CacheMap.thread ?c] =>
        destruct (CacheMap.thread c) as [page|]; simpl; [| done];
        pose proof (receiveBytes_bytes page bytes c) as Hb;
        destruct (CacheMap.receiveBytes page bytes c) as [c' added]
    end; simpl in *;
    rewrite cacheThreadFinished_view;
    unfold budgetView, slack, totalBytes; simpl; rewrite ?Hx, ?Hd;
    f_equal; destruct (previewCacheX s), (drawSlideCache s); simplify_eq; lia.
Qed.

Lemma clearAllCaches_totalBytes s : totalBytes (clearAllCaches s) = 0.
Proof.
  unfold clearAllCaches, totalBytes; simpl.
  rewrite !clearCache_bytes.
  destruct (previewCacheX s), (drawSlideCache s); simpl;
    rewrite ?clearCache_bytes; lia.
Qed.

Lemma recalcLayout_totalBytes b s : totalBytes (recalcLayout b s) ≤ totalBytes s.
Proof.
  unfold recalcLayout. destruct b; [| lia].
  unfold totalBytes; simpl. rewrite !clearCache_bytes.
  pose proof (getSizeBytes_nonneg (previewCache s)).
  destruct (previewCacheX s) as [cx|], (drawSlideCache s) as [cd|]; simpl;
    rewrite ?clearCache_bytes;
    try pose proof (getSizeBytes_nonneg cx);
    try pose proof (getSizeBytes_nonneg cd); lia.
Qed.

Lemma recalcLayout_budget b s :
  maxCacheSize (recalcLayout b s) = maxCacheSize s
  ∧ cacheSize (recalcLayout b s) = cacheSize s.
Proof. by destruct b. Qed.

Lemma renderPage_accounted pageNumber full visible sizeChanged s :
  accounted s → accounted (renderPage pageNumber full visible sizeChanged s).
Proof.
  unfold renderPage, accounted. intros Hacc.
  destruct (negb visible); [done |].
  destruct (full && sizeChanged); [| done].
  set (s1 := set_currentPageNumber _ s).
  pose proof (recalcLayout_totalBytes sizeChanged s1) as Hle.
  destruct (recalcLayout_budget sizeChanged s1) as [-> ->].
  change (totalBytes s1) with (totalBytes s) in Hle.
  change (maxCacheSize s1) with (maxCacheSize s).
  change (cacheSize s1) with (cacheSize s).
  intros Hmax. specialize (Hacc Hmax). lia.
Qed.

(** [updateCache] sets [cacheSize] to the bytes held whenever the byte
    budget is positive and it gets as far as the assignment. *)
Lemma updateCache_accounts s :
  maxCacheSize s ≠ 0 → maxCacheNumber s ≠ 0 → allCached s = false →
  accounted (updateCache s).
Proof.
  intros Hsize Hnum Hall. unfold updateCache.
  apply Z.eqb_neq in Hsize, Hnum. rewrite Hsize, Hnum. simpl.
  change (allCached (stopTimer s)) with (allCached s). rewrite Hall.
  apply Z.eqb_neq in Hsize. change (maxCacheSize (stopTimer s)) with (maxCacheSize s).
  destruct (Z.gtb_spec (maxCacheSize s) 0) as [Hpos | Hneg];
    repeat match goal with |- context [if ?b then _ else _] => destruct b end;
    unfold accounted, totalBytes; simpl; lia.
Qed.

Lemma updateCache_accounted s : accounted s → accounted (updateCache s).
Proof.
  intros Hacc. unfold updateCache.
  destruct (_ || _) eqn:Hzero.
  - unfold accounted. rewrite clearAllCaches_totalBytes. simpl. intros Hmax.
    specialize (Hacc Hmax). pose proof (totalBytes_nonneg s). lia.
  - change (allCached (stopTimer s)) with (allCached s).
    destruct (allCached s) eqn:Hall; [done |].
    apply orb_false_elim in Hzero as [Hsize Hnum].
    apply Z.eqb_neq in Hsize, Hnum.
    pose proof (updateCache_accounts s Hsize Hnum Hall) as H.
    unfold updateCache in H. apply Z.eqb_neq in Hsize, Hnum.
    rewrite Hsize, Hnum in H. simpl in H.
    change (allCached (stopTimer s)) with (allCached s) in H.
    by rewrite Hall in H.
Qed.

Lemma handle_accounted e s s' :
  handle e s = Some s' → accounted s → accounted s'.
Proof.
  destruct e as [fuel | st bytes | pageNumber visible sizeChanged]; simpl.
  - intros H. apply accounted_view. by eapply updateCacheStep_view.
  - intros [= <-]. apply accounted_view, threadResult_view.
  - intros [= <-] Hacc. unfold receiveNewPageNumber.
    by apply updateCache_accounted, renderPage_accounted.
Qed.

Lemma run_accounted events s s' :
  run events s = Some s' → accounted s → accounted s'.
Proof.
  revert s. induction events as [| e events IH]; intros s; simpl.
  - by intros [= <-].
  - destruct (handle e s) as [s1|] eqn:He; [| done].
    intros Hrun Hacc. apply (IH s1 Hrun). by eapply handle_accounted.
Qed.

Lemma fresh_accounted n maxSize : accounted (fresh n maxSize).
Proof.
  unfold accounted, fresh, totalBytes, CacheMap.getSizeBytes; simpl.
  rewrite sumBytes_empty. lia.
Qed.
End SchedulerFacts.

(** ** The budget after the eviction phase *)

Section BudgetInvariant.
Import ControlScreen.

(** C1. In every state reached by any sequence of scheduler steps, thread
    results and page changes from a state with sound bookkeeping, when the
    eviction loop of a step ends without leaving the step, the bytes held
    by all stores are at most [maxCacheSize] unless [maxCacheSize] is
    negative (unlimited), and the number of pages of the presentation
    store is at most [maxCacheNumber] unless [maxCacheNumber >=
    numberOfPages]. *)
Theorem budget_after_eviction (s0 : ControlScreen.t) (events : list Event)
    (s : ControlScreen.t) (fuel : nat) (s' : ControlScreen.t) :
  accounted s0 →
  run events s0 = Some s →
  evictLoop fuel s = Some (s', false) →
  (0 ≤ maxCacheSize s' → totalBytes s' ≤ maxCacheSize s')
  ∧ (maxCacheNumber s' < numberOfPages s' →
     CacheMap.length (presentationCache s') ≤ maxCacheNumber s').
Proof.
  intros Hacc Hrun Hloop.
  assert (accounted s') as Hacc'.
  { eapply accounted_view; [by eapply evictLoop_view |].
    by eapply run_accounted. }
  apply evictLoop_satisfied in Hloop. unfold budgetSatisfied in Hloop.
  apply andb_prop in Hloop as [Hsize Hnum]. apply Z.leb_le in Hsize.
  split.
  - intros Hmax. specialize (Hacc' Hmax). lia.
  - intros Hlimit. apply orb_prop in Hnum as [Hnum | Hnum].
    + rewrite Z.geb_leb in Hnum. apply Z.leb_le in Hnum. lia.
    + by apply Z.leb_le in Hnum.
Qed.

Lemma budget_after_eviction_witness :
  let s0 := fresh 10 4 in
  let events :=
    [NewPageNumber 0 true false; Tick 5;
     ThreadResult PresentationStore (Samples.img 3);
     ThreadResult NotesStore (Samples.img 3);
     ThreadResult PreviewStore (Samples.img 3)] in
  let s := default s0 (run events s0) in
  let s' := Samples.evicted 20 s in
  accounted s0
  ∧ run events s0 = Some s
  ∧ evictLoop 20 s = Some (s', false)
  ∧ (0 ≤ maxCacheSize s' → totalBytes s' ≤ maxCacheSize s')
  ∧ (maxCacheNumber s' < numberOfPages s' →
     CacheMap.length (presentationCache s') ≤ maxCacheNumber s').
Proof.
  intros s0 events s s'.
  assert (accounted s0) as H0 by apply fresh_accounted.
  assert (run events s0 = Some s) as H1 by (vm_compute; reflexivity).
  assert (evictLoop 20 s = Some (s', false)) as H2 by (vm_compute; reflexivity).
  exact (conj H0 (conj H1 (conj H2
           (budget_after_eviction s0 events s 20 s' H0 H1 H2)))).
Defined.
End BudgetInvariant.

(** ** The victim of an eviction and the boundaries *)

Section VictimFacts.
Import ControlScreen.
Implicit Types (s : ControlScreen.t) (page : Z).

Lemma deletesAtMost_refl page s : deletesAtMost page s s.
Proof. intros st q. by left. Qed.

Lemma deletesAtMost_trans page s1 s2 s3 :
  deletesAtMost page s1 s2 → deletesAtMost page s2 s3 →
  deletesAtMost page s1 s3.
Proof.
  intros H12 H23 st q.
  destruct (H23 st q) as [H | H]; [| by right].
  rewrite H. apply H12.
Qed.

Lemma deletesAtMost_gone page s s' st :
  deletesAtMost page s s' → pageIn st s page = None → pageIn st s' page = None.
Proof. intros H Hs. destruct (H st page) as [-> | [_ ?]]; done. Qed.

Lemma clearPage_deletes page (c : CacheMap.t) q :
  CacheMap.data (CacheMap.clearPage page c).1 !! q = CacheMap.data c !! q
  ∨ (q = page ∧ CacheMap.data (CacheMap.clearPage page c).1 !! q = None).
Proof.
  rewrite clearPage_lookup. destruct (decide (q = page)) as [-> | Hne].
  - right. by rewrite lookup_delete_eq.
  - left. by rewrite lookup_delete_ne.
Qed.

Local Ltac free_deletes c :=
  intros st q;
  match goal with
  | |- context [CacheMap.clearPage ?page c] =>
      pose proof (clearPage_deletes page c q) as Hq;
      destruct (CacheMap.clearPage page c) as [c' freed];
      simpl in Hq
  end; destruct st; simpl; auto.

Lemma freeIn_notesCache_deletes page s :
  deletesAtMost page s (freeIn_notesCache page s).
Proof. unfold freeIn_notesCache. free_deletes (notesCache s). Qed.

Lemma freeIn_previewCache_deletes page s :
  deletesAtMost page s (freeIn_previewCache page s).
Proof. unfold freeIn_previewCache. free_deletes (previewCache s). Qed.

Lemma freeIn_presentationCache_deletes page s :
  deletesAtMost page s (freeIn_presentationCache page s).
Proof. unfold freeIn_presentationCache. free_deletes (presentationCache s). Qed.

Lemma freeIn_drawSlideCache_deletes page s :
  deletesAtMost page s (freeIn_drawSlideCache page s).
Proof.
  unfold freeIn_drawSlideCache.
  destruct (drawSlideCache s) as [c|] eqn:Hc; [| apply deletesAtMost_refl].
  free_deletes c; rewrite Hc; simpl; auto.
Qed.

Lemma freeIn_previewCacheX_deletes page s :
  deletesAtMost page s (freeIn_previewCacheX page s).
Proof.
  unfold freeIn_previewCacheX.
  destruct (previewCacheX s) as [c|] eqn:Hc; [| apply deletesAtMost_refl].
  free_deletes c; rewrite Hc; simpl; auto.
Qed.

Lemma freeIn_notesCache_gone page s :
  pageIn NotesStore (freeIn_notesCache page s) page = None.
Proof.
  unfold freeIn_notesCache.
  pose proof (clearPage_lookup page (notesCache s)) as Hl.
  destruct (CacheMap.clearPage page (notesCache s)) as [c' freed].
  simpl in *. rewrite Hl. apply lookup_delete_eq.
Qed.

Lemma freeIn_drawSlideCache_gone page s :
  pageIn DrawSlideStore (freeIn_drawSlideCache page s) page = None.
Proof.
  unfold freeIn_drawSlideCache.
  destruct (drawSlideCache s) as [c|] eqn:Hc; [| by simpl; rewrite Hc].
  pose proof (clearPage_lookup page c) as Hl.
  destruct (CacheMap.clearPage page c) as [c' freed].
  simpl in *. rewrite Hl. apply lookup_delete_eq.
Qed.

Lemma freeIn_drawSlideCache_absent page s :
  drawSlideCache s = None → freeIn_drawSlideCache page s = s.
Proof. unfold freeIn_drawSlideCache. by intros ->. Qed.

(** The states that [freeCachePage] goes through, each one reached from
    [s] by deleting [page] only. *)
Lemma freeCachePage_stages page s :
  let s1 := freeIn_drawSlideCache page s in
  let s2 := freeIn_notesCache page s1 in
  let s4 := freeIn_previewCache page (freeIn_previewCacheX page s2) in
  let s5 := freeIn_presentationCache page s4 in
  deletesAtMost page s s1 ∧ deletesAtMost page s s2
  ∧ deletesAtMost page s s4 ∧ deletesAtMost page s s5.
Proof.
  intros s1 s2 s4 s5.
  assert (deletesAtMost page s s1) as H1
    by apply freeIn_drawSlideCache_deletes.
  assert (deletesAtMost page s s2) as H2.
  { eapply deletesAtMost_trans; [exact H1 |]. apply freeIn_notesCache_deletes. }
  assert (deletesAtMost page s s4) as H4.
  { eapply deletesAtMost_trans; [exact H2 |].
    eapply deletesAtMost_trans; [apply freeIn_previewCacheX_deletes |].
    apply freeIn_previewCache_deletes. }
  repeat split; try assumption.
  eapply deletesAtMost_trans; [exact H4 |].
  apply freeIn_presentationCache_deletes.
Qed.

Lemma freeCachePage_deletes page s :
  deletesAtMost page s (freeCachePage page s).1.
Proof.
  destruct (freeCachePage_stages page s) as (H1 & H2 & H4 & H5).
  unfold freeCachePage. cbv zeta.
  destruct (_ && _); [exact H1 |].
  destruct (budgetSatisfied (freeIn_notesCache _ _)); [exact H2 |].
  destruct (budgetSatisfied (freeIn_previewCache _ _)); [exact H4 | exact H5].
Qed.

Lemma freeCachePage_first_gone page s :
  pageIn (firstStore s) (freeCachePage page s).1 page = None.
Proof.
  assert (pageIn (firstStore s) (freeIn_drawSlideCache page s) page = None
          ∨ (firstStore s = NotesStore
             ∧ freeIn_drawSlideCache page s = s)) as Hfirst.
  { unfold firstStore. destruct (drawSlideCache s) as [c|] eqn:Hc.
    - left. apply freeIn_drawSlideCache_gone.
    - right. split; [done |]. by apply freeIn_drawSlideCache_absent. }
  assert (pageIn (firstStore s)
            (freeIn_notesCache page (freeIn_drawSlideCache page s)) page = None)
    as Hnotes.
  { destruct Hfirst as [Hgone | [-> _]].
    - eapply deletesAtMost_gone; [apply freeIn_notesCache_deletes | exact Hgone].
    - apply freeIn_notesCache_gone. }
  assert (bool_decide (is_Some (drawSlideCache s)) = true
          → pageIn (firstStore s) (freeIn_drawSlideCache page s) page = None)
    as Hdraw.
  { intros Hsome. destruct Hfirst as [Hgone | [_ Habs]]; [done |].
    apply bool_decide_eq_true in Hsome as [c Hc].
    unfold firstStore. rewrite Hc. apply freeIn_drawSlideCache_gone. }
  unfold freeCachePage. cbv zeta.
  destruct (bool_decide _) eqn:Hsome; simpl.
  - destruct (budgetSatisfied (freeIn_drawSlideCache _ _)); simpl; [by apply Hdraw |].
    destruct (budgetSatisfied (freeIn_notesCache _ _)); [exact Hnotes |].
    destruct (budgetSatisfied (freeIn_previewCache _ _)); simpl;
      (eapply deletesAtMost_gone; [| exact Hnotes]).
    + eapply deletesAtMost_trans; [apply freeIn_previewCacheX_deletes |].
      apply freeIn_previewCache_deletes.
    + eapply deletesAtMost_trans; [apply freeIn_previewCacheX_deletes |].
      eapply deletesAtMost_trans; [apply freeIn_previewCache_deletes |].
      apply freeIn_presentationCache_deletes.
  - destruct (budgetSatisfied (freeIn_notesCache _ _)); [exact Hnotes |].
    destruct (budgetSatisfied (freeIn_previewCache _ _)); simpl;
      (eapply deletesAtMost_gone; [| exact Hnotes]).
    + eapply deletesAtMost_trans; [apply freeIn_previewCacheX_deletes |].
      apply freeIn_previewCache_deletes.
    + eapply deletesAtMost_trans; [apply freeIn_previewCacheX_deletes |].
      eapply deletesAtMost_trans; [apply freeIn_previewCache_deletes |].
      apply freeIn_presentationCache_deletes.
Qed.

Lemma freeCachePage_evicts page s : evicts page s (freeCachePage page s).1.
Proof.
  split; [apply freeCachePage_first_gone |].
  intros st q Hne. destruct (freeCachePage_deletes page s st q) as [H | [H _]];
    done.
Qed.

Lemma evictBody_pageIn s st q :
  pageIn st (evictBody s).1 q = pageIn st (freeCachePage (victim s) s).1 q.
Proof.
  unfold evictBody, victim, regionCheck.
  destruct (deleteLater s);
    match goal with
    | |- context [freeCachePage ?p s] => destruct (freeCachePage p s) as [s1 [|]]
    end; simpl; try done;
    destruct (_ || _); by destruct st.
Qed.

Lemma evictBody_firstStore s s1 :
  s1 = (evictBody s).1 → ∀ page, evicts page s (freeCachePage (victim s) s).1 →
  evicts page s s1.
Proof.
  intros -> page [Hgone Hkept]. split.
  - by rewrite evictBody_pageIn.
  - intros st q Hne. rewrite evictBody_pageIn. by apply Hkept.
Qed.

(** C2. In every pass through the eviction loop the victim is the page
    [last_delete] exactly when [last_delete > 4*currentPageNumber -
    3*first_delete], and the page [first_delete] otherwise: that page is
    deleted from the first store and no store changes at another page. *)
Theorem victim_is_tail_or_head (s : ControlScreen.t) :
  evicts
    (if decide (last_delete s > 4 * currentPageNumber s - 3 * first_delete s)
     then last_delete s else first_delete s)
    s (evictBody s).1.
Proof.
  eapply evictBody_firstStore; [done |].
  replace (if decide _ then _ else _) with (victim s);
    [apply freeCachePage_evicts |].
  unfold victim, deleteLater.
  destruct (Z.gtb_spec (last_delete s)
              (4 * currentPageNumber s - 3 * first_delete s));
    destruct (decide _); try lia; done.
Qed.

(** The loop runs its body whenever the budget is exceeded. *)
Lemma evictLoop_body fuel s :
  overBudget s = true →
  evictLoop (S fuel) s =
    match evictBody s with
    | (s', Continue) => evictLoop fuel s'
    | (s', Break) => Some (s', false)
    | (s', Return) => Some (s', true)
    end.
Proof. simpl. by intros ->. Qed.

Lemma freeCachePage_window page s :
  window (freeCachePage page s).1 = window s.
Proof.
  assert (∀ x, window (freeIn_drawSlideCache page x) = window x) as Hd.
  { intros x. unfold freeIn_drawSlideCache.
    destruct (drawSlideCache x) as [c|]; [| done].
    by destruct (CacheMap.clearPage page c). }
  assert (∀ x, window (freeIn_notesCache page x) = window x) as Hn.
  { intros x. unfold freeIn_notesCache. by destruct (CacheMap.clearPage _ _). }
  assert (∀ x, window (freeIn_previewCacheX page x) = window x) as Hx.
  { intros x. unfold freeIn_previewCacheX.
    destruct (previewCacheX x) as [c|]; [| done].
    by destruct (CacheMap.clearPage page c). }
  assert (∀ x, window (freeIn_previewCache page x) = window x) as Hp.
  { intros x. unfold freeIn_previewCache. by destruct (CacheMap.clearPage _ _). }
  assert (∀ x, window (freeIn_presentationCache page x) = window x) as Hs.
  { intros x. unfold freeIn_presentationCache.
    by destruct (CacheMap.clearPage _ _). }
  unfold freeCachePage. cbv zeta.
  destruct (_ && _); [apply Hd |].
  destruct (budgetSatisfied (freeIn_notesCache _ _)); simpl;
    [by rewrite Hn, Hd |].
  destruct (budgetSatisfied (freeIn_previewCache _ _)); simpl;
    by rewrite ?Hs, Hp, Hx, Hn, Hd.
Qed.

(** C3, as the code has it. In the loop the cached region lies within the
    delete boundaries. A pass through the loop body in which [freeCachePage]
    deletes the page from all stores (it returns [false]) moves the delete
    boundary on the side of the victim by one ([last_delete] down for the
    tail, [first_delete] up for the head) and leaves [last_cached =
    min(last_cached, last_delete)] and [first_cached = max(first_cached,
    first_delete)]. When [freeCachePage] finds the budget met before that (it
    returns [true]), the loop ends by [break] and the boundaries and the
    cached region are those of before. *)
Theorem boundary_after_eviction (s : ControlScreen.t) :
  last_cached s ≤ last_delete s → first_delete s ≤ first_cached s →
  ((freeCachePage (victim s) s).2 = false →
   advancedAndClamped s (evictBody s).1)
  ∧ ((freeCachePage (victim s) s).2 = true →
     (evictBody s).2 = Break ∧ window (evictBody s).1 = window s).
Proof.
  intros Hlast Hfirst.
  pose proof (freeCachePage_window (victim s) s) as Hw.
  unfold advancedAndClamped, evictBody, victim, regionCheck in *.
  destruct (deleteLater s);
    match goal with
    | |- context [freeCachePage ?p s] => destruct (freeCachePage p s) as [s1 [|]]
    end; simpl in *; (split; [intros [=] | intros [=]]);
    try done; injection Hw as Hfd Hfc Hcur Hlc Hld;
    destruct (_ || _); simpl; rewrite ?Hfd, ?Hfc, ?Hlc, ?Hld;
    repeat split; try done.
  - destruct (Z.gtb_spec (last_delete s - 1) (last_cached s)); lia.
  - lia.
  - destruct (Z.gtb_spec (last_delete s - 1) (last_cached s)); lia.
  - lia.
  - lia.
  - destruct (Z.gtb_spec (first_cached s) (first_delete s + 1)); lia.
  - lia.
  - destruct (Z.gtb_spec (first_cached s) (first_delete s + 1)); lia.
Qed.

Lemma boundary_after_eviction_witness :
  let reachesLoop s :=
    allCached s = false ∧ regionInconsistent s = false ∧ overBudget s = true
    ∧ is_Some (pageIn PresentationStore s (victim s)) in
  reachesLoop Samples.overfull
  ∧ (freeCachePage (victim Samples.overfull) Samples.overfull).2 = false
  ∧ advancedAndClamped Samples.overfull (evictBody Samples.overfull).1
  ∧ reachesLoop Samples.nearlyFits
  ∧ (freeCachePage (victim Samples.nearlyFits) Samples.nearlyFits).2 = true
  ∧ (evictBody Samples.nearlyFits).2 = Break
  ∧ window (evictBody Samples.nearlyFits).1 = window Samples.nearlyFits.
Proof.
  intros reachesLoop.
  assert (reachesLoop Samples.overfull) as R1
    by (repeat split; vm_compute; by eauto).
  assert (reachesLoop Samples.nearlyFits) as R2
    by (repeat split; vm_compute; by eauto).
  assert ((freeCachePage (victim Samples.overfull) Samples.overfull).2 = false)
    as H1 by (vm_compute; reflexivity).
  assert ((freeCachePage (victim Samples.nearlyFits) Samples.nearlyFits).2 = true)
    as H2 by (vm_compute; reflexivity).
  assert (last_cached Samples.overfull ≤ last_delete Samples.overfull) as Ha
    by (vm_compute; discriminate).
  assert (first_delete Samples.overfull ≤ first_cached Samples.overfull) as Hb
    by (vm_compute; discriminate).
  assert (last_cached Samples.nearlyFits ≤ last_delete Samples.nearlyFits) as Hc
    by (vm_compute; discriminate).
  assert (first_delete Samples.nearlyFits ≤ first_cached Samples.nearlyFits) as Hd
    by (vm_compute; discriminate).
  exact (conj R1
           (conj H1
              (conj (proj1 (boundary_after_eviction Samples.overfull Ha Hb) H1)
                 (conj R2
                    (conj H2
                       (proj2 (boundary_after_eviction Samples.nearlyFits
                                 Hc Hd) H2)))))).
Defined.

(** C3 as stated fails. The step in [Samples.nearlyFits] passes both entry
    tests and enters the loop; the pass through the loop body deletes page 2
    from the notes store, which meets the budget, and the loop is left with
    [last_delete] still 2, while the other stores still hold page 2. *)
Lemma boundary_kept_on_break :
  ¬ (∀ (s : ControlScreen.t) (st : Store),
       allCached s = false → regionInconsistent s = false →
       overBudget s = true →
       last_cached s ≤ last_delete s → first_delete s ≤ first_cached s →
       pageIn st (evictBody s).1 (victim s) ≠ pageIn st s (victim s) →
       advancedAndClamped s (evictBody s).1).
Proof.
  intros H. specialize (H Samples.nearlyFits NotesStore).
  assert (pageIn NotesStore (evictBody Samples.nearlyFits).1
            (victim Samples.nearlyFits)
          ≠ pageIn NotesStore Samples.nearlyFits (victim Samples.nearlyFits))
    as Hevicted by (vm_compute; discriminate).
  apply H in Hevicted;
    [| vm_compute; reflexivity | vm_compute; reflexivity
     | vm_compute; reflexivity | vm_compute; discriminate
     | vm_compute; discriminate].
  vm_compute in Hevicted.
  destruct Hevicted as [[Hld _] _]. discriminate Hld.
Qed.

(** The step itself, run on the two samples: in [Samples.nearlyFits] it
    leaves the loop by [break] with the boundaries where they were and page
    2 still in the presentation store; in [Samples.overfull] page 2 goes
    from every store, [last_delete] and [last_cached] go down to 1, and the
    next pass ends the loop. *)
Example nearlyFits_step_keeps_boundaries :
  (λ r, (last_delete r.1, last_cached r.1,
         contains (CacheMap.data (presentationCache r.1)) 2,
         contains (CacheMap.data (notesCache r.1)) 2))
    <$> evictLoop 5 Samples.nearlyFits
  = Some (2, 2, true, false).
Proof. vm_compute. reflexivity. Qed.

Example overfull_step_moves_boundaries :
  (λ r, (last_delete r.1, last_cached r.1,
         contains (CacheMap.data (presentationCache r.1)) 2,
         contains (CacheMap.data (notesCache r.1)) 2))
    <$> evictLoop 5 Samples.overfull
  = Some (1, 1, false, false).
Proof. vm_compute. reflexivity. Qed.
End VictimFacts.

(** ** The eviction loop ends *)

Section TerminationFacts.
Import ControlScreen.
Implicit Types (s : ControlScreen.t) (page : Z).

Lemma evictLoop_mono fuel fuel' s r :
  evictLoop fuel s = Some r → (fuel ≤ fuel')%nat → evictLoop fuel' s = Some r.
Proof.
  revert fuel' s. induction fuel as [| fuel IH]; intros fuel' s; simpl; [done |].
  intros Hrun Hle. destruct fuel' as [| fuel']; [lia |]. simpl.
  destruct (overBudget s); [| done].
  destruct (evictBody s) as [s1 [| |]]; try done.
  apply IH; [done | lia].
Qed.

Lemma updateCacheStep_mono fuel fuel' s s' :
  updateCacheStep fuel s = Some s' → (fuel ≤ fuel')%nat →
  updateCacheStep fuel' s = Some s'.
Proof.
  unfold updateCacheStep.
  destruct (allCached s); [done |]. destruct (regionInconsistent s); [done |].
  destruct (evictLoop fuel s) as [r|] eqn:Hloop; [| done].
  intros Hstep Hle. by rewrite (evictLoop_mono fuel fuel' s r Hloop Hle).
Qed.

(** The pages of a map lie between two bounds. *)
Lemma PageMap_bounded (m : PageMap) :
  ∃ lo hi, ∀ q, is_Some (m !! q) → lo ≤ q ≤ hi.
Proof.
  induction m as [| i b m Hi (lo & hi & IH)] using map_ind.
  - exists 0, 0. intros q [x Hx]. by rewrite lookup_empty in Hx.
  - exists (Z.min lo i), (Z.max hi i). intros q Hq.
    destruct (decide (q = i)) as [-> | Hne]; [lia |].
    rewrite lookup_insert_ne in Hq by done. specialize (IH q Hq). lia.
Qed.

Lemma stores_bounded s :
  ∃ lo hi, ∀ st q, is_Some (pageIn st s q) → lo ≤ q ≤ hi.
Proof.
  destruct (PageMap_bounded (CacheMap.data (presentationCache s))) as (l1 & h1 & H1).
  destruct (PageMap_bounded (CacheMap.data (notesCache s))) as (l2 & h2 & H2).
  destruct (PageMap_bounded (CacheMap.data (previewCache s))) as (l3 & h3 & H3).
  destruct (PageMap_bounded (from_option CacheMap.data ∅ (previewCacheX s)))
    as (l4 & h4 & H4).
  destruct (PageMap_bounded (from_option CacheMap.data ∅ (drawSlideCache s)))
    as (l5 & h5 & H5).
  exists (Z.min l1 (Z.min l2 (Z.min l3 (Z.min l4 l5)))),
    (Z.max h1 (Z.max h2 (Z.max h3 (Z.max h4 h5)))).
  intros st q Hq. destruct st; simpl in Hq.
  - specialize (H1 q Hq). lia.
  - specialize (H2 q Hq). lia.
  - specialize (H3 q Hq). lia.
  - destruct (previewCacheX s) as [c|]; simpl in *; [| by destruct Hq].
    specialize (H4 q Hq). lia.
  - destruct (drawSlideCache s) as [c|]; simpl in *; [| by destruct Hq].
    specialize (H5 q Hq). lia.
Qed.

Lemma emptyStore_count (c : CacheMap.t) :
  CacheMap.data c = ∅ → CacheMap.length c = 0 ∧ CacheMap.getSizeBytes c = 0.
Proof.
  unfold CacheMap.length, CacheMap.getSizeBytes. intros ->.
  by rewrite map_size_empty, sumBytes_empty.
Qed.

(** With sound books and a page budget that can be met at all, a state that
    exceeds the budget has a page in some store. *)
Lemma overBudget_has_page s :
  overBudget s = true →
  slack s ≤ maxCacheSize s →
  numberOfPages s ≤ maxCacheNumber s ∨ 0 ≤ maxCacheNumber s →
  ∃ st q, is_Some (pageIn st s q).
Proof.
  intros Hover Hslack Hnum.
  destruct (map_choose_or_empty (CacheMap.data (presentationCache s)))
    as [(q & x & Hq) | E1]; [by exists PresentationStore, q; eexists |].
  destruct (map_choose_or_empty (CacheMap.data (notesCache s)))
    as [(q & x & Hq) | E2]; [by exists NotesStore, q; eexists |].
  destruct (map_choose_or_empty (CacheMap.data (previewCache s)))
    as [(q & x & Hq) | E3]; [by exists PreviewStore, q; eexists |].
  assert (from_option CacheMap.getSizeBytes 0 (previewCacheX s) ≠ 0
          → ∃ q, is_Some (pageIn PreviewXStore s q)) as H4.
  { simpl. destruct (previewCacheX s) as [c|]; simpl; [| done].
    destruct (map_choose_or_empty (CacheMap.data c)) as [(q & x & Hq) | E].
    - intros _. exists q. by eexists.
    - intros Hne. by destruct (emptyStore_count c E). }
  assert (from_option CacheMap.getSizeBytes 0 (drawSlideCache s) ≠ 0
          → ∃ q, is_Some (pageIn DrawSlideStore s q)) as H5.
  { simpl. destruct (drawSlideCache s) as [c|]; simpl; [| done].
    destruct (map_choose_or_empty (CacheMap.data c)) as [(q & x & Hq) | E].
    - intros _. exists q. by eexists.
    - intros Hne. by destruct (emptyStore_count c E). }
  destruct (decide (from_option CacheMap.getSizeBytes 0 (previewCacheX s) = 0))
    as [Z4 | N4]; [| destruct (H4 N4) as [q Hq]; by exists PreviewXStore, q].
  destruct (decide (from_option CacheMap.getSizeBytes 0 (drawSlideCache s) = 0))
    as [Z5 | N5]; [| destruct (H5 N5) as [q Hq]; by exists DrawSlideStore, q].
  exfalso.
  destruct (emptyStore_count _ E1) as [C1 B1].
  destruct (emptyStore_count _ E2) as [_ B2].
  destruct (emptyStore_count _ E3) as [_ B3].
  assert (totalBytes s = 0) as Htotal.
  { unfold totalBytes. rewrite B1, B2, B3.
    destruct (previewCacheX s), (drawSlideCache s); simpl in *; lia. }
  unfold overBudget in Hover. unfold slack in Hslack. rewrite C1 in Hover.
  apply orb_prop in Hover as [Hover | Hover].
  - rewrite Z.gtb_ltb in Hover. apply Z.ltb_lt in Hover. lia.
  - apply andb_prop in Hover as [Hlt Hgt].
    rewrite Z.gtb_ltb in Hgt. apply Z.ltb_lt in Hlt, Hgt. lia.
Qed.

(** When [freeCachePage] returns [false] the page is gone from every
    store. *)
Lemma freeCachePage_false_gone page s st :
  (freeCachePage page s).2 = false →
  pageIn st (freeCachePage page s).1 page = None.
Proof.
  unfold freeCachePage. cbv zeta.
  destruct (_ && _); [done |].
  destruct (budgetSatisfied (freeIn_notesCache _ _)); [done |].
  destruct (budgetSatisfied (freeIn_previewCache _ _)); [done |].
  intros _. simpl.
  set (s1 := freeIn_drawSlideCache page s).
  set (s2 := freeIn_notesCache page s1).
  set (s3 := freeIn_previewCacheX page s2).
  set (s4 := freeIn_previewCache page s3).
  assert (∀ x, pageIn PreviewXStore (freeIn_previewCacheX page x) page = None) as Hx.
  { intros x. unfold freeIn_previewCacheX.
    destruct (previewCacheX x) as [c|] eqn:Hc; [| by simpl; rewrite Hc].
    pose proof (clearPage_lookup page c) as Hl.
    destruct (CacheMap.clearPage page c) as [c' freed].
    simpl in *. rewrite Hl. apply lookup_delete_eq. }
  assert (∀ x, pageIn PreviewStore (freeIn_previewCache page x) page = None) as Hp.
  { intros x. unfold freeIn_previewCache.
    pose proof (clearPage_lookup page (previewCache x)) as Hl.
    destruct (CacheMap.clearPage page (previewCache x)) as [c' freed].
    simpl in *. rewrite Hl. apply lookup_delete_eq. }
  assert (∀ x, pageIn PresentationStore (freeIn_presentationCache page x) page
               = None) as Hs.
  { intros x. unfold freeIn_presentationCache.
    pose proof (clearPage_lookup page (presentationCache x)) as Hl.
    destruct (CacheMap.clearPage page (presentationCache x)) as [c' freed].
    simpl in *. rewrite Hl. apply lookup_delete_eq. }
  destruct st.
  - apply Hs.
  - apply (deletesAtMost_gone page s2); [| apply freeIn_notesCache_gone].
    eapply deletesAtMost_trans; [apply freeIn_previewCacheX_deletes |].
    eapply deletesAtMost_trans; [apply freeIn_previewCache_deletes |].
    apply freeIn_presentationCache_deletes.
  - apply (deletesAtMost_gone page s4); [| apply Hp].
    apply freeIn_presentationCache_deletes.
  - apply (deletesAtMost_gone page s3); [| apply Hx].
    eapply deletesAtMost_trans; [apply freeIn_previewCache_deletes |].
    apply freeIn_presentationCache_deletes.
  - apply (deletesAtMost_gone page s1); [| apply freeIn_drawSlideCache_gone].
    eapply deletesAtMost_trans; [apply freeIn_notesCache_deletes |].
    eapply deletesAtMost_trans; [apply freeIn_previewCacheX_deletes |].
    eapply deletesAtMost_trans; [apply freeIn_previewCache_deletes |].
    apply freeIn_presentationCache_deletes.
Qed.

(** A pass through the loop body that goes on to the next pass. *)
Lemma evictBody_continue s s1 :
  evictBody s = (s1, Continue) →
  (freeCachePage (victim s) s).2 = false
  ∧ (∀ st q, pageIn st s1 q = pageIn st (freeCachePage (victim s) s).1 q)
  ∧ budgetView s1 = budgetView s
  ∧ currentPageNumber s1 = currentPageNumber s
  ∧ (if deleteLater s
     then last_delete s1 = last_delete s - 1
          ∧ first_delete s1 = first_delete s
          ∧ last_cached s1 = Z.min (last_cached s) (last_delete s - 1)
          ∧ first_cached s1 = first_cached s
     else first_delete s1 = first_delete s + 1
          ∧ last_delete s1 = last_delete s
          ∧ first_cached s1 = Z.max (first_cached s) (first_delete s + 1)
          ∧ last_cached s1 = last_cached s).
Proof.
  intros Hbody.
  pose proof (evictBody_pageIn s) as Hpages.
  pose proof (evictBody_view s) as Hview.
  rewrite Hbody in Hpages, Hview. simpl in Hpages, Hview.
  pose proof (freeCachePage_window (victim s) s) as Hw.
  unfold evictBody, victim, regionCheck in *.
  destruct (deleteLater s);
    match type of Hbody with
    | context [freeCachePage ?p s] => destruct (freeCachePage p s) as [s2 [|]]
    end; simpl in *; try done;
    injection Hw as Hfd Hfc Hcur Hlc Hld;
    destruct (_ || _); try done; injection Hbody as <-; simpl;
    rewrite ?Hfd, ?Hfc, ?Hlc, ?Hld, ?Hcur; repeat split; try done.
  - destruct (Z.gtb_spec (last_delete s - 1) (last_cached s)); lia.
  - destruct (Z.gtb_spec (first_cached s) (first_delete s + 1)); lia.
Qed.

(** The [return] in the loop is never taken when the cached region lies
    within the delete boundaries, as it does after the entry tests. *)
Lemma evictBody_no_return s :
  last_cached s ≤ last_delete s → first_delete s ≤ first_cached s →
  (evictBody s).2 ≠ Return.
Proof.
  intros Hl Hf.
  pose proof (freeCachePage_window (victim s) s) as Hw.
  unfold evictBody, victim, regionCheck in *.
  destruct (deleteLater s);
    match goal with
    | |- context [freeCachePage ?p s] => destruct (freeCachePage p s) as [s2 [|]]
    end; simpl in *; try done;
    injection Hw as Hfd Hfc Hcur Hlc Hld; rewrite ?Hfd, ?Hfc, ?Hlc, ?Hld.
  - destruct (Z.gtb_spec (last_delete s - 1) (last_cached s));
      match goal with |- context [if ?b then _ else _] => destruct b eqn:Hb end;
      try done; apply orb_prop in Hb as [Hb | Hb];
      rewrite ?Z.gtb_ltb in Hb; apply Z.ltb_lt in Hb; lia.
  - destruct (Z.gtb_spec (first_cached s) (first_delete s + 1));
      match goal with |- context [if ?b then _ else _] => destruct b eqn:Hb end;
      try done; apply orb_prop in Hb as [Hb | Hb];
      rewrite ?Z.gtb_ltb in Hb; apply Z.ltb_lt in Hb; lia.
Qed.

Lemma deleteLater_skew s : deleteLater s = true ↔ 0 < skew s.
Proof. unfold deleteLater, skew. rewrite Z.gtb_ltb, Z.ltb_lt. lia. Qed.

(** The loop ends, and not by [return], within [passesLeft] passes. *)
Lemma evictLoop_ends_within lo hi (fuel : nat) s :
  (∀ st q, is_Some (pageIn st s q) → lo ≤ q ≤ hi) →
  (∀ st q, is_Some (pageIn st s q) → q ≤ last_delete s ∨ first_delete s ≤ q) →
  last_cached s ≤ last_delete s → first_delete s ≤ first_cached s →
  slack s ≤ maxCacheSize s →
  numberOfPages s ≤ maxCacheNumber s ∨ 0 ≤ maxCacheNumber s →
  passesLeft lo hi s < Z.of_nat fuel →
  ∃ s', evictLoop fuel s = Some (s', false).
Proof.
  revert s. induction fuel as [| fuel IH];
    intros s Hbound Hswept Hlast Hfirst Hslack Hnum Hfuel.
  { unfold passesLeft in Hfuel.
    destruct (0 <? Z.max 0 (hi - first_delete s + 1)),
      (0 <? Z.max 0 (last_delete s - lo + 1)); lia. }
  simpl. destruct (overBudget s) eqn:Hover; [| by eexists].
  destruct (overBudget_has_page s Hover Hslack Hnum) as (st0 & q0 & Hq0).
  pose proof (Hbound st0 q0 Hq0) as Hq0b.
  pose proof (Hswept st0 q0 Hq0) as Hq0s.
  pose proof (evictBody_no_return s Hlast Hfirst) as Hnoreturn.
  destruct (evictBody s) as [s1 [| |]] eqn:Hbody; [| by eexists | done].
  apply evictBody_continue in Hbody
    as (Hfalse & Hpages & Hview & Hcur & Hwin).
  assert (∀ st q, is_Some (pageIn st s1 q) →
                  is_Some (pageIn st s q) ∧ q ≠ victim s) as Hkept.
  { intros st q Hq. rewrite Hpages in Hq. split.
    - destruct (freeCachePage_deletes (victim s) s st q) as [Heq | [_ Hnone]].
      + by rewrite <- Heq.
      + rewrite Hnone in Hq. by destruct Hq.
    - intros ->. rewrite freeCachePage_false_gone in Hq by done. by destruct Hq. }
  injection Hview as HN Hmax Hmaxnum Hsl.
  apply IH.
  - intros st q Hq. apply (Hbound st q). by apply Hkept.
  - intros st q Hq. destruct (Hkept st q Hq) as [Hq' Hne].
    specialize (Hswept st q Hq'). unfold victim in Hne.
    destruct (deleteLater s); destruct Hwin as (H1 & H2 & H3 & H4); lia.
  - destruct (deleteLater s); destruct Hwin as (H1 & H2 & H3 & H4); lia.
  - destruct (deleteLater s); destruct Hwin as (H1 & H2 & H3 & H4); lia.
  - lia.
  - lia.
  - pose proof (deleteLater_skew s) as Hskew.
    unfold passesLeft, skew in *. rewrite Hcur.
    destruct (deleteLater s); destruct Hwin as (H1 & H2 & H3 & H4);
      rewrite H1, H2.
    + assert (0 < last_delete s + 3 * first_delete s - 4 * currentPageNumber s)
        as Hpos by by apply Hskew.
      destruct (Z.ltb_spec 0 (Z.max 0 (hi - first_delete s + 1)));
        destruct (Z.ltb_spec 0 (Z.max 0 (last_delete s - lo + 1)));
        destruct (Z.ltb_spec 0 (Z.max 0 (last_delete s - 1 - lo + 1))); lia.
    + assert (¬ 0 < last_delete s + 3 * first_delete s - 4 * currentPageNumber s)
        as Hneg by (intros Hpos; by apply Hskew in Hpos).
      destruct (Z.ltb_spec 0 (Z.max 0 (hi - first_delete s + 1)));
        destruct (Z.ltb_spec 0 (Z.max 0 (last_delete s - lo + 1)));
        destruct (Z.ltb_spec 0 (Z.max 0 (hi - (first_delete s + 1) + 1))); lia.
Qed.

(** Every pass through the loop body keeps the cached region within the
    delete boundaries. *)
Lemma evictBody_keeps_region s :
  last_cached s ≤ last_delete s → first_delete s ≤ first_cached s →
  last_cached (evictBody s).1 ≤ last_delete (evictBody s).1
  ∧ first_delete (evictBody s).1 ≤ first_cached (evictBody s).1.
Proof.
  intros Hlast Hfirst.
  pose proof (freeCachePage_window (victim s) s) as Hw.
  unfold evictBody, victim, regionCheck in *.
  destruct (deleteLater s);
    match goal with
    | |- context [freeCachePage ?p s] => destruct (freeCachePage p s) as [s1 [|]]
    end; simpl in *; injection Hw as Hfd Hfc Hcur Hlc Hld;
    try (destruct (_ || _); simpl); rewrite ?Hfd, ?Hfc, ?Hlc, ?Hld; try lia.
  - destruct (Z.gtb_spec (last_delete s - 1) (last_cached s)); lia.
  - destruct (Z.gtb_spec (last_delete s - 1) (last_cached s)); lia.
  - destruct (Z.gtb_spec (first_cached s) (first_delete s + 1)); lia.
  - destruct (Z.gtb_spec (first_cached s) (first_delete s + 1)); lia.
Qed.

(** After the entry tests the loop is never left by [return]: a step that
    has begun to delete pages always goes on to choose a page. *)
Lemma evictLoop_never_returns fuel s s' :
  last_cached s ≤ last_delete s → first_delete s ≤ first_cached s →
  evictLoop fuel s ≠ Some (s', true).
Proof.
  revert s. induction fuel as [| fuel IH]; intros s Hlast Hfirst; simpl; [done |].
  destruct (overBudget s); [| done].
  pose proof (evictBody_no_return s Hlast Hfirst) as Hnoreturn.
  destruct (evictBody s) as [s1 [| |]] eqn:Hbody; [| done | done].
  apply evictBody_continue in Hbody as (_ & _ & _ & _ & Hwin).
  apply IH; destruct (deleteLater s); destruct Hwin as (H1 & H2 & H3 & H4); lia.
Qed.

(** After the entry tests of the step, with [cacheSize] not more than
    [maxCacheSize] above the bytes held and a page budget that is not
    negative or is unlimited, the eviction loop ends and the step goes
    on. *)
Lemma evictLoop_terminates s :
  regionInconsistent s = false →
  slack s ≤ maxCacheSize s →
  numberOfPages s ≤ maxCacheNumber s ∨ 0 ≤ maxCacheNumber s →
  ∃ s', evictionEndsIn s s'.
Proof.
  intros Hreg Hslack Hnum.
  unfold regionInconsistent in Hreg.
  apply orb_false_elim in Hreg as [Hreg H4].
  apply orb_false_elim in Hreg as [Hreg H3].
  apply orb_false_elim in Hreg as [H1 H2].
  rewrite Z.gtb_ltb in H1, H3. apply Z.ltb_ge in H1, H2, H3, H4.
  destruct (stores_bounded s) as (lo & hi & Hbound).
  assert (∀ st q, is_Some (pageIn st s q) →
                  q ≤ last_delete s ∨ first_delete s ≤ q) as Hswept
    by (intros st q _; lia).
  assert (passesLeft lo hi s < Z.of_nat (S (Z.to_nat (passesLeft lo hi s))))
    as Hfuel by lia.
  destruct (evictLoop_ends_within lo hi _ s Hbound Hswept H1 H2 Hslack Hnum Hfuel)
    as [s' Hs'].
  by exists s', (S (Z.to_nat (passesLeft lo hi s))).
Qed.

End TerminationFacts.

(** ** The entry tests of the step and of [updateCache] *)

Section EntryFacts.
Import ControlScreen.
Implicit Types (s : ControlScreen.t).

(** C4. A step in a state whose region is inconsistent only stops the
    timer: the result is the state of before with [cacheTimer] off, so no
    page is deleted, no render job is started and the bookkeeping of the
    region is unchanged. *)
Theorem inconsistent_region_stops (fuel : nat) (s : ControlScreen.t) :
  last_cached s > last_delete s
  ∨ first_cached s < first_delete s
  ∨ first_cached s > currentPageNumber s
  ∨ last_cached s < currentPageNumber s - 1 →
  updateCacheStep fuel s = Some (set_cacheTimer false s).
Proof.
  intros H. unfold updateCacheStep.
  destruct (allCached s); [done |].
  assert (regionInconsistent s = true) as ->; [| done].
  unfold regionInconsistent.
  rewrite !orb_true_iff, !Z.gtb_ltb, !Z.ltb_lt. lia.
Qed.

Lemma inconsistent_region_stops_witness :
  (last_cached Samples.jumped > last_delete Samples.jumped
   ∨ first_cached Samples.jumped < first_delete Samples.jumped
   ∨ first_cached Samples.jumped > currentPageNumber Samples.jumped
   ∨ last_cached Samples.jumped < currentPageNumber Samples.jumped - 1)
  ∧ updateCacheStep 0 Samples.jumped = Some (set_cacheTimer false Samples.jumped).
Proof.
  assert (last_cached Samples.jumped > last_delete Samples.jumped
          ∨ first_cached Samples.jumped < first_delete Samples.jumped
          ∨ first_cached Samples.jumped > currentPageNumber Samples.jumped
          ∨ last_cached Samples.jumped < currentPageNumber Samples.jumped - 1)
    as H by (right; right; right; reflexivity).
  exact (conj H (inconsistent_region_stops 0 Samples.jumped H)).
Defined.

(** C5, as the code has it. When [updateCache] is entered with
    [currentPageNumber] outside of [first_cached .. last_cached], neither
    budget is 0 and not every store holds all pages, the region is reset:
    [first_cached = currentPageNumber], [last_cached = currentPageNumber -
    1], [first_delete = 0] and [last_delete = numberOfPages - 1]. *)
Theorem updateCache_resets_region (s : ControlScreen.t) :
  maxCacheSize s ≠ 0 → maxCacheNumber s ≠ 0 → allCached s = false →
  currentPageNumber s < first_cached s ∨ last_cached s < currentPageNumber s →
  window (updateCache s)
  = (0, currentPageNumber s, currentPageNumber s, currentPageNumber s - 1,
     numberOfPages s - 1).
Proof.
  intros Hsize Hnum Hall Hout. unfold updateCache.
  apply Z.eqb_neq in Hsize, Hnum. rewrite Hsize, Hnum. simpl.
  change (allCached (stopTimer s)) with (allCached s). rewrite Hall.
  assert (∀ x, first_cached x = first_cached s → last_cached x = last_cached s →
               currentPageNumber x = currentPageNumber s →
               (first_cached x >? currentPageNumber x)
               || (last_cached x <? currentPageNumber x) = true) as Hreset.
  { intros x -> -> ->. rewrite orb_true_iff, Z.gtb_ltb, !Z.ltb_lt. lia. }
  cbv zeta.
  destruct (maxCacheSize s >? 0);
    rewrite Hreset by reflexivity;
    match goal with |- context [if ?b then _ else _] => destruct b end;
    reflexivity.
Qed.

Lemma updateCache_resets_region_witness :
  window (updateCache Samples.jumped) = (0, 5, 5, 4, 9).
Proof.
  apply (updateCache_resets_region Samples.jumped).
  - discriminate.
  - discriminate.
  - vm_compute; reflexivity.
  - right. reflexivity.
Defined.

(** C5 as stated fails: with a byte budget of 0, [updateCache] clears the
    stores and returns before it looks at the region. *)
Lemma updateCache_disabled_keeps_region :
  ¬ (∀ s : ControlScreen.t,
       currentPageNumber s < first_cached s ∨ last_cached s < currentPageNumber s →
       window (updateCache s)
       = (0, currentPageNumber s, currentPageNumber s, currentPageNumber s - 1,
          numberOfPages s - 1)).
Proof.
  intros H. specialize (H Samples.disabled).
  assert (window (updateCache Samples.disabled) = (0, 0, 5, 2, 9)) as Hw
    by (vm_compute; reflexivity).
  rewrite Hw in H. discriminate H. right. reflexivity.
Qed.
End EntryFacts.

(** ** The choice of the page to render *)

Section ChoiceFacts.
Import ControlScreen.
Implicit Types (s : ControlScreen.t).



(** What [choosePage] does when the cached region reaches the last page. *)
Lemma choosePage_backward s :
  last_cached s + 1 = numberOfPages s →
  let count := CacheMap.length (presentationCache s) in
  choosePage s
  = if decide (first_cached s > first_delete s
               ∧ 3 * cacheSize s < 2 * maxCacheSize s
               ∧ (maxCacheNumber s = numberOfPages s
                  ∨ 3 * count < 2 * maxCacheNumber s))
    then cachePage (first_cached s - 1) (set_first_cached (first_cached s - 1) s)
    else stopTimer s.
Proof.
  intros Hend count. unfold choosePage. fold count.
  destruct (Z.eqb_spec (last_cached s + 1) (numberOfPages s)) as [_ | ?]; [| lia].
  destruct (Z.gtb_spec (first_cached s) (first_delete s));
    destruct (Z.gtb_spec (2 * maxCacheSize s) (3 * cacheSize s));
    destruct (Z.eqb_spec (maxCacheNumber s) (numberOfPages s));
    destruct (Z.gtb_spec (2 * maxCacheNumber s) (3 * count));
    simpl; destruct (decide _) as [Hd | Hd]; try done; exfalso; lia.
Qed.

(** *** What [cachePage] does *)












(** C7. The claim does not hold of the code for a page budget above the
    number of pages. Take a step that passes its entry tests with the budget
    met, the last page in the cached region ([last_cached + 1 =
    numberOfPages]), [first_cached > first_delete], bytes used below 2/3 of
    the byte budget, and [maxCacheNumber > numberOfPages], which is an
    unlimited page budget for the loop condition and for [freeCachePage]
    ([maxCacheNumber >= numberOfPages]). The test before the backward fill
    asks for [maxCacheNumber == numberOfPages] instead: as soon as the
    presentation store holds 2/3 of [maxCacheNumber] pages, the step stops
    the timer and renders nothing, where the claim has it render page
    [first_cached - 1]. The numbers of the tests are taken to be in the
    range of their types. *)
Theorem backward_fill_stops_above_page_count (fuel : nat)
    (s : ControlScreen.t) :
  allCached s = false → regionInconsistent s = false →
  cacheSize s ≤ maxCacheSize s →
  last_cached s + 1 = numberOfPages s →
  first_cached s > first_delete s →
  3 * cacheSize s < 2 * maxCacheSize s →
  numberOfPages s < maxCacheNumber s →
  2 * maxCacheNumber s ≤ 3 * CacheMap.length (presentationCache s) →
  choiceInRange s →
  overBudget s = false
  ∧ updateCacheStep (S fuel) s = Some (stopTimer s).
Proof.
  intros Hall Hreg Hsize Hend Hfirst Hbytes Hmany Hcount _.
  assert (overBudget s = false) as Hover.
  { unfold overBudget.
    destruct (Z.gtb_spec (cacheSize s) (maxCacheSize s)); [lia |].
    destruct (Z.ltb_spec (maxCacheNumber s) (numberOfPages s)); [lia | done]. }
  split; [done |].
  unfold updateCacheStep. rewrite Hall, Hreg. simpl. rewrite Hover.
  rewrite (choosePage_backward s Hend). cbv zeta.
  destruct (decide _) as [(_ & _ & [Heq | Hlt]) | _]; [lia | lia | done].
Qed.

Lemma backward_fill_stops_above_page_count_witness :
  updateCacheStep 1 Samples.generous = Some (stopTimer Samples.generous).
Proof.
  assert (allCached Samples.generous = false) as H1
    by (vm_compute; reflexivity).
  assert (regionInconsistent Samples.generous = false) as H2
    by (vm_compute; reflexivity).
  assert (cacheSize Samples.generous ≤ maxCacheSize Samples.generous) as H3
    by (vm_compute; discriminate).
  assert (last_cached Samples.generous + 1 = numberOfPages Samples.generous)
    as H4 by (vm_compute; reflexivity).
  assert (first_cached Samples.generous > first_delete Samples.generous) as H5
    by (vm_compute; reflexivity).
  assert (3 * cacheSize Samples.generous < 2 * maxCacheSize Samples.generous)
    as H6 by (vm_compute; reflexivity).
  assert (numberOfPages Samples.generous < maxCacheNumber Samples.generous)
    as H7 by (vm_compute; reflexivity).
  assert (2 * maxCacheNumber Samples.generous
          ≤ 3 * CacheMap.length (presentationCache Samples.generous)) as H8
    by (vm_compute; discriminate).
  assert (choiceInRange Samples.generous) as H9
    by (vm_compute; repeat split; (discriminate || reflexivity)).
  exact (proj2 (backward_fill_stops_above_page_count 0
                  Samples.generous H1 H2 H3 H4 H5 H6 H7 H8 H9)).
Defined.

(** Sample steps, run. In [Samples.tight] the loop deletes page 2
    everywhere and page 1 from two stores, and the step then renders page 2
    again; in [Samples.atEnd] the step renders page 1, before the cached
    region; in [Samples.overfull] the loop deletes page 2 everywhere and
    page 1 from two stores, and three threads start on page 2. With a page
    budget equal to the number of pages
    ([Samples.exactBudget]) the step renders page 1 before the cached
    region; with one page more allowed ([Samples.generous]) it stops. *)
Example tight_step_renders_page_2 :
  (λ s', (last_cached s', CacheMap.thread (presentationCache s'), cacheTimer s'))
    <$> updateCacheStep 20 Samples.tight
  = Some (2, Some 2, false).
Proof. vm_compute. reflexivity. Qed.

Example atEnd_step_renders_page_1 :
  (λ s', (first_cached s', CacheMap.thread (presentationCache s'), cacheTimer s'))
    <$> updateCacheStep 1 Samples.atEnd
  = Some (1, Some 1, false).
Proof. vm_compute. reflexivity. Qed.

Example overfull_step_renders_page_2 :
  (λ s', (last_cached s', CacheMap.thread (presentationCache s'),
          CacheMap.thread (notesCache s'), cacheThreadsRunning s',
          cacheTimer s'))
    <$> updateCacheStep 5 Samples.overfull
  = Some (2, Some 2, Some 2, 3, false).
Proof. vm_compute. reflexivity. Qed.

Example exactBudget_step_renders_page_1 :
  (λ s', (first_cached s', CacheMap.thread (presentationCache s'), cacheTimer s'))
    <$> updateCacheStep 1 Samples.exactBudget
  = Some (1, Some 1, false).
Proof. vm_compute. reflexivity. Qed.

Example generous_step_stops :
  (λ s', (first_cached s', CacheMap.thread (presentationCache s'), cacheTimer s'))
    <$> updateCacheStep 1 Samples.generous
  = Some (2, None, false).
Proof. vm_compute. reflexivity. Qed.
End ChoiceFacts.

(** ** Budgets of zero *)

Section BudgetSetterFacts.
Import ControlScreen.
Implicit Types (s : ControlScreen.t).

Lemma clearAllCaches_storeCount s st : storeCount st (clearAllCaches s) = 0.
Proof.
  destruct st; simpl; rewrite ?clearCache_length; try done.
  - destruct (previewCacheX s); simpl; [apply clearCache_length | done].
  - destruct (drawSlideCache s); simpl; [apply clearCache_length | done].
Qed.

(** [updateCache] with a budget of 0 clears every store. *)
Lemma updateCache_flushes s st :
  maxCacheSize s = 0 ∨ maxCacheNumber s = 0 → storeCount st (updateCache s) = 0.
Proof.
  intros Hzero. unfold updateCache.
  assert ((maxCacheSize s =? 0) || (maxCacheNumber s =? 0) = true) as ->.
  { rewrite orb_true_iff, !Z.eqb_eq. done. }
  apply clearAllCaches_storeCount.
Qed.

Lemma setCacheNumber_pageIn number s st q :
  pageIn st (setCacheNumber number s) q = pageIn st s q.
Proof.
  unfold setCacheNumber. destruct (number <? 0), (number =? 0); by destruct st.
Qed.

Lemma setCacheSize_pageIn size s st q :
  pageIn st (setCacheSize size s) q = pageIn st s q.
Proof. unfold setCacheSize. destruct (cacheSize s =? 0); by destruct st. Qed.

(** C8, as the code has it. [setCacheNumber] and [setCacheSize] leave the
    stores as they are and record the budget; with a budget of 0 recorded,
    the next [updateCache] clears every store, so that each has 0 pages.
    A negative page budget becomes the number of pages. *)
Theorem zero_budget_flushes_at_updateCache (s : ControlScreen.t) (number : Z) :
  (∀ st q, pageIn st (setCacheNumber number s) q = pageIn st s q)
  ∧ (∀ st q, pageIn st (setCacheSize number s) q = pageIn st s q)
  ∧ maxCacheNumber (setCacheNumber 0 s) = 0
  ∧ maxCacheSize (setCacheSize 0 s) = 0
  ∧ (∀ st, storeCount st (updateCache (setCacheNumber 0 s)) = 0)
  ∧ (∀ st, storeCount st (updateCache (setCacheSize 0 s)) = 0)
  ∧ (number < 0 → maxCacheNumber (setCacheNumber number s) = numberOfPages s).
Proof.
  split; [intros; apply setCacheNumber_pageIn |].
  split; [intros; apply setCacheSize_pageIn |].
  split; [done |]. split; [done |].
  split; [intros st; apply updateCache_flushes; by right |].
  split; [intros st; apply updateCache_flushes; by left |].
  intros Hneg. unfold setCacheNumber.
  by destruct (Z.ltb_spec number 0); [| lia].
Qed.

Lemma zero_budget_flushes_at_updateCache_witness :
  storeCount PresentationStore Samples.tight = 3
  ∧ storeCount PresentationStore (updateCache (setCacheNumber 0 Samples.tight)) = 0
  ∧ maxCacheNumber (setCacheNumber (-1) Samples.tight) = 10.
Proof.
  destruct (zero_budget_flushes_at_updateCache Samples.tight (-1))
    as (_ & _ & _ & _ & Hflush & _ & Hneg).
  split; [vm_compute; reflexivity |].
  split; [apply Hflush | apply Hneg; reflexivity].
Defined.

(** C8 as stated fails: setting a budget to 0 does not clear the stores;
    after [setCacheNumber(0)] and after [setCacheSize(0)] the presentation
    store of [Samples.tight] still has its 3 pages. *)
Lemma zero_budget_setter_keeps_pages :
  ¬ (∀ (s : ControlScreen.t) (st : Store),
       storeCount st (setCacheNumber 0 s) = 0
       ∧ storeCount st (setCacheSize 0 s) = 0).
Proof.
  intros H. destruct (H Samples.tight PresentationStore) as [Hn _].
  vm_compute in Hn. discriminate Hn.
Qed.
End BudgetSetterFacts.

(** ** Render results and the cache of a label *)

Section RenderResultFacts.
Context {Image : Type}.
Variable renderToImage : Z → Image.
Variables copyLeft copyRight : Image → Image.
Variable savePNG : Image → QByteArray.

Let updateCache_page :=
  PageLabel.updateCache_page renderToImage copyLeft copyRight savePNG.
Let bytesOf (l : PageLabel.t) (index : Z) : QByteArray :=
  savePNG (PageLabel.renderPart renderToImage copyLeft copyRight
             (PageLabel.pagePart l) index).

(** C9, as the code has it. A result for a page that the cache holds when
    the rendering starts, or that was written while the image was rendered,
    is not stored: the call returns 0 and leaves the cache as it found it
    at the check. When the cache holds no entry for the page at the
    second check, as after a [clearCache] during the rendering, the result
    is stored and its size returned. *)
Theorem render_result_rechecked (index : Z) (during : PageMap → PageMap)
    (l : PageLabel.t) :
  (contains (PageLabel.cache l) index = true →
   updateCache_page index during l = (l, 0))
  ∧ (contains (PageLabel.cache l) index = false →
     contains (during (PageLabel.cache l)) index = true →
     updateCache_page index during l
     = (PageLabel.set_cache (during (PageLabel.cache l)) l, 0))
  ∧ (contains (PageLabel.cache l) index = false →
     contains (during (PageLabel.cache l)) index = false →
     updateCache_page index during l
     = (PageLabel.set_cache
          (<[index := bytesOf l index]> (during (PageLabel.cache l))) l,
        byteSize (bytesOf l index)))
  ∧ (contains (PageLabel.cache l) index = false →
     PageLabel.cache (updateCache_page index (λ _, ∅) l).1 !! index
     = Some (bytesOf l index)).
Proof.
  unfold updateCache_page, bytesOf, PageLabel.updateCache_page.
  repeat split.
  - by intros ->.
  - intros -> H. simpl. by rewrite H.
  - intros -> H. simpl. by rewrite H.
  - intros ->. simpl. unfold contains. rewrite lookup_empty. simpl.
    apply lookup_insert_eq.
Qed.
End RenderResultFacts.

Section RenderResultSamples.
Import Samples.

Lemma render_result_rechecked_witness :
  PageLabel.updateCache_page render whole whole whole 3
    (λ m, <[3 := Samples.img 2]> m) PageLabel.blank
  = (PageLabel.set_cache (<[3 := Samples.img 2]> ∅) PageLabel.blank, 0)
  ∧ PageLabel.cache
      (PageLabel.updateCache_page render whole whole whole 3 (λ _, ∅)
         PageLabel.blank).1 !! 3
    = Some (Samples.img 1).
Proof.
  destruct (render_result_rechecked render whole whole whole 3
              (λ m, <[3 := Samples.img 2]> m) PageLabel.blank)
    as (_ & Hwritten & _ & _).
  destruct (render_result_rechecked render whole whole whole 3
              (λ _, ∅) PageLabel.blank)
    as (_ & _ & _ & Hcleared).
  split.
  - apply Hwritten; vm_compute; reflexivity.
  - apply Hcleared. vm_compute; reflexivity.
Defined.

(** C9 as stated fails: when the cache is cleared while page 3 is rendered
    and no new render is started, the late result is stored all the same;
    the cache holds page 3 afterwards. *)
Lemma late_result_stored_after_clear :
  ¬ (∀ (index : Z) (l : PageLabel.t),
       contains (PageLabel.cache l) index = false →
       contains
         (PageLabel.cache
            (PageLabel.updateCache_page render whole whole whole index
               (λ _, ∅) l).1) index = false).
Proof.
  intros H. specialize (H 3 PageLabel.blank).
  assert (contains (PageLabel.cache PageLabel.blank) 3 = false) as Hb
    by (vm_compute; reflexivity).
  apply H in Hb. vm_compute in Hb. discriminate Hb.
Qed.
End RenderResultSamples.

(** ** Page numbers out of range *)

Section PageChangeFacts.
Context {Image : Type}.
Variable renderToImage : Z → Image.
Variables copyLeft copyRight : Image → Image.
Variable savePNG : Image → QByteArray.
Variable isNull : Image → bool.
Variable getPage : Z → option Z.

Lemma label_renderPage_index index resized pixmap (l : PageLabel.t) :
  PageLabel.pageNumber
    (PageLabel.renderPage renderToImage copyLeft copyRight savePNG isNull
       (Some index) resized pixmap l) = index.
Proof.
  unfold PageLabel.renderPage. cbv zeta.
  destruct pixmap; [done |].
  destruct (contains _ _); [done |].
  destruct (PageLabel.useCache _); [| done].
  unfold PageLabel.updateCache_pixmap. simpl. by destruct (isNull _).
Qed.

(** C10. A page number below 0 or from [numberOfPages] on goes to the
    last page: [ControlScreen::renderPage] sets [currentPageNumber] to
    [numberOfPages - 1], and [PresentationScreen::renderPage] shows the
    last page of the document, the page that [getPage] returns for its
    index. *)
Theorem out_of_range_goes_to_last_page (pageNumber : Z)
    (full visible sizeChanged resized : bool)
    (cs : ControlScreen.t) (ps : PresentationScreen.t) :
  (pageNumber < 0 ∨ ControlScreen.numberOfPages cs ≤ pageNumber →
   ControlScreen.currentPageNumber
     (ControlScreen.renderPage pageNumber full visible sizeChanged cs)
   = ControlScreen.numberOfPages cs - 1)
  ∧ (pageNumber < 0 ∨ PresentationScreen.numPages ps ≤ pageNumber →
     getPage (PresentationScreen.numPages ps - 1)
     = Some (PresentationScreen.numPages ps - 1) →
     PresentationScreen.getPageNumber
       (PresentationScreen.renderPage renderToImage copyLeft copyRight savePNG
          isNull getPage pageNumber resized ps)
     = PresentationScreen.numPages ps - 1).
Proof.
  split.
  - intros Hout.
    assert (ControlScreen.clampPage cs pageNumber
            = ControlScreen.numberOfPages cs - 1) as Hclamp.
    { unfold ControlScreen.clampPage.
      destruct (Z.ltb_spec pageNumber 0); [done |].
      destruct (Z.geb_spec pageNumber (ControlScreen.numberOfPages cs)); [done | lia]. }
    unfold ControlScreen.renderPage. cbv zeta. rewrite Hclamp.
    destruct (negb visible); [done |].
    destruct (full && sizeChanged); [| done].
    unfold ControlScreen.recalcLayout. by destruct sizeChanged.
  - intros Hout Hlast.
    unfold PresentationScreen.renderPage, PresentationScreen.getPageNumber.
    cbv zeta.
    assert ((pageNumber <? 0)
            || (pageNumber >=? PresentationScreen.numPages ps) = true) as ->.
    { destruct (Z.ltb_spec pageNumber 0); [done |].
      destruct (Z.geb_spec pageNumber (PresentationScreen.numPages ps));
        [done | lia]. }
    rewrite Hlast. cbn [PresentationScreen.label]. apply label_renderPage_index.
Qed.
End PageChangeFacts.

Section PageChangeSamples.
Import Samples.

Lemma out_of_range_goes_to_last_page_witness :
  ControlScreen.currentPageNumber
    (ControlScreen.renderPage (-1) true true false jumped) = 9
  ∧ PresentationScreen.getPageNumber
      (PresentationScreen.renderPage render whole whole whole null getPage10
         12 false showing4) = 9.
Proof.
  destruct (out_of_range_goes_to_last_page render whole whole whole null
              getPage10 (-1) true true false false jumped showing4) as [Hcs _].
  destruct (out_of_range_goes_to_last_page render whole whole whole null
              getPage10 12 true true false false jumped showing4) as [_ Hps].
  split.
  - apply Hcs. left. reflexivity.
  - apply Hps; [right; vm_compute; discriminate | reflexivity].
Defined.
End PageChangeSamples.

(** * Further properties of the code *)

(** ** The cache of a label *)

Section LabelCacheFacts.
Implicit Types (l : PageLabel.t) (index : Z) (bytes : QByteArray).

Lemma set_cache_same l : PageLabel.set_cache (PageLabel.cache l) l = l.
Proof. by destruct l. Qed.

(** X1. [clearCachePage] reports exactly the bytes it frees: the size of the
    cache drops by the returned value, the page is gone afterwards and no
    other page is touched; for a page that is not cached it returns 0 and
    changes nothing. *)
Theorem clearCachePage_frees_what_it_reports index l :
  let r := PageLabel.clearCachePage index l in
  PageLabel.getCacheSize r.1 = PageLabel.getCacheSize l - r.2
  ∧ 0 ≤ r.2
  ∧ PageLabel.cache r.1 !! index = None
  ∧ (∀ q, q ≠ index → PageLabel.cache r.1 !! q = PageLabel.cache l !! q)
  ∧ (PageLabel.cache l !! index = None → r = (l, 0)).
Proof.
  unfold PageLabel.clearCachePage, PageLabel.getCacheSize.
  destruct (PageLabel.cache l !! index) as [b|] eqn:Hb; simpl.
  - split; [by apply sumBytes_delete |].
    split; [apply byteSize_nonneg |].
    split; [apply lookup_delete_eq |].
    split; [| done]. intros q Hq. by apply lookup_delete_ne.
  - repeat split; try done; lia.
Qed.

(** X2. Bytes written with [updateCache(bytes, index)] are the bytes that
    [getCachedBytes] returns and whose size [clearCachePage] reports; when
    the page was not cached before, deleting it again restores the label.
    A null pointer or an empty array changes nothing. *)
Theorem stored_bytes_come_back index bytes l :
  bytes ≠ [] →
  let l1 := (PageLabel.updateCache_bytes (Some bytes) index l).1 in
  PageLabelCache.getCachedBytes index l1 = bytes
  ∧ (PageLabel.clearCachePage index l1).2 = byteSize bytes
  ∧ (PageLabel.cache l !! index = None →
     (PageLabel.clearCachePage index l1).1 = l)
  ∧ PageLabel.updateCache_bytes None index l = (l, 0)
  ∧ PageLabel.updateCache_bytes (Some []) index l = (l, 0).
Proof.
  intros Hne.
  unfold PageLabel.updateCache_bytes, PageLabelCache.getCachedBytes,
    PageLabel.clearCachePage.
  destruct bytes as [| b0 bytes]; [done |]. simpl.
  rewrite !lookup_insert_eq. simpl.
  repeat split; try done.
  intros Hnone. destruct l as [i c u part]. simpl in *.
  unfold PageLabel.set_cache. simpl.
  by rewrite delete_insert_eq, delete_id.
Qed.

Lemma stored_bytes_come_back_witness :
  PageLabelCache.getCachedBytes 3
    (PageLabel.updateCache_bytes (Some (Samples.img 2)) 3 PageLabel.blank).1
  = Samples.img 2.
Proof.
  apply (stored_bytes_come_back 3 (Samples.img 2) PageLabel.blank).
  discriminate.
Defined.

(** X3. The value that [updateCache(bytes, index)] returns is the size of
    the new bytes also when it replaces an entry: the cache then grows by
    less than the returned value, by the size of the bytes replaced. *)
Theorem replacing_reports_full_size index bytes l :
  bytes ≠ [] →
  let r := PageLabel.updateCache_bytes (Some bytes) index l in
  r.2 = byteSize bytes
  ∧ PageLabel.getCacheSize r.1
    = PageLabel.getCacheSize l + r.2
      - byteSize (PageLabelCache.getCachedBytes index l).
Proof.
  intros Hne.
  unfold PageLabel.updateCache_bytes, PageLabelCache.getCachedBytes,
    PageLabel.getCacheSize.
  destruct bytes as [| b0 bytes]; [done |]. simpl. split; [done |].
  destruct (PageLabel.cache l !! index) as [old|] eqn:Hold.
  - rewrite <- (insert_delete_id (PageLabel.cache l) index old Hold) at 1.
    rewrite insert_insert_eq.
    rewrite sumBytes_insert by apply lookup_delete_eq.
    rewrite (sumBytes_delete _ _ old Hold). lia.
  - rewrite sumBytes_insert by done.
    change (byteSize []) with 0. lia.
Qed.

Lemma replacing_reports_full_size_witness :
  let l := (PageLabel.updateCache_bytes (Some (Samples.img 5)) 3
              PageLabel.blank).1 in
  let r := PageLabel.updateCache_bytes (Some (Samples.img 2)) 3 l in
  r.2 = 2 ∧ PageLabel.getCacheSize l = 5 ∧ PageLabel.getCacheSize r.1 = 2.
Proof.
  intros l r.
  assert (Samples.img 2 ≠ []) as Hne by discriminate.
  destruct (replacing_reports_full_size 3 (Samples.img 2) l Hne) as [H1 H2].
  split; [exact H1 |]. split; vm_compute; reflexivity.
Defined.
End LabelCacheFacts.

Section LabelRenderFacts.
Context {Image : Type}.
Variable renderToImage : Z → Image.
Variables copyLeft copyRight : Image → Image.
Variable savePNG : Image → QByteArray.
Variable isNull : Image → bool.
Implicit Types (l : PageLabel.t) (index : Z).

(** X4. Rendering a page to the cache of a label with nothing else
    touching the cache: the returned size is what the cache grows by, the
    page is cached afterwards, and a second call returns 0 and changes
    nothing. *)
Theorem updateCache_page_once index l :
  let updateCache :=
    PageLabel.updateCache_page renderToImage copyLeft copyRight savePNG index
      (λ m, m) in
  let r := updateCache l in
  PageLabel.getCacheSize r.1 = PageLabel.getCacheSize l + r.2
  ∧ contains (PageLabel.cache r.1) index = true
  ∧ updateCache r.1 = (r.1, 0).
Proof.
  unfold PageLabel.updateCache_page, PageLabel.getCacheSize. simpl.
  destruct (contains (PageLabel.cache l) index) eqn:Hc; simpl.
  - rewrite Hc. split; [lia | done].
  - assert (contains
              (<[index:=savePNG
                          (PageLabel.renderPart renderToImage copyLeft copyRight
                             (PageLabel.pagePart l) index)]>
                 (PageLabel.cache l)) index = true) as Hin.
    { unfold contains. by rewrite lookup_insert_eq. }
    rewrite Hin. split; [| done].
    apply sumBytes_insert. by apply contains_false.
Qed.

(** X5. What showing a page does to the cache of the label. A label whose
    size has not changed never loses or replaces a cached page; a label
    whose size has changed keeps no other page than the one shown. A label
    that uses its cache and gets no pixmap from the caller holds the page
    shown afterwards, provided the page renders to a pixmap that is not
    null; when the pixmap rendered is null nothing is stored. A null page
    changes nothing. *)
Theorem renderPage_cache index resized (pixmap : option Image) l :
  let render :=
    PageLabel.renderPage renderToImage copyLeft copyRight savePNG isNull in
  let l' := render (Some index) resized pixmap l in
  let image :=
    PageLabel.renderPart renderToImage copyLeft copyRight
      (PageLabel.pagePart l) index in
  (if resized
   then ∀ q, q ≠ index → PageLabel.cache l' !! q = None
   else ∀ q b, PageLabel.cache l !! q = Some b →
               PageLabel.cache l' !! q = Some b)
  ∧ (pixmap = None → PageLabel.useCache l = true → isNull image = false →
     contains (PageLabel.cache l') index = true)
  ∧ (pixmap = None → isNull image = true →
     PageLabel.cache l' = if resized then ∅ else PageLabel.cache l)
  ∧ render None resized pixmap l = l.
Proof.
  assert (contains (∅ : PageMap) index = false) as Hempty
    by (unfold contains; by rewrite lookup_empty).
  unfold PageLabel.renderPage, PageLabel.updateCache_pixmap. cbv zeta.
  split; [| split; [| split; [| done]]].
  - destruct resized, pixmap as [pm|]; simpl; rewrite ?Hempty; try done.
    + destruct (PageLabel.useCache l); simpl; [| done].
      destruct (isNull _); simpl; [done |].
      intros q Hq. by rewrite lookup_insert_ne.
    + destruct (contains (PageLabel.cache l) index) eqn:Hc; [done |].
      destruct (PageLabel.useCache l); simpl; [| done].
      destruct (isNull _); simpl; [done |].
      intros q b Hq. destruct (decide (q = index)) as [-> | Hne].
      * apply contains_false in Hc. congruence.
      * by rewrite lookup_insert_ne.
  - intros -> Huse Hnull.
    destruct resized; simpl; rewrite ?Huse, ?Hempty.
    + simpl. rewrite Hnull. simpl. unfold contains. by rewrite lookup_insert_eq.
    + destruct (contains (PageLabel.cache l) index) eqn:Hc; [done |].
      simpl. rewrite Hnull. simpl. unfold contains. by rewrite lookup_insert_eq.
  - intros -> Hnull.
    destruct resized; simpl; rewrite ?Hempty.
    + destruct (PageLabel.useCache l); simpl; [| done]. by rewrite Hnull.
    + destruct (contains (PageLabel.cache l) index); [done |].
      destruct (PageLabel.useCache l); simpl; [| done]. by rewrite Hnull.
Qed.
End LabelRenderFacts.

(** ** Keys on the presentation screen *)

Section PresentationKeyFacts.
Context {Image : Type}.
Variable renderToImage : Z → Image.
Variables copyLeft copyRight : Image → Image.
Variable savePNG : Image → QByteArray.
Variable isNull : Image → bool.
Variable getPage : Z → option Z.
Implicit Types (s : PresentationScreen.t).

Let renderPage :=
  PresentationScreen.renderPage renderToImage copyLeft copyRight savePNG isNull getPage.
Let updateCache :=
  PresentationScreen.updateCache renderToImage copyLeft copyRight savePNG getPage.
Let keyPressEvent :=
  PresentationScreenKeys.keyPressEvent renderToImage copyLeft copyRight savePNG isNull
    getPage.

(** The document has the pages 0 to [numPages - 1]. *)
Let pagesExist s : Prop :=
  ∀ i, 0 ≤ i < PresentationScreen.numPages s → getPage i = Some i.

Lemma presentation_renderPage_shows pageNumber resized s :
  pagesExist s → 0 < PresentationScreen.numPages s →
  PresentationScreen.getPageNumber (renderPage pageNumber resized s)
  = (if (pageNumber <? 0) || (pageNumber >=? PresentationScreen.numPages s)
     then PresentationScreen.numPages s - 1 else pageNumber)
  ∧ PresentationScreen.numPages (renderPage pageNumber resized s)
    = PresentationScreen.numPages s.
Proof.
  intros Hpages HN.
  unfold renderPage, PresentationScreen.renderPage,
    PresentationScreen.getPageNumber. cbv zeta.
  destruct (Z.ltb_spec pageNumber 0);
    destruct (Z.geb_spec pageNumber (PresentationScreen.numPages s)); simpl;
    rewrite Hpages by lia; split; try done;
    cbn [PresentationScreen.label]; apply label_renderPage_index.
Qed.

Lemma presentation_updateCache_page during s :
  PresentationScreen.getPageNumber (updateCache during s)
  = PresentationScreen.getPageNumber s
  ∧ PresentationScreen.numPages (updateCache during s)
    = PresentationScreen.numPages s.
Proof.
  unfold updateCache, PresentationScreen.updateCache,
    PresentationScreen.getPageNumber. cbv zeta.
  destruct (_ <? _); [| done].
  destruct (getPage _) as [index|]; [| done]. simpl. split; [| done].
  unfold PageLabel.updateCache_page, PageLabel.pageNumber.
  destruct (contains _ _); [done |]. simpl. by destruct (contains _ _).
Qed.

(** X6. The keys that change the page on the presentation screen, on
    page [p] of a document with pages 0 to [numPages - 1]: forward goes to
    the next page and stays on the last one; backward goes to the page
    before, and from page 0 to the last page; space shows page [p] again. *)
Theorem arrow_keys_move_one_page key resized during s :
  pagesExist s →
  0 ≤ PresentationScreen.getPageNumber s < PresentationScreen.numPages s →
  let p := PresentationScreen.getPageNumber s in
  let n := PresentationScreen.numPages s in
  let s' := keyPressEvent key resized during s in
  match key with
  | PresentationScreenKeys.KeyForward =>
      PresentationScreen.getPageNumber s' = Z.min (p + 1) (n - 1)
  | PresentationScreenKeys.KeyBackward =>
      PresentationScreen.getPageNumber s' = (if p =? 0 then n - 1 else p - 1)
  | PresentationScreenKeys.KeySpace => PresentationScreen.getPageNumber s' = p
  end.
Proof.
  intros Hpages Hp p n s'. subst s'.
  assert (0 < n) as HN by (subst p n; lia).
  unfold keyPressEvent, PresentationScreenKeys.keyPressEvent.
  fold renderPage updateCache.
  change (PageLabel.pageNumber (PresentationScreen.label s)) with p.
  destruct key; try done;
    match goal with
    | |- context [renderPage ?q resized s] =>
        destruct (presentation_updateCache_page during (renderPage q resized s))
          as [-> _];
        destruct (presentation_renderPage_shows q resized s Hpages HN)
          as [-> _]
    end; fold n.
  - destruct (Z.ltb_spec (p + 1) 0); [lia |].
    destruct (Z.geb_spec (p + 1) n); simpl; lia.
  - destruct (Z.eqb_spec p 0) as [-> | Hne]; [done |].
    destruct (Z.ltb_spec (p - 1) 0); [lia |].
    destruct (Z.geb_spec (p - 1) n); simpl; lia.
  - destruct (Z.ltb_spec p 0); [lia |].
    destruct (Z.geb_spec p n); simpl; lia.
Qed.

(** X7. After a key that shows a page, with nothing else touching the cache
    of the label, the page after the one shown is in the cache whenever
    there is one: the presentation screen renders one page ahead. *)
Theorem page_ahead_is_cached key resized s :
  pagesExist s →
  0 ≤ PresentationScreen.getPageNumber s < PresentationScreen.numPages s →
  key = PresentationScreenKeys.KeyForward
  ∨ key = PresentationScreenKeys.KeyBackward
  ∨ key = PresentationScreenKeys.KeySpace →
  let s' := keyPressEvent key resized (λ m, m) s in
  PresentationScreen.getPageNumber s' + 1 < PresentationScreen.numPages s' →
  contains (PageLabel.cache (PresentationScreen.label s'))
    (PresentationScreen.getPageNumber s' + 1) = true.
Proof.
  intros Hpages Hp Hkey s'.
  assert (0 < PresentationScreen.numPages s) as HN by lia.
  assert (∀ q, let s1 := renderPage q resized s in
               let s2 := updateCache (λ m, m) s1 in
               PresentationScreen.getPageNumber s2 + 1
               < PresentationScreen.numPages s2 →
               contains (PageLabel.cache (PresentationScreen.label s2))
                 (PresentationScreen.getPageNumber s2 + 1) = true) as Hahead.
  { intros q s1 s2.
    destruct (presentation_updateCache_page (λ m, m) s1) as [Hpage Hnum].
    fold s2 in Hpage, Hnum. rewrite Hpage, Hnum.
    destruct (presentation_renderPage_shows q resized s Hpages HN) as [Hq Hn1].
    fold s1 in Hq, Hn1. intros Hlt.
    assert (getPage (PresentationScreen.getPageNumber s1 + 1)
            = Some (PresentationScreen.getPageNumber s1 + 1)) as Hget.
    { apply Hpages. rewrite <- Hn1. split; [| done].
      rewrite Hq. destruct (Z.ltb_spec q 0); simpl; [lia |].
      destruct (Z.geb_spec q (PresentationScreen.numPages s)); lia. }
    subst s2. unfold updateCache, PresentationScreen.updateCache. cbv zeta.
    change (PageLabel.pageNumber (PresentationScreen.label s1))
      with (PresentationScreen.getPageNumber s1).
    apply Z.ltb_lt in Hlt. rewrite Hlt, Hget. simpl.
    unfold PageLabel.updateCache_page. simpl.
    destruct (contains (PageLabel.cache (PresentationScreen.label s1)) _) eqn:Hc.
    - done.
    - simpl. unfold contains. by rewrite lookup_insert_eq. }
  subst s'. unfold keyPressEvent, PresentationScreenKeys.keyPressEvent.
  fold renderPage updateCache.
  destruct Hkey as [-> | [-> | ->]]; apply Hahead.
Qed.

End PresentationKeyFacts.

Section PresentationKeySamples.
Import Samples.

Lemma getPage10_pages i : 0 ≤ i < 10 → getPage10 i = Some i.
Proof.
  intros Hi. unfold getPage10.
  destruct (Z.leb_spec 0 i); [| lia]. destruct (Z.ltb_spec i 10); [done | lia].
Qed.

Lemma arrow_keys_move_one_page_witness :
  PresentationScreen.getPageNumber
    (PresentationScreenKeys.keyPressEvent render whole whole whole null
       getPage10 PresentationScreenKeys.KeyForward false (λ m, m) showing4)
  = Z.min (4 + 1) (10 - 1).
Proof.
  apply (arrow_keys_move_one_page render whole whole whole null getPage10
           PresentationScreenKeys.KeyForward false (λ m, m) showing4).
  - intros i Hi. by apply getPage10_pages.
  - vm_compute. split; [discriminate | reflexivity].
Defined.

Lemma page_ahead_is_cached_witness :
  contains
    (PageLabel.cache
       (PresentationScreen.label
          (PresentationScreenKeys.keyPressEvent render whole whole whole null
             getPage10 PresentationScreenKeys.KeyBackward false (λ m, m)
             showing4)))
    4 = true.
Proof.
  apply (page_ahead_is_cached render whole whole whole null getPage10
           PresentationScreenKeys.KeyBackward false showing4).
  - intros i Hi. by apply getPage10_pages.
  - vm_compute. split; [discriminate | reflexivity].
  - right. left. reflexivity.
  - vm_compute. reflexivity.
Defined.
End PresentationKeySamples.

(** ** Page changes on the control screen *)

Section ControlPageFacts.
Import ControlScreen ControlScreenEvents.
Implicit Types (s : ControlScreen.t).

Lemma renderPage_page pageNumber full visible sizeChanged s :
  currentPageNumber (ControlScreen.renderPage pageNumber full visible sizeChanged s)
  = clampPage s pageNumber
  ∧ numberOfPages (ControlScreen.renderPage pageNumber full visible sizeChanged s)
    = numberOfPages s.
Proof.
  unfold ControlScreen.renderPage. cbv zeta.
  destruct (negb visible); [done |].
  destruct (full && sizeChanged); [| done].
  unfold recalcLayout. by destruct sizeChanged.
Qed.

Lemma updateCache_page s :
  currentPageNumber (ControlScreen.updateCache s) = currentPageNumber s
  ∧ numberOfPages (ControlScreen.updateCache s) = numberOfPages s.
Proof.
  unfold ControlScreen.updateCache. cbv zeta.
  destruct (_ || _); [done |].
  destruct (allCached _); [done |].
  destruct (maxCacheSize _ >? 0);
    repeat match goal with |- context [if ?b then _ else _] => destruct b end;
    done.
Qed.

Lemma clampPage_range s pageNumber :
  0 < numberOfPages s →
  0 ≤ clampPage s pageNumber < numberOfPages s
  ∧ (0 ≤ pageNumber < numberOfPages s → clampPage s pageNumber = pageNumber).
Proof.
  intros HN. unfold clampPage.
  destruct (Z.ltb_spec pageNumber 0);
    destruct (Z.geb_spec pageNumber (numberOfPages s)); simpl; lia.
Qed.

(** X8. In a document that has pages, [renderPage] with any page number
    leaves [currentPageNumber] inside the document, equal to the number asked
    for when that is inside; the two previews then show pages inside the
    document as well: the current page and the next one, the last page
    standing in for a page after the last. *)
Theorem renderPage_stays_in_document pageNumber full visible sizeChanged
    drawSlideShown s :
  0 < numberOfPages s →
  let s' := ControlScreen.renderPage pageNumber full visible sizeChanged s in
  let n := numberOfPages s in
  0 ≤ currentPageNumber s' < n
  ∧ (0 ≤ pageNumber < n → currentPageNumber s' = pageNumber)
  ∧ 0 ≤ (previewPages drawSlideShown s').1 < n
  ∧ 0 ≤ (previewPages drawSlideShown s').2 < n
  ∧ previewPages false s'
    = (currentPageNumber s', Z.min (currentPageNumber s' + 1) (n - 1)).
Proof.
  intros HN s' n.
  destruct (renderPage_page pageNumber full visible sizeChanged s) as [Hp Hn].
  fold s' in Hp, Hn. destruct (clampPage_range s pageNumber HN) as [Hr Hid].
  rewrite <- Hp in Hr, Hid. fold n in Hr, Hid.
  split; [done |]. split; [done |].
  unfold previewPages, PreviewSlide.renderPage. rewrite Hn. fold n.
  repeat split; destruct drawSlideShown; simpl;
    repeat match goal with
           | |- context [?a <? ?b] => destruct (Z.ltb_spec a b)
           | |- context [?a >=? ?b] => destruct (Z.geb_spec a b)
           end; try lia; f_equal; lia.
Qed.

Lemma renderPage_stays_in_document_witness :
  let s' := ControlScreen.renderPage 12 true true false Samples.jumped in
  currentPageNumber s' = 9 ∧ previewPages false s' = (9, 9).
Proof.
  intros s'.
  assert (0 < numberOfPages Samples.jumped) as HN by reflexivity.
  destruct (renderPage_stays_in_document 12 true true false false
              Samples.jumped HN) as (_ & _ & _ & _ & Hprev).
  fold s' in Hprev. split; [reflexivity | exact Hprev].
Defined.

(** X9. The key actions for the next and the previous notes page. While
    the overview is shown and the table of contents is not, they only move
    the focus in the overview and the state stays as it is. Otherwise, with
    the window visible, they stop at the ends of the document: from page [p]
    they go to [min(p+1, n-1)] and to [max(p-1, 0)]; with the window hidden
    they do nothing. *)
Theorem notes_keys_stop_at_the_ends tocVisible overviewVisible full
    sizeChanged s :
  0 ≤ currentPageNumber s < numberOfPages s →
  let p := currentPageNumber s in
  let n := numberOfPages s in
  let next := keyNextNotes tocVisible overviewVisible full in
  let previous := keyPreviousNotes tocVisible overviewVisible full in
  (negb tocVisible && overviewVisible = false →
   currentPageNumber (next true sizeChanged s) = Z.min (p + 1) (n - 1)
   ∧ currentPageNumber (previous true sizeChanged s) = Z.max (p - 1) 0)
  ∧ (negb tocVisible && overviewVisible = true →
     ∀ visible, next visible sizeChanged s = s
                ∧ previous visible sizeChanged s = s)
  ∧ next false sizeChanged s = s
  ∧ previous false sizeChanged s = s.
Proof.
  intros Hp p n next previous. subst p n next previous.
  unfold keyNextNotes, keyPreviousNotes. cbv zeta.
  destruct (negb tocVisible && overviewVisible);
    [repeat split; done |].
  split; [intros _ | repeat split; done]. split.
  - match goal with
    | |- context [ControlScreen.renderPage ?q _ _ _ ?x] =>
        destruct (renderPage_page q full true sizeChanged x) as [-> _]
    end.
    unfold clampPage. simpl.
    destruct (Z.ltb_spec (currentPageNumber s + 1) 0); [lia |].
    destruct (Z.geb_spec (currentPageNumber s + 1) (numberOfPages s)); simpl; lia.
  - destruct (Z.gtb_spec (currentPageNumber s) 0); [| lia].
    match goal with
    | |- context [ControlScreen.renderPage ?q _ _ _ ?x] =>
        destruct (renderPage_page q full true sizeChanged x) as [-> _]
    end.
    unfold clampPage. simpl.
    destruct (Z.ltb_spec (currentPageNumber s - 1) 0); [lia |].
    destruct (Z.geb_spec (currentPageNumber s - 1) (numberOfPages s)); simpl; lia.
Qed.

Lemma notes_keys_stop_at_the_ends_witness :
  currentPageNumber (keyNextNotes true true true true false Samples.atEnd) = 2
  ∧ currentPageNumber
      (keyPreviousNotes true true true true false Samples.atEnd) = 1
  ∧ keyNextNotes false true true true false Samples.atEnd = Samples.atEnd.
Proof.
  assert (0 ≤ currentPageNumber Samples.atEnd < numberOfPages Samples.atEnd)
    as Hp by (vm_compute; split; [discriminate | reflexivity]).
  destruct (notes_keys_stop_at_the_ends true true true false Samples.atEnd Hp)
    as (Hshown & _).
  destruct (notes_keys_stop_at_the_ends false true true false Samples.atEnd Hp)
    as (_ & Hoverview & _).
  destruct (Hshown eq_refl) as [Hnext Hprev].
  destruct (Hoverview eq_refl true) as [Hstay _].
  exact (conj Hnext (conj Hprev Hstay)).
Defined.

(** X10. Link actions clicked in a preview that shows page [p] of a
    document with pages: "next page" goes to [min(p+1, n-1)], "first page"
    to page 0, "last page" to page [n-1], and "previous page" to [p-1] but
    from page 0 to the last page, because the number -1 that it sends means
    the last page. The other actions do not change the state. *)
Theorem link_actions_land action pageIndex visible sizeChanged s :
  0 ≤ pageIndex < numberOfPages s →
  let n := numberOfPages s in
  let s' := linkActionClicked action pageIndex visible sizeChanged s in
  match action with
  | PreviewSlide.PageNext => currentPageNumber s' = Z.min (pageIndex + 1) (n - 1)
  | PreviewSlide.PagePrev =>
      currentPageNumber s' = (if pageIndex =? 0 then n - 1 else pageIndex - 1)
  | PreviewSlide.PageFirst => currentPageNumber s' = 0
  | PreviewSlide.PageLast => currentPageNumber s' = n - 1
  | _ => s' = s
  end.
Proof.
  intros Hp n s'. subst s'. unfold linkActionClicked.
  destruct action; simpl; try done; unfold receiveNewPageNumber;
    match goal with
    | |- context [ControlScreen.renderPage ?q ?f ?v ?c s] =>
        destruct (updateCache_page (ControlScreen.renderPage q f v c s)) as [-> _];
        destruct (renderPage_page q f v c s) as [-> _]
    end; unfold clampPage; fold n.
  - destruct (Z.ltb_spec (pageIndex + 1) 0); [lia |].
    destruct (Z.geb_spec (pageIndex + 1) n); simpl; lia.
  - destruct (Z.eqb_spec pageIndex 0) as [-> | Hne]; [done |].
    destruct (Z.ltb_spec (pageIndex - 1) 0); [lia |].
    destruct (Z.geb_spec (pageIndex - 1) n); simpl; lia.
  - destruct (Z.geb_spec 0 n); simpl; lia.
  - done.
Qed.

Lemma link_actions_land_witness :
  currentPageNumber
    (linkActionClicked PreviewSlide.PagePrev 0 true false Samples.jumped) = 9.
Proof.
  apply (link_actions_land PreviewSlide.PagePrev 0 true false Samples.jumped).
  vm_compute. split; [discriminate | reflexivity].
Defined.
End ControlPageFacts.

(** ** Scrolling *)

Section WheelFacts.
Import ControlScreen ControlScreenEvents.
Implicit Types (w : Wheel) (s : ControlScreen.t).

Lemma touchpadPages_spec delta w :
  0 < scrollDelta w →
  ∃ r, touchpadPages delta w = Some r
       ∧ scrollState r.1 + scrollDelta w * r.2 = scrollState w + delta
       ∧ - 2 * scrollDelta w < scrollState r.1 < scrollDelta w
       ∧ (0 < r.2 ↔ scrollDelta w ≤ scrollState w + delta)
       ∧ (r.2 < 0 ↔ scrollState w + delta ≤ - 2 * scrollDelta w)
       ∧ scrollDelta r.1 = scrollDelta w
       ∧ forceIsTouchpad r.1 = forceIsTouchpad w.
Proof.
  intros Hd. unfold touchpadPages. cbv zeta.
  destruct (Z.eqb_spec (scrollDelta w) 0) as [H0 | _]; [lia |].
  eexists. split; [reflexivity |]. simpl.
  set (state := scrollState w + delta). set (d := scrollDelta w) in *.
  pose proof (Z.quot_rem' state d) as Hqr.
  assert (0 ≤ state → 0 ≤ Z.rem state d < d) as Hpos
    by (intros; by apply Z.rem_bound_pos).
  assert (state ≤ 0 → - d < Z.rem state d ≤ 0) as Hneg.
  { intros Hs. pose proof (Z.rem_opp_l' state d) as Hopp.
    pose proof (Z.rem_bound_pos (- state) d). lia. }
  assert (0 ≤ state → 0 ≤ Z.quot state d) as Hq1
    by (intros; apply Z.quot_pos; lia).
  assert (state ≤ 0 → Z.quot state d ≤ 0) as Hq2.
  { intros Hs. pose proof (Z.quot_opp_l state d ltac:(lia)) as Hopp.
    pose proof (Z.quot_pos (- state) d). lia. }
  destruct (Z.ltb_spec (Z.quot state d) 0) as [Hlt | Hge];
    repeat split; try done; nia.
Qed.

(** X11. Scrolling by touch pad loses no distance: with [scrollDelta]
    above 0 there is a result; the state left over plus the pages taken out
    is the old state plus the distance, and the state left over is always
    above minus twice [scrollDelta] and below [scrollDelta]. Pages forward
    are taken out from a state of [scrollDelta] on, pages backward only from
    minus twice [scrollDelta] on. *)
Theorem touchpad_scroll_keeps_distance pixelDeltaY angleDeltaY w :
  0 < scrollDelta w →
  pixelDeltaY ≠ 0 ∨ forceIsTouchpad w = true →
  let delta := if pixelDeltaY =? 0 then - angleDeltaY else - pixelDeltaY in
  ∃ r, wheelPages pixelDeltaY angleDeltaY w = Some r
       ∧ scrollState r.1 + scrollDelta w * r.2 = scrollState w + delta
       ∧ - 2 * scrollDelta w < scrollState r.1 < scrollDelta w
       ∧ (0 < r.2 ↔ scrollDelta w ≤ scrollState w + delta)
       ∧ (r.2 < 0 ↔ scrollState w + delta ≤ - 2 * scrollDelta w).
Proof.
  intros Hd Htouch delta. subst delta. unfold wheelPages. cbv zeta.
  destruct (Z.eqb_spec pixelDeltaY 0) as [-> | Hpx].
  - destruct Htouch as [? | ->]; [done |]. simpl.
    destruct (touchpadPages_spec (- angleDeltaY) w Hd)
      as (r & Hr & H1 & H2 & H3 & H4 & _).
    exists r. done.
  - assert ((- pixelDeltaY =? 0) = false) as -> by (apply Z.eqb_neq; lia).
    simpl.
    destruct (touchpadPages_spec (- pixelDeltaY) w Hd)
      as (r & Hr & H1 & H2 & H3 & H4 & _).
    exists r. done.
Qed.

Lemma touchpad_scroll_keeps_distance_witness :
  ∃ r, wheelPages (-50) 0 MoreSamples.wheel10 = Some r
       ∧ scrollState r.1 + 30 * r.2 = 10 + 50 ∧ 0 < r.2.
Proof.
  assert (0 < scrollDelta MoreSamples.wheel10) as Hd by reflexivity.
  assert (-50 ≠ 0 ∨ forceIsTouchpad MoreSamples.wheel10 = true) as Ht
    by (left; discriminate).
  destruct (touchpad_scroll_keeps_distance (-50) 0 MoreSamples.wheel10 Hd Ht)
    as (r & Hr & H1 & _ & H3 & _).
  exists r. split; [exact Hr |]. split; [exact H1 |].
  apply H3. vm_compute. discriminate.
Defined.

(** X12. Scrolling by mouse wheel (no pixel distance, touch pad not forced)
    moves one page for every full 120 units of angle and at least one page
    for any angle that is not 0, against the sign of the angle; the scroll
    state is not used. *)
Theorem mouse_wheel_pages angleDeltaY w :
  forceIsTouchpad w = false →
  wheelPages 0 angleDeltaY w
  = Some (w, - Z.sgn angleDeltaY * Z.max 1 (Z.quot (Z.abs angleDeltaY) 120)).
Proof.
  intros Hforce. unfold wheelPages. cbv zeta. simpl. rewrite Hforce.
  f_equal. f_equal. unfold mousePages.
  destruct (Z.gtb_spec (- angleDeltaY) 120);
    [| destruct (Z.gtb_spec (- angleDeltaY) 0);
       [| destruct (Z.ltb_spec (- angleDeltaY) (-120));
          [| destruct (Z.ltb_spec (- angleDeltaY) 0)]]].
  - replace (Z.abs angleDeltaY) with (- angleDeltaY) by lia.
    pose proof (Z.quot_le_lower_bound (- angleDeltaY) 120 1). lia.
  - replace (Z.quot (Z.abs angleDeltaY) 120) with
      (if decide (Z.abs angleDeltaY = 120) then 1 else 0).
    + destruct (decide _); lia.
    + destruct (decide _) as [-> | Hne]; [done |].
      symmetry. apply Z.quot_small. lia.
  - replace (- - angleDeltaY) with angleDeltaY by lia.
    replace (Z.abs angleDeltaY) with angleDeltaY by lia.
    pose proof (Z.quot_le_lower_bound angleDeltaY 120 1). lia.
  - replace (Z.quot (Z.abs angleDeltaY) 120) with
      (if decide (Z.abs angleDeltaY = 120) then 1 else 0).
    + destruct (decide _); lia.
    + destruct (decide _) as [-> | Hne]; [done |].
      symmetry. apply Z.quot_small. lia.
  - assert (angleDeltaY = 0) as -> by lia. done.
Qed.

Lemma mouse_wheel_pages_witness :
  wheelPages 0 (-250) MoreSamples.wheel10 = Some (MoreSamples.wheel10, 2).
Proof.
  apply (mouse_wheel_pages (-250) MoreSamples.wheel10). reflexivity.
Defined.

Lemma wheelPages_returns pixelDeltaY angleDeltaY w :
  scrollDelta w ≠ 0 ∨ (pixelDeltaY = 0 ∧ forceIsTouchpad w = false) →
  is_Some (wheelPages pixelDeltaY angleDeltaY w).
Proof.
  intros Hok. unfold wheelPages, touchpadPages. cbv zeta.
  destruct (Z.eqb_spec (scrollDelta w) 0) as [H0 | Hne].
  - destruct Hok as [? | [-> ->]]; [done |]. simpl. by eexists.
  - destruct (negb _); [by eexists |].
    destruct (forceIsTouchpad w); by eexists.
Qed.

(** X13. Scrolling never leaves the document and never wraps around.
    When the number of pages to move can be computed (the wheel is a mouse
    wheel, or [scrollDelta] is not 0), [wheelEvent] has a result: from page
    [p] of a document with [n] pages it goes to the page [p + deltaPages] cut
    to [0 .. n-1]; when that page would be before page 0, [updateCache] is
    not called: the region, the delete boundaries and the timer are left as
    they are. With a touch pad and [scrollDelta] equal to 0 the source
    divides by zero, and there is no result. *)
Theorem wheel_never_leaves_document pixelDeltaY angleDeltaY full visible
    sizeChanged w s :
  0 ≤ currentPageNumber s < numberOfPages s →
  (scrollDelta w ≠ 0 ∨ (pixelDeltaY = 0 ∧ forceIsTouchpad w = false) →
   ∃ w' deltaPages s',
     wheelPages pixelDeltaY angleDeltaY w = Some (w', deltaPages)
     ∧ wheelEvent pixelDeltaY angleDeltaY full visible sizeChanged w s
       = Some (w', s')
     ∧ currentPageNumber s'
       = Z.max 0
           (Z.min (numberOfPages s - 1) (currentPageNumber s + deltaPages))
     ∧ (currentPageNumber s + deltaPages < 0 →
        (first_delete s', first_cached s', last_cached s', last_delete s',
         cacheTimer s')
        = (first_delete s, first_cached s, last_cached s, last_delete s,
           cacheTimer s)))
  ∧ (scrollDelta w = 0 → pixelDeltaY ≠ 0 ∨ forceIsTouchpad w = true →
     wheelEvent pixelDeltaY angleDeltaY full visible sizeChanged w s = None).
Proof.
  intros Hp. split.
  - intros Hok.
    destruct (wheelPages_returns pixelDeltaY angleDeltaY w Hok)
      as [[w' dp] Hpages].
    exists w', dp. unfold wheelEvent. rewrite Hpages. simpl.
    destruct (Z.ltb_spec (dp + currentPageNumber s) 0) as [Hlt | Hge].
    + destruct (Z.eqb_spec (currentPageNumber s) 0) as [H0 | Hne]; simpl.
      * exists s. repeat split; try done; lia.
      * eexists. split; [done |]. split; [reflexivity |].
        destruct (renderPage_page 0 full visible sizeChanged s) as [Hpage _].
        split.
        -- rewrite Hpage. unfold clampPage.
           destruct (Z.geb_spec 0 (numberOfPages s)); simpl; lia.
        -- intros _. unfold ControlScreen.renderPage. cbv zeta.
           destruct (negb visible); [done |].
           destruct (full && sizeChanged); [| done].
           unfold recalcLayout. by destruct sizeChanged.
    + destruct (Z.eqb_spec dp 0) as [-> | Hne]; simpl.
      * exists s. repeat split; try done; lia.
      * eexists. split; [done |]. split; [reflexivity |]. split; [| lia].
        match goal with
        | |- context [ControlScreen.renderPage ?q ?f ?v ?c s] =>
            destruct (updateCache_page (ControlScreen.renderPage q f v c s))
              as [-> _];
            destruct (renderPage_page q f v c s) as [-> _]
        end.
        unfold clampPage.
        destruct (Z.ltb_spec (currentPageNumber s + dp) 0); [lia |].
        destruct (Z.geb_spec (currentPageNumber s + dp) (numberOfPages s));
          simpl; lia.
  - intros H0 Htouch. unfold wheelEvent, wheelPages, touchpadPages. cbv zeta.
    rewrite H0. simpl.
    destruct (Z.eqb_spec (- pixelDeltaY) 0) as [Hpx | Hpx]; simpl; [| done].
    destruct Htouch as [? | ->]; [lia | done].
Qed.

Lemma wheel_never_leaves_document_witness :
  ∃ w' s',
    wheelEvent 0 360 true true false MoreSamples.wheel10 MoreSamples.onPage1
    = Some (w', s')
    ∧ currentPageNumber s' = 0.
Proof.
  assert (0 ≤ currentPageNumber MoreSamples.onPage1
          < numberOfPages MoreSamples.onPage1) as Hp
    by (vm_compute; split; [discriminate | reflexivity]).
  assert (scrollDelta MoreSamples.wheel10 ≠ 0
          ∨ (0 = 0 ∧ forceIsTouchpad MoreSamples.wheel10 = false)) as Hok
    by (left; discriminate).
  destruct (wheel_never_leaves_document 0 360 true true false
              MoreSamples.wheel10 MoreSamples.onPage1 Hp) as [Hyes _].
  destruct (Hyes Hok) as (w' & dp & s' & Hpages & Hevent & Hpage & _).
  exists w', s'. split; [exact Hevent |].
  rewrite Hpage.
  assert (dp = -3) as -> by (vm_compute in Hpages; congruence).
  reflexivity.
Defined.
End WheelFacts.

(** ** Render threads and the timer *)

Section ThreadFacts.
Import ControlScreen ControlScreenEvents.
Implicit Types (s : ControlScreen.t) (st : Store).

Ltac dispatch_cases :=
  unfold dispatched, CacheMap.updateCache;
  repeat match goal with
         | |- context [contains ?m ?p] => destruct (contains m p)
         | |- context [CacheMap.thread ?c] => destruct (CacheMap.thread c)
         end;
  simpl; repeat split; intros; try done; try lia.

Lemma dispatch_presentationCache_dispatched page s :
  dispatched s (dispatch_presentationCache page s).
Proof. unfold dispatch_presentationCache. dispatch_cases. Qed.

Lemma dispatch_notesCache_dispatched page s :
  dispatched s (dispatch_notesCache page s).
Proof. unfold dispatch_notesCache. dispatch_cases. Qed.

Lemma dispatch_previewCache_dispatched page s :
  dispatched s (dispatch_previewCache page s).
Proof. unfold dispatch_previewCache. dispatch_cases. Qed.

Lemma dispatch_drawSlideCache_dispatched page s :
  dispatched s (dispatch_drawSlideCache page s).
Proof.
  unfold dispatch_drawSlideCache.
  destruct (drawSlideCache s) as [c |] eqn:Hc;
    [| unfold dispatched; repeat split; try done; lia].
  dispatch_cases; try (destruct st; simpl; by rewrite ?Hc).
Qed.

Lemma dispatch_previewCacheX_dispatched page s :
  dispatched s (dispatch_previewCacheX page s).
Proof.
  unfold dispatch_previewCacheX.
  destruct (previewCacheX s) as [c |] eqn:Hc;
    [| unfold dispatched; repeat split; try done; lia].
  dispatch_cases; try (destruct st; simpl; by rewrite ?Hc).
Qed.

Lemma cachePage_dispatches page s :
  ∃ s5,
    0 ≤ cacheThreadsRunning s5 ≤ 5
    ∧ (∀ st q, pageIn st s5 q = pageIn st s q)
    ∧ cacheTimer s5 = false
    ∧ window s5 = window s
    ∧ cachePage page s
      = if cacheThreadsRunning s5 =? 0 then startTimer s5 else s5.
Proof.
  unfold cachePage. cbv zeta.
  set (s0 := set_cacheThreadsRunning 0 (stopTimer s)).
  set (s1 := dispatch_presentationCache page s0).
  set (s2 := dispatch_notesCache page s1).
  set (s3 := dispatch_previewCache page s2).
  set (s4 := dispatch_drawSlideCache page s3).
  set (s5 := dispatch_previewCacheX page s4).
  destruct (dispatch_presentationCache_dispatched page s0) as (T1 & P1 & C1 & W1).
  destruct (dispatch_notesCache_dispatched page s1) as (T2 & P2 & C2 & W2).
  destruct (dispatch_previewCache_dispatched page s2) as (T3 & P3 & C3 & W3).
  destruct (dispatch_drawSlideCache_dispatched page s3) as (T4 & P4 & C4 & W4).
  destruct (dispatch_previewCacheX_dispatched page s4) as (T5 & P5 & C5 & W5).
  fold s1 in T1, P1, C1, W1. fold s2 in T2, P2, C2, W2.
  fold s3 in T3, P3, C3, W3. fold s4 in T4, P4, C4, W4.
  fold s5 in T5, P5, C5, W5.
  assert (cacheThreadsRunning s0 = 0) as T0 by done.
  exists s5. split; [lia |]. split; [| split; [| split; [| done]]].
  - intros st q. rewrite P5, P4, P3, P2, P1. by destruct st.
  - by rewrite C5, C4, C3, C2, C1.
  - by rewrite W5, W4, W3, W2, W1.
Qed.

(** X14. [cachePage] leaves the timer running exactly when it has started
    no thread: it counts between 0 and 5 threads, the timer is active
    afterwards if and only if the count is 0, and no page is added to or
    taken from a store and the region is not moved by the call itself. *)
Theorem cachePage_timer_iff_no_thread page s :
  0 ≤ cacheThreadsRunning (cachePage page s) ≤ 5
  ∧ (cacheTimer (cachePage page s) = true
     ↔ cacheThreadsRunning (cachePage page s) = 0)
  ∧ (∀ st q, pageIn st (cachePage page s) q = pageIn st s q)
  ∧ window (cachePage page s) = window s.
Proof.
  destruct (cachePage_dispatches page s) as (s5 & Hn & Hp & Ht & Hw & ->).
  destruct (Z.eqb_spec (cacheThreadsRunning s5) 0) as [H0 | Hne].
  - repeat split; try done; simpl; lia.
  - repeat split; try done; try lia.
    rewrite Ht. discriminate.
Qed.

Lemma updateCache_cached page (c : CacheMap.t) :
  is_Some (CacheMap.data c !! page) → CacheMap.updateCache page c = (c, false).
Proof.
  intros Hc. apply contains_true in Hc. unfold CacheMap.updateCache.
  by rewrite Hc.
Qed.

Lemma dispatch_presentationCache_cached page s :
  is_Some (pageIn PresentationStore s page) →
  dispatch_presentationCache page s = s.
Proof.
  intros Hc. unfold dispatch_presentationCache.
  rewrite updateCache_cached by done. by destruct s.
Qed.

Lemma dispatch_notesCache_cached page s :
  is_Some (pageIn NotesStore s page) → dispatch_notesCache page s = s.
Proof.
  intros Hc. unfold dispatch_notesCache.
  rewrite updateCache_cached by done. by destruct s.
Qed.

Lemma dispatch_previewCache_cached page s :
  is_Some (pageIn PreviewStore s page) → dispatch_previewCache page s = s.
Proof.
  intros Hc. unfold dispatch_previewCache.
  rewrite updateCache_cached by done. by destruct s.
Qed.

Lemma dispatch_drawSlideCache_cached page s :
  (is_Some (drawSlideCache s) → is_Some (pageIn DrawSlideStore s page)) →
  dispatch_drawSlideCache page s = s.
Proof.
  intros Hc. unfold dispatch_drawSlideCache.
  destruct (drawSlideCache s) as [c |] eqn:Hd; [| done].
  specialize (Hc ltac:(done)). simpl in Hc. rewrite Hd in Hc. simpl in Hc.
  rewrite updateCache_cached by done. destruct s; simpl in *. by rewrite Hd.
Qed.

Lemma dispatch_previewCacheX_cached page s :
  (is_Some (previewCacheX s) → is_Some (pageIn PreviewXStore s page)) →
  dispatch_previewCacheX page s = s.
Proof.
  intros Hc. unfold dispatch_previewCacheX.
  destruct (previewCacheX s) as [c |] eqn:Hd; [| done].
  specialize (Hc ltac:(done)). simpl in Hc. rewrite Hd in Hc. simpl in Hc.
  rewrite updateCache_cached by done. destruct s; simpl in *. by rewrite Hd.
Qed.

(** X15. A page that every store already holds starts no thread:
    [cachePage] then only sets the count of threads to 0 and starts the
    timer again, so the next step comes at once. *)
Theorem cachePage_of_cached_page page s :
  is_Some (pageIn PresentationStore s page) →
  is_Some (pageIn NotesStore s page) →
  is_Some (pageIn PreviewStore s page) →
  (is_Some (drawSlideCache s) → is_Some (pageIn DrawSlideStore s page)) →
  (is_Some (previewCacheX s) → is_Some (pageIn PreviewXStore s page)) →
  cachePage page s = startTimer (set_cacheThreadsRunning 0 s).
Proof.
  intros H1 H2 H3 H4 H5. unfold cachePage. cbv zeta.
  set (s0 := set_cacheThreadsRunning 0 (stopTimer s)).
  assert (∀ st, pageIn st s0 page = pageIn st s page) as Hp
    by (by intros []).
  rewrite (dispatch_presentationCache_cached page s0) by (by rewrite Hp).
  rewrite (dispatch_notesCache_cached page s0) by (by rewrite Hp).
  rewrite (dispatch_previewCache_cached page s0) by (by rewrite Hp).
  rewrite (dispatch_drawSlideCache_cached page s0)
    by (intros Hd; rewrite Hp; by apply H4).
  rewrite (dispatch_previewCacheX_cached page s0)
    by (intros Hx; rewrite Hp; by apply H5).
  subst s0. by destruct s.
Qed.

Lemma cachePage_of_cached_page_witness :
  cachePage 1 Samples.jumped
  = startTimer (set_cacheThreadsRunning 0 Samples.jumped).
Proof.
  apply (cachePage_of_cached_page 1 Samples.jumped);
    try (vm_compute; eexists; reflexivity);
    intros [c Hc]; vm_compute in Hc; discriminate Hc.
Defined.

(** X16. When [k] threads have finished, the count of threads is [k]
    less, and the timer is active if it was active before or if the count
    was between 1 and [k]: then one of the threads brought it to 0. A
    thread that finishes while the count is 0 or less starts no timer. The
    pages are not touched. *)
Theorem timer_starts_with_last_thread (k : nat) s :
  cacheThreadsRunning (threadsFinished k s) = cacheThreadsRunning s - Z.of_nat k
  ∧ cacheTimer (threadsFinished k s)
    = cacheTimer s
      || ((0 <? cacheThreadsRunning s) && (cacheThreadsRunning s <=? Z.of_nat k))
  ∧ (∀ st q, pageIn st (threadsFinished k s) q = pageIn st s q)
  ∧ window (threadsFinished k s) = window s.
Proof.
  induction k as [| k (IHn & IHt & IHp & IHw)].
  - simpl. repeat split; try done; [lia |].
    destruct (Z.ltb_spec 0 (cacheThreadsRunning s));
      destruct (Z.leb_spec (cacheThreadsRunning s) (Z.of_nat 0));
      simpl; rewrite ?orb_false_r; try done; lia.
  - unfold threadsFinished in *. rewrite Nat.iter_succ.
    set (s' := Nat.iter k cacheThreadFinished s) in *.
    unfold cacheThreadFinished. cbv zeta.
    assert (cacheThreadsRunning
              (set_cacheThreadsRunning (cacheThreadsRunning s' - 1) s')
            = cacheThreadsRunning s - Z.of_nat (S k)) as Hn
      by (simpl; lia).
    rewrite Hn.
    destruct (Z.eqb_spec (cacheThreadsRunning s - Z.of_nat (S k)) 0)
      as [H0 | Hne]; simpl.
    + repeat split; try done; try lia.
      destruct (Z.ltb_spec 0 (cacheThreadsRunning s)); [| lia].
      destruct (Z.leb_spec (cacheThreadsRunning s) (Z.of_nat (S k))); [| lia].
      by rewrite orb_true_r.
    + repeat split; try done; try lia.
      rewrite IHt. f_equal. f_equal.
      destruct (Z.leb_spec (cacheThreadsRunning s) (Z.of_nat k));
        destruct (Z.leb_spec (cacheThreadsRunning s) (Z.of_nat (S k)));
        try done; try lia.
Qed.

End ThreadFacts.

(** ** The step as a whole *)

Section StepFacts.
Import ControlScreen ControlScreenEvents.
Implicit Types (s : ControlScreen.t) (st : Store).

Lemma onlyDeletes_refl s : onlyDeletes s s.
Proof. unfold onlyDeletes. repeat split; try lia. by left. Qed.

Lemma onlyDeletes_trans s1 s2 s3 :
  onlyDeletes s1 s2 → onlyDeletes s2 s3 → onlyDeletes s1 s3.
Proof.
  intros (C1 & F1 & L1 & P1) (C2 & F2 & L2 & P2).
  unfold onlyDeletes. repeat split; try lia.
  intros st q. destruct (P2 st q) as [-> | ->]; [apply P1 | by right].
Qed.

Lemma stopTimer_onlyDeletes s : onlyDeletes s (stopTimer s).
Proof.
  unfold onlyDeletes. repeat split; simpl; try lia.
  intros st q. left. by destruct st.
Qed.

Lemma cachePage_timer page s :
  cacheTimer (cachePage page s) = true →
  cacheThreadsRunning (cachePage page s) = 0.
Proof.
  destruct (cachePage_dispatches page s) as (s5 & Hn & Hp & Ht & Hw & ->).
  destruct (Z.eqb_spec (cacheThreadsRunning s5) 0) as [H0 | Hne]; [done |].
  rewrite Ht. discriminate.
Qed.

Lemma cachePage_onlyDeletes page s s0 :
  currentPageNumber s0 = currentPageNumber s →
  first_delete s0 = first_delete s → last_delete s0 = last_delete s →
  (∀ st q, pageIn st s0 q = pageIn st s q) →
  onlyDeletes s (cachePage page s0).
Proof.
  intros Hc Hf Hl Hp.
  destruct (cachePage_dispatches page s0) as (s5 & _ & Hp5 & _ & Hw & Heq).
  assert (window (cachePage page s0) = window s0
          ∧ ∀ st q, pageIn st (cachePage page s0) q = pageIn st s0 q)
    as [Hw' Hp'].
  { rewrite Heq. destruct (cacheThreadsRunning s5 =? 0); [| done].
    split; [done |]. intros st q. rewrite <- Hp5. by destruct st. }
  unfold window in Hw'. injection Hw' as H1 H2 H3 H4 H5.
  unfold onlyDeletes. repeat split; try lia.
  intros st q. left. by rewrite Hp', Hp.
Qed.

Lemma choosePage_onlyDeletes s : onlyDeletes s (choosePage s).
Proof.
  unfold choosePage.
  repeat match goal with
         | |- context [if ?b then _ else _] => destruct b
         end;
    try apply stopTimer_onlyDeletes;
    cbv zeta; apply cachePage_onlyDeletes; try done; by intros [].
Qed.

Lemma choosePage_timer s :
  cacheTimer (choosePage s) = true → cacheThreadsRunning (choosePage s) = 0.
Proof.
  unfold choosePage.
  repeat match goal with
         | |- context [if ?b then _ else _] => destruct b
         end;
    try (simpl; discriminate); cbv zeta; apply cachePage_timer.
Qed.

Lemma evictBody_onlyDeletes s : onlyDeletes s (evictBody s).1.
Proof.
  pose proof (freeCachePage_window (victim s) s) as Hw.
  pose proof (freeCachePage_deletes (victim s) s) as Hd.
  pose proof (evictBody_pageIn s) as Hp.
  assert (∀ st q, pageIn st (evictBody s).1 q = pageIn st s q
                  ∨ pageIn st (evictBody s).1 q = None) as Hpages.
  { intros st q. rewrite Hp. destruct (Hd st q) as [-> | [_ ->]]; tauto. }
  unfold onlyDeletes. split; [| split; [| split; [| done]]]; clear Hp Hpages Hd;
    unfold evictBody, victim, regionCheck in *;
    destruct (deleteLater s);
    match goal with
    | |- context [freeCachePage ?p s] => destruct (freeCachePage p s) as [s1 [|]]
    end; simpl in *; injection Hw as Hfd Hfc Hcur Hlc Hld;
    try (destruct (_ || _); simpl); lia.
Qed.

Lemma evictLoop_onlyDeletes fuel s s' r :
  evictLoop fuel s = Some (s', r) → onlyDeletes s s'.
Proof.
  revert s. induction fuel as [| fuel IH]; intros s; simpl; [done |].
  destruct (overBudget s); [| intros [= <- _]; apply onlyDeletes_refl].
  pose proof (evictBody_onlyDeletes s) as Hbody.
  destruct (evictBody s) as [s1 [| |]]; simpl in Hbody.
  - intros Hloop. eapply onlyDeletes_trans; [exact Hbody |]. by apply IH.
  - by intros [= <- _].
  - by intros [= <- _].
Qed.

Lemma updateCacheStep_onlyDeletes fuel s s' :
  updateCacheStep fuel s = Some s' → onlyDeletes s s'.
Proof.
  unfold updateCacheStep.
  destruct (allCached s); [intros [= <-]; apply stopTimer_onlyDeletes |].
  destruct (regionInconsistent s);
    [intros [= <-]; apply stopTimer_onlyDeletes |].
  destruct (evictLoop fuel s) as [[s1 [|]]|] eqn:Hloop; [| | done];
    intros [= <-]; apply evictLoop_onlyDeletes in Hloop; [done |].
  eapply onlyDeletes_trans; [exact Hloop |]. apply choosePage_onlyDeletes.
Qed.

Lemma regionInconsistent_false s :
  regionInconsistent s = false →
  last_cached s ≤ last_delete s ∧ first_delete s ≤ first_cached s
  ∧ first_cached s ≤ currentPageNumber s
  ∧ currentPageNumber s - 1 ≤ last_cached s.
Proof.
  unfold regionInconsistent. intros Hreg.
  apply orb_false_elim in Hreg as [Hreg H4].
  apply orb_false_elim in Hreg as [Hreg H3].
  apply orb_false_elim in Hreg as [H1 H2].
  rewrite Z.gtb_ltb in H1, H3. apply Z.ltb_ge in H1, H2, H3, H4. lia.
Qed.

Lemma evictLoop_diverges fuel s :
  maxCacheSize s < slack s →
  last_cached s ≤ last_delete s → first_delete s ≤ first_cached s →
  evictLoop fuel s = None.
Proof.
  revert s. induction fuel as [| fuel IH]; intros s Hslack Hlast Hfirst;
    simpl; [done |].
  pose proof (totalBytes_nonneg s) as Hbytes.
  assert (overBudget s = true) as ->.
  { unfold overBudget. unfold slack in Hslack.
    destruct (Z.gtb_spec (cacheSize s) (maxCacheSize s)); [done | lia]. }
  pose proof (evictBody_view s) as Hview.
  pose proof (evictBody_break s) as Hbreak.
  pose proof (evictBody_no_return s Hlast Hfirst) as Hreturn.
  pose proof (evictBody_keeps_region s Hlast Hfirst) as [Hlast' Hfirst'].
  destruct (evictBody s) as [s1 [| |]]; simpl in *.
  - unfold budgetView in Hview. injection Hview as _ Hsize _ Hsl.
    apply IH; [lia | done | done].
  - specialize (Hbreak eq_refl). unfold budgetSatisfied in Hbreak.
    apply andb_prop in Hbreak as [Hsize _]. apply Z.leb_le in Hsize.
    unfold budgetView in Hview. injection Hview as _ Hmax _ Hsl.
    pose proof (totalBytes_nonneg s1). unfold slack in *. lia.
  - done.
Qed.

(** X17. A step always returns when [cacheSize] is not more than
    [maxCacheSize] above the bytes held and the page budget is not negative
    or is unlimited: the loop ends; the budgets, the number of pages and the
    slack are as before; and afterwards the timer is active only if no
    thread was started. *)
Theorem step_returns s :
  slack s ≤ maxCacheSize s →
  numberOfPages s ≤ maxCacheNumber s ∨ 0 ≤ maxCacheNumber s →
  ∃ s', stepReturns s s'
        ∧ budgetView s' = budgetView s
        ∧ (cacheTimer s' = true → cacheThreadsRunning s' = 0).
Proof.
  intros Hslack Hnum.
  destruct (allCached s) eqn:Hall.
  { exists (stopTimer s). split; [| split; [done | simpl; discriminate]].
    exists 0%nat. unfold updateCacheStep. by rewrite Hall. }
  destruct (regionInconsistent s) eqn:Hreg.
  { exists (stopTimer s). split; [| split; [done | simpl; discriminate]].
    exists 0%nat. unfold updateCacheStep. by rewrite Hall, Hreg. }
  destruct (evictLoop_terminates s Hreg Hslack Hnum) as [s1 [fuel Hloop]].
  assert (updateCacheStep fuel s = Some (choosePage s1)) as Hstep
    by (unfold updateCacheStep; by rewrite Hall, Hreg, Hloop).
  exists (choosePage s1). split; [by exists fuel |].
  split; [by eapply updateCacheStep_view | apply choosePage_timer].
Qed.

Lemma step_returns_witness :
  ∃ s', stepReturns Samples.tight s'
        ∧ budgetView s' = budgetView Samples.tight
        ∧ (cacheTimer s' = true → cacheThreadsRunning s' = 0).
Proof.
  assert (slack Samples.tight ≤ maxCacheSize Samples.tight) as H1
    by (vm_compute; discriminate).
  assert (numberOfPages Samples.tight ≤ maxCacheNumber Samples.tight
          ∨ 0 ≤ maxCacheNumber Samples.tight) as H2
    by (left; vm_compute; discriminate).
  exact (step_returns Samples.tight H1 H2).
Defined.

(** X18. A byte budget below [cacheSize] minus the bytes held cannot be
    met by deleting pages: once the entry tests are passed, the loop of the
    step deletes pages and moves the boundaries without end, whatever the
    number of passes allowed. (The boundaries are unbounded integers here;
    they are [int] in the source.) This is so after [setCacheSize] with a
    value below -8589934591, the value that [updateCache] gives [cacheSize]
    when the budget is not positive. *)
Theorem step_never_returns_over_slack (fuel : nat) s :
  allCached s = false → regionInconsistent s = false →
  maxCacheSize s < slack s →
  updateCacheStep fuel s = None.
Proof.
  intros Hall Hreg Hslack. unfold updateCacheStep. rewrite Hall, Hreg.
  apply regionInconsistent_false in Hreg as (H1 & H2 & _).
  by rewrite evictLoop_diverges.
Qed.

Lemma step_never_returns_over_slack_witness :
  updateCacheStep 50 (updateCache (setCacheSize (-17179869184) (fresh 3 (-1))))
  = None.
Proof.
  apply step_never_returns_over_slack.
  - vm_compute; reflexivity.
  - vm_compute; reflexivity.
  - vm_compute; reflexivity.
Defined.

(** X19. A step that returns has only deleted: the page shown and the
    number of pages are as before, [first_delete] has not gone down and
    [last_delete] has not gone up, and every store holds at every page what
    it held before or nothing. Pages come into the stores only when a render
    thread delivers. *)
Theorem step_only_deletes (fuel : nat) s s' :
  updateCacheStep fuel s = Some s' →
  numberOfPages s' = numberOfPages s
  ∧ currentPageNumber s' = currentPageNumber s
  ∧ first_delete s ≤ first_delete s'
  ∧ last_delete s' ≤ last_delete s
  ∧ ∀ st q, pageIn st s' q = pageIn st s q ∨ pageIn st s' q = None.
Proof.
  intros Hstep.
  pose proof (updateCacheStep_view fuel s s' Hstep) as Hview.
  unfold budgetView in Hview. injection Hview as HN _ _ _.
  destruct (updateCacheStep_onlyDeletes fuel s s' Hstep) as (H1 & H2 & H3 & H4).
  done.
Qed.

Lemma step_only_deletes_witness :
  let s' := default Samples.tight (updateCacheStep 20 Samples.tight) in
  updateCacheStep 20 Samples.tight = Some s'
  ∧ first_delete Samples.tight ≤ first_delete s'
  ∧ last_delete s' ≤ last_delete Samples.tight.
Proof.
  intros s'.
  assert (updateCacheStep 20 Samples.tight = Some s') as H
    by (vm_compute; reflexivity).
  destruct (step_only_deletes 20 Samples.tight s' H) as (_ & _ & H1 & H2 & _).
  exact (conj H (conj H1 H2)).
Defined.

End StepFacts.

(** ** Boundaries, page changes and resizing *)

Section RegionFacts.
Import ControlScreen ControlScreenEvents.
Implicit Types (s : ControlScreen.t) (st : Store).

Lemma threadResult_window st bytes s :
  window (threadResult st bytes s) = window s.
Proof.
  unfold threadResult, storeReceives, CacheMap.receiveBytes,
    cacheThreadFinished, updateCacheSize.
  destruct st; simpl;
    repeat match goal with
           | |- context [previewCacheX s] => destruct (previewCacheX s); simpl
           | |- context [drawSlideCache s] => destruct (drawSlideCache s); simpl
           | |- context [CacheMap.thread ?c] => destruct (CacheMap.thread c); simpl
           | |- context [isEmpty ?b || ?c] => destruct (isEmpty b || c); simpl
           | |- context [if ?b then _ else _] => destruct b; simpl
           end; done.
Qed.

Lemma renderPage_boundaries pageNumber full visible sizeChanged s :
  first_delete (ControlScreen.renderPage pageNumber full visible sizeChanged s)
  = first_delete s
  ∧ last_delete (ControlScreen.renderPage pageNumber full visible sizeChanged s)
    = last_delete s.
Proof.
  unfold ControlScreen.renderPage, recalcLayout. cbv zeta.
  destruct (negb visible); [done |].
  destruct (full && sizeChanged); [| done]. by destruct sizeChanged.
Qed.

Lemma updateCache_boundaries s :
  0 ≤ first_delete s → last_delete s ≤ numberOfPages s - 1 →
  0 ≤ first_delete (ControlScreen.updateCache s)
  ∧ last_delete (ControlScreen.updateCache s) ≤ numberOfPages s - 1.
Proof.
  intros Hf Hl. unfold ControlScreen.updateCache. cbv zeta.
  destruct (_ || _); [done |].
  destruct (allCached _); [done |].
  assert (∀ s0, first_delete (if (last_cached s0 <? numberOfPages s0 - 1)
                                 || (first_cached s0 >? 0)
                              then startTimer s0 else s0) = first_delete s0
                ∧ last_delete (if (last_cached s0 <? numberOfPages s0 - 1)
                                  || (first_cached s0 >? 0)
                               then startTimer s0 else s0) = last_delete s0)
    as Htimer by (intros s0; by destruct (_ || _)).
  match goal with
  | |- context [first_delete (if _ then startTimer ?s0 else _)] =>
      destruct (Htimer s0) as [-> ->]
  end.
  destruct (maxCacheSize (stopTimer s) >? 0);
    destruct (_ || _); simpl; try lia;
    repeat match goal with
           | |- context [if ?b then _ else _] => destruct b eqn:?
           end; lia.
Qed.

Lemma handle_boundaries e s s' :
  0 ≤ first_delete s → last_delete s ≤ numberOfPages s - 1 →
  handle e s = Some s' →
  numberOfPages s' = numberOfPages s
  ∧ 0 ≤ first_delete s' ∧ last_delete s' ≤ numberOfPages s - 1.
Proof.
  intros Hf Hl. destruct e as [fuel | st bytes | p v c]; simpl.
  - intros Hstep.
    pose proof (updateCacheStep_view fuel s s' Hstep) as Hview.
    unfold budgetView in Hview. injection Hview as HN _ _ _.
    destruct (updateCacheStep_onlyDeletes fuel s s' Hstep) as (_ & H2 & H3 & _).
    lia.
  - intros [= <-].
    pose proof (threadResult_view st bytes s) as Hview.
    unfold budgetView in Hview. injection Hview as HN _ _ _.
    pose proof (threadResult_window st bytes s) as Hw.
    unfold window in Hw. injection Hw as H1 _ _ _ H5. lia.
  - intros [= <-]. unfold receiveNewPageNumber.
    destruct (renderPage_page p true v c s) as [_ HN].
    destruct (renderPage_boundaries p true v c s) as [H1 H2].
    destruct (updateCache_page (ControlScreen.renderPage p true v c s))
      as [_ HN'].
    destruct (updateCache_boundaries (ControlScreen.renderPage p true v c s))
      as [H3 H4]; [lia | lia |].
    rewrite HN', HN. rewrite HN in H4. done.
Qed.

(** X20. The delete boundaries never leave the document outwards: from a
    state with [0 <= first_delete] and [last_delete <= numberOfPages - 1],
    as a new [ControlScreen] has them, every sequence of steps, thread
    results and page changes keeps both, and keeps the number of pages. *)
Theorem boundaries_stay_in_document (events : list Event) s s' :
  0 ≤ first_delete s → last_delete s ≤ numberOfPages s - 1 →
  run events s = Some s' →
  numberOfPages s' = numberOfPages s
  ∧ 0 ≤ first_delete s' ∧ last_delete s' ≤ numberOfPages s' - 1.
Proof.
  revert s. induction events as [| e events IH]; intros s Hf Hl; simpl.
  - intros [= <-]. done.
  - destruct (handle e s) as [s1 |] eqn:He; [| done].
    destruct (handle_boundaries e s s1 Hf Hl He) as (HN & Hf1 & Hl1).
    intros Hrun. rewrite <- HN in Hl1.
    destruct (IH s1 Hf1 Hl1 Hrun) as (HN' & Hf' & Hl'). lia.
Qed.

Lemma boundaries_stay_in_document_witness :
  let s0 := fresh 10 4 in
  let events :=
    [NewPageNumber 0 true false; Tick 5;
     ThreadResult PresentationStore (Samples.img 3);
     ThreadResult NotesStore (Samples.img 3);
     ThreadResult PreviewStore (Samples.img 3); Tick 20] in
  let s := default s0 (run events s0) in
  run events s0 = Some s
  ∧ 0 ≤ first_delete s ∧ last_delete s ≤ numberOfPages s - 1.
Proof.
  intros s0 events s.
  assert (0 ≤ first_delete s0) as H1 by (vm_compute; discriminate).
  assert (last_delete s0 ≤ numberOfPages s0 - 1) as H2
    by (vm_compute; discriminate).
  assert (run events s0 = Some s) as H3 by (vm_compute; reflexivity).
  destruct (boundaries_stay_in_document events s0 s H1 H2 H3) as (_ & H4 & H5).
  exact (conj H3 (conj H4 H5)).
Defined.

(** X21. [updateCache] leaves a region that the next step accepts: with
    the page shown inside the document and the cached region inside the
    delete boundaries and the document, the region test at the entry of
    [updateCacheStep] is passed afterwards, and the timer is active unless
    the region is the whole document. *)
Theorem updateCache_lets_step_run s :
  maxCacheSize s ≠ 0 → maxCacheNumber s ≠ 0 → allCached s = false →
  0 ≤ currentPageNumber s < numberOfPages s →
  last_cached s ≤ last_delete s → first_delete s ≤ first_cached s →
  0 ≤ first_cached s → last_cached s ≤ numberOfPages s - 1 →
  regionInconsistent (ControlScreen.updateCache s) = false
  ∧ (cacheTimer (ControlScreen.updateCache s) = true
     ∨ (first_cached (ControlScreen.updateCache s) = 0
        ∧ last_cached (ControlScreen.updateCache s) = numberOfPages s - 1)).
Proof.
  intros Hsize Hnum Hall Hcur Hl Hf Hfc Hlc.
  unfold ControlScreen.updateCache. cbv zeta.
  apply Z.eqb_neq in Hsize, Hnum. rewrite Hsize, Hnum. simpl.
  change (allCached (stopTimer s)) with (allCached s). rewrite Hall.
  set (cn := CacheMap.length (presentationCache s)).
  match goal with
  | |- context [if maxCacheSize s >? 0 then ?a else ?b] =>
      set (s1 := if maxCacheSize s >? 0 then a else b)
  end.
  assert (window s1 = window s ∧ numberOfPages s1 = numberOfPages s
          ∧ cacheTimer s1 = false) as (Hw & HN & Ht)
    by (subst s1; by destruct (_ >? _)).
  unfold window in Hw. injection Hw as Hfd1 Hfc1 Hcur1 Hlc1 Hld1.
  rewrite Hfc1, Hcur1, Hlc1.
  destruct (Z.gtb_spec (first_cached s) (currentPageNumber s)) as [Hout | Hin1];
    [| destruct (Z.ltb_spec (last_cached s) (currentPageNumber s))
         as [Hout | Hin2]]; simpl.
  1, 2: unfold resetRegion; cbv zeta; simpl; rewrite ?Hcur1, ?HN;
    (destruct (Z.ltb_spec (currentPageNumber s - 1) (numberOfPages s - 1));
     [| lia]); simpl; (split; [| by left]);
    unfold regionInconsistent; simpl; rewrite ?Hcur1, ?HN;
    repeat match goal with
           | |- context [?a >? ?b] => destruct (Z.gtb_spec a b); simpl
           | |- context [?a <? ?b] => destruct (Z.ltb_spec a b); simpl
           end; try done; lia.
  set (s2 := widenDeleteRegion cn s1).
  assert (first_cached s2 = first_cached s ∧ last_cached s2 = last_cached s
          ∧ currentPageNumber s2 = currentPageNumber s
          ∧ numberOfPages s2 = numberOfPages s
          ∧ cacheTimer s2 = false
          ∧ last_cached s ≤ last_delete s2
          ∧ first_delete s2 ≤ first_cached s) as (F1 & F2 & F3 & F4 & F5 & F6 & F7).
  { subst s2. unfold widenDeleteRegion. cbv zeta. simpl.
    rewrite Hfc1, Hlc1, Hcur1, HN, Hfd1, Hld1.
    repeat split; try done;
      repeat match goal with
             | |- context [?a >? ?b] => destruct (Z.gtb_spec a b); simpl
             | |- context [?a <? ?b] => destruct (Z.ltb_spec a b); simpl
             | |- context [?a >=? ?b] => destruct (Z.geb_spec a b); simpl
             end; lia. }
  clearbody s2.
  assert (regionInconsistent s2 = false) as Hreg.
  { unfold regionInconsistent. rewrite F1, F2, F3.
    repeat match goal with
           | |- context [?a >? ?b] => destruct (Z.gtb_spec a b); simpl
           | |- context [?a <? ?b] => destruct (Z.ltb_spec a b); simpl
           end; try done; lia. }
  rewrite ?F1, ?F2, ?F4, ?Hlc1, ?HN, ?Hfc1.
  destruct (Z.ltb_spec (last_cached s) (numberOfPages s - 1));
    [simpl; split; [done | by left] |].
  destruct (Z.gtb_spec (first_cached s) 0);
    [simpl; split; [done | by left] |].
  simpl. split; [done |]. right. lia.
Qed.

Lemma updateCache_lets_step_run_witness :
  regionInconsistent (ControlScreen.updateCache Samples.jumped) = false.
Proof.
  assert (maxCacheSize Samples.jumped ≠ 0) as H1 by (vm_compute; discriminate).
  assert (maxCacheNumber Samples.jumped ≠ 0) as H2 by (vm_compute; discriminate).
  assert (allCached Samples.jumped = false) as H3 by (vm_compute; reflexivity).
  assert (0 ≤ currentPageNumber Samples.jumped < numberOfPages Samples.jumped)
    as H4 by (vm_compute; split; [discriminate | reflexivity]).
  assert (last_cached Samples.jumped ≤ last_delete Samples.jumped) as H5
    by (vm_compute; discriminate).
  assert (first_delete Samples.jumped ≤ first_cached Samples.jumped) as H6
    by (vm_compute; discriminate).
  assert (0 ≤ first_cached Samples.jumped) as H7 by (vm_compute; discriminate).
  assert (last_cached Samples.jumped ≤ numberOfPages Samples.jumped - 1) as H8
    by (vm_compute; discriminate).
  exact (proj1 (updateCache_lets_step_run Samples.jumped H1 H2 H3 H4 H5 H6 H7 H8)).
Defined.

End RegionFacts.

(** ** What [freeCachePage] promises *)

Section FreeFacts.
Import ControlScreen ControlScreenEvents.
Implicit Types (s : ControlScreen.t) (st : Store).

Lemma freeIn_keeps_presentation page s q :
  pageIn PresentationStore (freeIn_drawSlideCache page s) q
  = pageIn PresentationStore s q
  ∧ pageIn PresentationStore (freeIn_notesCache page s) q
    = pageIn PresentationStore s q
  ∧ pageIn PresentationStore (freeIn_previewCacheX page s) q
    = pageIn PresentationStore s q
  ∧ pageIn PresentationStore (freeIn_previewCache page s) q
    = pageIn PresentationStore s q.
Proof.
  unfold freeIn_drawSlideCache, freeIn_notesCache, freeIn_previewCacheX,
    freeIn_previewCache.
  repeat split;
    repeat match goal with
           | |- context [match ?o with Some _ => _ | None => _ end] =>
               destruct o
           | |- context [CacheMap.clearPage ?p ?c] =>
               destruct (CacheMap.clearPage p c)
           end; done.
Qed.

(** X22. The result of [freeCachePage(page)] tells how far the page was
    deleted. [true]: the budget test holds in the state left, and the
    presentation store has not been touched, so the page is still held
    there if it was. [false]: the page is gone from every store. In both
    cases [cacheSize] has gone down by exactly the bytes deleted, no other
    page has changed in any store, and the region and the boundaries are as
    before. *)
Theorem freeCachePage_contract page s :
  let r := freeCachePage page s in
  slack r.1 = slack s
  ∧ window r.1 = window s
  ∧ (∀ st q, q ≠ page → pageIn st r.1 q = pageIn st s q)
  ∧ (r.2 = true →
     budgetSatisfied r.1 = true
     ∧ ∀ q, pageIn PresentationStore r.1 q = pageIn PresentationStore s q)
  ∧ (r.2 = false → ∀ st, pageIn st r.1 page = None).
Proof.
  intros r. subst r.
  pose proof (freeCachePage_view page s) as Hview.
  unfold budgetView in Hview. injection Hview as _ _ _ Hslack.
  split; [done |]. split; [apply freeCachePage_window |].
  split; [| split].
  - intros st q Hq.
    destruct (freeCachePage_deletes page s st q) as [H | [H _]]; done.
  - intros Htrue. split; [by apply freeCachePage_satisfied |].
    intros q. revert Htrue. unfold freeCachePage. cbv zeta.
    destruct (freeIn_keeps_presentation page s q) as (K1 & _).
    destruct (freeIn_keeps_presentation page (freeIn_drawSlideCache page s) q)
      as (_ & K2 & _).
    destruct (freeIn_keeps_presentation page
                (freeIn_notesCache page (freeIn_drawSlideCache page s)) q)
      as (_ & _ & K3 & _).
    destruct (freeIn_keeps_presentation page
                (freeIn_previewCacheX page
                   (freeIn_notesCache page (freeIn_drawSlideCache page s))) q)
      as (_ & _ & _ & K4).
    destruct (_ && _); cbn [fst snd]; [by rewrite K1 |].
    destruct (budgetSatisfied _); cbn [fst snd]; [by rewrite K2, K1 |].
    destruct (budgetSatisfied _); cbn [fst snd]; [by rewrite K4, K3, K2, K1 | done].
  - intros Hfalse st. by apply freeCachePage_false_gone.
Qed.

End FreeFacts.

(** ** Resizing *)

Section ResizeFacts.
Import ControlScreen ControlScreenEvents.
Implicit Types (s : ControlScreen.t) (st : Store).

Lemma resizeEvent_fields presentationPage sizeChanged s :
  let r := resizeEvent presentationPage sizeChanged s in
  numberOfPages r = numberOfPages s
  ∧ currentPageNumber r = currentPageNumber s
  ∧ maxCacheNumber r = maxCacheNumber s
  ∧ maxCacheSize r = maxCacheSize s
  ∧ first_delete r = 0
  ∧ first_cached r = presentationPage
  ∧ last_cached r = presentationPage - 1
  ∧ last_delete r = numberOfPages s - 1
  ∧ presentationCache r = presentationCache s
  ∧ notesCache r = CacheMap.clearCache (notesCache s)
  ∧ previewCache r = CacheMap.clearCache (previewCache s)
  ∧ previewCacheX r = CacheMap.clearCache <$> previewCacheX s
  ∧ drawSlideCache r = CacheMap.clearCache <$> drawSlideCache s
  ∧ cacheSize r = cacheSize s
  ∧ cacheTimer r = false.
Proof.
  intros r. subst r. unfold resizeEvent, recalcLayout, interruptCacheProcesses.
  destruct s as [n cur mn ms cs fc lc fd ld pc nc vc xc dc tm th].
  destruct sizeChanged; simpl; repeat split; try done;
    by destruct xc, dc.
Qed.

(** X23. After the control screen has been resized, the next
    [updateCache] starts over, whatever page the presentation shows: the
    region is empty at the current page, the delete boundaries are the whole
    document, the timer is active, the presentation store holds what it
    held, all other stores are empty, and with a positive byte budget
    [cacheSize] is again the bytes of the presentation store. Between the
    two calls [cacheSize] is still the old value. *)
Theorem resize_starts_over presentationPage sizeChanged s :
  maxCacheSize s ≠ 0 → maxCacheNumber s ≠ 0 →
  0 ≤ currentPageNumber s < numberOfPages s →
  let r := resizeEvent presentationPage sizeChanged s in
  let s' := ControlScreen.updateCache r in
  cacheSize r = cacheSize s
  ∧ window s'
    = (0, currentPageNumber s, currentPageNumber s, currentPageNumber s - 1,
       numberOfPages s - 1)
  ∧ cacheTimer s' = true
  ∧ (∀ q, pageIn PresentationStore s' q = pageIn PresentationStore s q)
  ∧ (∀ st, st ≠ PresentationStore → storeCount st s' = 0)
  ∧ (0 < maxCacheSize s →
     cacheSize s' = CacheMap.getSizeBytes (presentationCache s)).
Proof.
  intros Hsize Hnum Hcur r s'. subst s'.
  destruct (resizeEvent_fields presentationPage sizeChanged s)
    as (HN & Hc & Hmn & Hms & Hfd & Hfc & Hlc & Hld & Hpc & Hnc & Hvc & Hxc
        & Hdc & Hcs & Htm).
  fold r in HN, Hc, Hmn, Hms, Hfd, Hfc, Hlc, Hld, Hpc, Hnc, Hvc, Hxc, Hdc,
    Hcs, Htm.
  clearbody r. split; [done |].
  assert (allCached r = false) as Hall.
  { unfold allCached. rewrite Hnc, clearCache_length, HN.
    destruct (Z.eqb_spec 0 (numberOfPages s)) as [H0 | _]; [lia |].
    by rewrite andb_false_r. }
  unfold ControlScreen.updateCache. cbv zeta.
  apply Z.eqb_neq in Hsize, Hnum. rewrite Hms, Hmn, Hsize, Hnum. simpl.
  change (allCached (stopTimer r)) with (allCached r). rewrite Hall.
  assert (totalBytes (stopTimer r)
          = CacheMap.getSizeBytes (presentationCache s)) as Hbytes.
  { unfold totalBytes. simpl. rewrite Hpc, Hnc, Hvc, Hxc, Hdc.
    rewrite !clearCache_bytes.
    destruct (previewCacheX s), (drawSlideCache s); simpl;
      rewrite ?clearCache_bytes; lia. }
  match goal with
  | |- context [if maxCacheSize r >? 0 then ?a else ?b] =>
      set (s1 := if maxCacheSize r >? 0 then a else b)
  end.
  assert (window s1 = window r ∧ numberOfPages s1 = numberOfPages r
          ∧ cacheTimer s1 = false
          ∧ (∀ st q, pageIn st s1 q = pageIn st r q)
          ∧ (∀ st, storeCount st s1 = storeCount st r)
          ∧ (0 < maxCacheSize s →
             cacheSize s1 = CacheMap.getSizeBytes (presentationCache s)))
    as (Hw1 & HN1 & Ht1 & Hp1 & Hs1 & Hc1).
  { subst s1. rewrite Hms. destruct (Z.gtb_spec (maxCacheSize s) 0); simpl.
    - repeat split; try done; try (by intros []).
    - repeat split; try done; try (by intros []). lia. }
  unfold window in Hw1. injection Hw1 as Hfd1 Hfc1 Hcur1 Hlc1 Hld1.
  rewrite Hfc1, Hcur1, Hlc1, Hfc, Hlc, Hc.
  assert ((presentationPage >? currentPageNumber s)
          || (presentationPage - 1 <? currentPageNumber s) = true) as ->.
  { destruct (Z.gtb_spec presentationPage (currentPageNumber s)); [done |].
    destruct (Z.ltb_spec (presentationPage - 1) (currentPageNumber s));
      [done | lia]. }
  unfold resetRegion. cbv zeta. simpl. rewrite Hcur1, HN1, Hc, HN.
  destruct (Z.ltb_spec (currentPageNumber s - 1) (numberOfPages s - 1));
    [| lia].
  simpl. unfold window. simpl. rewrite ?Hcur1, ?HN1, ?Hc, ?HN.
  split; [done |]. split; [done |]. split; [| split; [| done]].
  - intros q. specialize (Hp1 PresentationStore q). simpl in Hp1.
    by rewrite Hp1, Hpc.
  - intros st Hst. specialize (Hs1 st).
    destruct st; simpl in *; try done; rewrite Hs1.
    + by rewrite Hnc, clearCache_length.
    + by rewrite Hvc, clearCache_length.
    + rewrite Hxc. destruct (previewCacheX s); [apply clearCache_length | done].
    + rewrite Hdc. destruct (drawSlideCache s); [apply clearCache_length | done].
Qed.

Lemma resize_starts_over_witness :
  window (ControlScreen.updateCache (resizeEvent 7 true Samples.jumped))
  = (0, 5, 5, 4, 9).
Proof.
  assert (maxCacheSize Samples.jumped ≠ 0) as H1 by (vm_compute; discriminate).
  assert (maxCacheNumber Samples.jumped ≠ 0) as H2 by (vm_compute; discriminate).
  assert (0 ≤ currentPageNumber Samples.jumped < numberOfPages Samples.jumped)
    as H3 by (vm_compute; split; [discriminate | reflexivity]).
  exact (proj1 (proj2 (resize_starts_over 7 true Samples.jumped H1 H2 H3))).
Defined.

Lemma updateCache_outside_window s :
  maxCacheSize s ≠ 0 → maxCacheNumber s ≠ 0 → allCached s = false →
  currentPageNumber s < first_cached s ∨ last_cached s < currentPageNumber s →
  window (ControlScreen.updateCache s)
  = (0, currentPageNumber s, currentPageNumber s, currentPageNumber s - 1,
     numberOfPages s - 1).
Proof.
  intros Hsize Hnum Hall Hout. unfold ControlScreen.updateCache. cbv zeta.
  apply Z.eqb_neq in Hsize, Hnum. rewrite Hsize, Hnum. simpl.
  change (allCached (stopTimer s)) with (allCached s). rewrite Hall.
  match goal with
  | |- context [if maxCacheSize s >? 0 then ?a else ?b] =>
      set (s1 := if maxCacheSize s >? 0 then a else b)
  end.
  assert (window s1 = window s ∧ numberOfPages s1 = numberOfPages s)
    as (Hw & HN) by (subst s1; by destruct (_ >? _)).
  unfold window in Hw. injection Hw as Hfd1 Hfc1 Hcur1 Hlc1 Hld1.
  rewrite Hfc1, Hcur1, Hlc1.
  assert ((first_cached s >? currentPageNumber s)
          || (last_cached s <? currentPageNumber s) = true) as ->
    by (rewrite orb_true_iff, Z.gtb_ltb, !Z.ltb_lt; lia).
  unfold resetRegion, window. cbv zeta.
  destruct (_ || _); simpl; by rewrite Hcur1, HN.
Qed.

(** X24. After the presentation window has been resized, the next
    [updateCache] also starts a new empty region at the current page with
    the whole document between the delete boundaries, whatever page the
    presentation shows; here no store is cleared. *)
Theorem presentation_resize_resets_region presentationPage s :
  maxCacheSize s ≠ 0 → maxCacheNumber s ≠ 0 → allCached s = false →
  let s' := ControlScreen.updateCache (presentationResized presentationPage s) in
  window s'
  = (0, currentPageNumber s, currentPageNumber s, currentPageNumber s - 1,
     numberOfPages s - 1)
  ∧ ∀ st q, pageIn st s' q = pageIn st s q.
Proof.
  intros Hsize Hnum Hall s'. subst s'.
  set (r := presentationResized presentationPage s).
  assert (allCached r = false) as Hall' by done.
  assert (maxCacheSize r ≠ 0) as Hsize' by done.
  assert (maxCacheNumber r ≠ 0) as Hnum' by done.
  assert (currentPageNumber r < first_cached r
          ∨ last_cached r < currentPageNumber r) as Hout.
  { subst r. unfold presentationResized. simpl. lia. }
  split.
  - by rewrite (updateCache_outside_window r Hsize' Hnum' Hall' Hout).
  - intros st q. unfold ControlScreen.updateCache. cbv zeta.
    apply Z.eqb_neq in Hsize', Hnum'. rewrite Hsize', Hnum'. simpl.
    change (allCached (stopTimer r)) with (allCached s). rewrite Hall.
    repeat match goal with
           | |- context [if ?b then _ else _] => destruct b
           end; by destruct st.
Qed.

Lemma presentation_resize_resets_region_witness :
  window (ControlScreen.updateCache (presentationResized 2 Samples.jumped))
  = (0, 5, 5, 4, 9).
Proof.
  assert (maxCacheSize Samples.jumped ≠ 0) as H1 by (vm_compute; discriminate).
  assert (maxCacheNumber Samples.jumped ≠ 0) as H2 by (vm_compute; discriminate).
  assert (allCached Samples.jumped = false) as H3 by (vm_compute; reflexivity).
  exact (proj1 (presentation_resize_resets_region 2 Samples.jumped H1 H2 H3)).
Defined.

End ResizeFacts.

(** ** Automatic slide changes *)

Section PresentationTimeoutFacts.
Context {Image : Type}.
Variable renderToImage : Z → Image.
Variables copyLeft copyRight : Image → Image.
Variable savePNG : Image → QByteArray.
Variable isNull : Image → bool.
Variable getPage : Z → option Z.
Implicit Types (s : PresentationScreen.t).

Let timeouts :=
  PresentationScreenKeys.timeouts renderToImage copyLeft copyRight savePNG isNull
    getPage.

(** X25. Slide changes by timeout go forward one page at a time and stop
    on the last page: after [k] timeouts from page [p] of a document with
    pages 0 to [numPages - 1] the screen shows page [min(p + k, numPages -
    1)]; the page never goes back to the first one. *)
Theorem timeouts_stop_at_last_page (resized : list bool) s :
  (∀ i, 0 ≤ i < PresentationScreen.numPages s → getPage i = Some i) →
  0 ≤ PresentationScreen.getPageNumber s < PresentationScreen.numPages s →
  PresentationScreen.getPageNumber (timeouts resized s)
  = Z.min (PresentationScreen.getPageNumber s + Z.of_nat (length resized))
      (PresentationScreen.numPages s - 1)
  ∧ PresentationScreen.numPages (timeouts resized s)
    = PresentationScreen.numPages s.
Proof.
  revert s. induction resized as [| r resized IH]; intros s Hpages Hp.
  - simpl. split; [lia | done].
  - unfold timeouts, PresentationScreenKeys.timeouts in *. simpl foldl.
    set (s1 := PresentationScreenKeys.receiveTimeoutSignal renderToImage
                 copyLeft copyRight savePNG isNull getPage r s).
    destruct (presentation_renderPage_shows renderToImage copyLeft copyRight
                savePNG isNull getPage (PresentationScreen.getPageNumber s + 1) r s
                Hpages ltac:(lia)) as [Hshown HN].
    change (PresentationScreen.renderPage renderToImage copyLeft copyRight
              savePNG isNull getPage (PresentationScreen.getPageNumber s + 1) r s)
      with s1 in Hshown, HN.
    assert (PresentationScreen.getPageNumber s1
            = Z.min (PresentationScreen.getPageNumber s + 1)
                (PresentationScreen.numPages s - 1)) as Hp1.
    { rewrite Hshown.
      destruct (Z.ltb_spec (PresentationScreen.getPageNumber s + 1) 0); [lia |].
      destruct (Z.geb_spec (PresentationScreen.getPageNumber s + 1)
                  (PresentationScreen.numPages s)); simpl; lia. }
    clearbody s1.
    destruct (IH s1) as [Hpage HN'].
    + intros i Hi. apply Hpages. lia.
    + lia.
    + rewrite Hpage, HN', HN, Hp1. split; [| done].
      rewrite length_cons. lia.
Qed.

End PresentationTimeoutFacts.

Section PresentationTimeoutSamples.
Import Samples.

Lemma timeouts_stop_at_last_page_witness :
  PresentationScreen.getPageNumber
    (PresentationScreenKeys.timeouts render whole whole whole null getPage10
       [false; true; false; false; false; false; false] showing4)
  = 9.
Proof.
  assert (∀ i, 0 ≤ i < PresentationScreen.numPages showing4 →
               getPage10 i = Some i) as H1
    by (intros i Hi; by apply getPage10_pages).
  assert (0 ≤ PresentationScreen.getPageNumber showing4
          < PresentationScreen.numPages showing4) as H2
    by (vm_compute; split; [discriminate | reflexivity]).
  exact (proj1 (timeouts_stop_at_last_page render whole whole whole null getPage10
                  [false; true; false; false; false; false; false]
                  showing4 H1 H2)).
Defined.
End PresentationTimeoutSamples.

(** ** Named destinations *)

Section DestFacts.
Import ControlScreen ControlScreenEvents.
Implicit Types (s : ControlScreen.t).

(** X26. A named destination changes the page only when it lies in the
    document: then the page shown is exactly that page; an unknown
    destination, or one outside the document, leaves the whole state as it
    is and does not go to the last page, as a page number received by
    [receiveNewPageNumber] would. *)
Theorem receiveDest_only_inside pageNumber full visible sizeChanged s :
  let s' := receiveDest pageNumber full visible sizeChanged s in
  (0 ≤ pageNumber < numberOfPages s → currentPageNumber s' = pageNumber)
  ∧ (pageNumber < 0 ∨ numberOfPages s ≤ pageNumber → s' = s)
  ∧ numberOfPages s' = numberOfPages s.
Proof.
  intros s'. subst s'. unfold receiveDest.
  destruct (Z.geb_spec pageNumber 0) as [H0 | H0];
    destruct (Z.ltb_spec pageNumber (numberOfPages s)) as [HN | HN]; simpl;
    try (repeat split; try done; lia).
  destruct (updateCache_page
              (ControlScreen.renderPage pageNumber full visible sizeChanged s))
    as [-> ->].
  destruct (renderPage_page pageNumber full visible sizeChanged s) as [-> ->].
  repeat split; try done; try lia.
  intros _. apply clampPage_range; lia.
Qed.

End DestFacts.
